(** * Basera multi-layer thinking core and its knowledge stores

    A shallow embedding of
    - [complete_multi_layer_thinking_core.py]: [ThinkingLayer] and
      [CompleteMultiLayerThinkingCore];
    - [specialized_databases.py]: [BaseSpecializedDatabase] and
      [MathematicalDatabase];
    - [additional_specialized_databases.py]:
      [CompleteSpecializedDatabaseManager], and the stores of
      [LogicalDatabase] and [PhysicalDatabase].

    Beside the rounds of the core, the development covers its status,
    shutdown and targeted calls, the number, symbol and word helpers of
    the layers, and the queries and stores of the databases.

    Conventions.
    - Python methods that mutate [self] are state transformers; a method
      that can raise runs in the monad [M S A := S -> S * Result A], which
      keeps the mutations done before the exception, as Python does.
    - Python [float]s are exact rationals ([Q]); [0.9] is [9/10].
    - Clock readings and fresh identifiers ([datetime.now()], [uuid4()])
      are arguments of the operation that consumes them.
    - [print] is not modelled; what it prints is taken to be printable.
    - The constructor of a layer, which runs code of the base class
      [RevolutionaryMotherEquation], is taken to succeed.
    - A [str] handed to SQLite is a byte string; a [str] that Python
      splits or searches is a list of code points.
    - A limit is any Python [int]: one that does not fit the 64-bit
      INTEGER of SQLite makes [execute] raise [OverflowError].
    - A dict argument is a record of its keys, each absent or present
      with a value of the type the code expects; a value of another
      type is kept where the code can fail on it. *)

From Stdlib Require Import QArith ZArith List String Ascii Lia Permutation Sorted.
From stdpp Require Import base option list gmap strings countable.

Open Scope string_scope.

(** ** Python run-time: results, exceptions, dictionaries *)

Module Py.

(** Outcome of a call: a value, or an exception carried as [str(e)]. *)
Inductive Result (A : Type) : Type :=
| Returned (a : A)
| Raised (msg : string).

Arguments Returned {A} a.
Arguments Raised {A} msg.

(** Computations over a mutable object of type [S] that may raise. *)
Definition M (S A : Type) : Type := S -> S * Result A.

Definition ret {S A} (a : A) : M S A := fun s => (s, Returned a).

Definition raise {S A} (msg : string) : M S A := fun s => (s, Raised msg).

Definition bind {S A B} (m : M S A) (k : A -> M S B) : M S B :=
  fun s => match m s with
           | (s', Returned a) => k a s'
           | (s', Raised e) => (s', Raised e)
           end.

Definition get {S} : M S S := fun s => (s, Returned s).

Definition put {S} (s : S) : M S unit := fun _ => (s, Returned tt).

Definition modify {S} (f : S -> S) : M S unit := fun s => (f s, Returned tt).

(** [try: body except Exception as e: handler e]. *)
Definition try_except {S A} (body : M S A) (handler : string -> M S A) : M S A :=
  fun s => match body s with
           | (s', Returned a) => (s', Returned a)
           | (s', Raised e) => handler e s'
           end.

(** A pure computation that may raise, run without touching the state. *)
Definition lift {S A} (r : Result A) : M S A := fun s => (s, r).

(** Python [dict] with [str] keys: insertion-ordered association list
    without duplicate keys. *)
Definition dict (V : Type) : Type := list (string * V).

Fixpoint dict_get {V} (d : dict V) (k : string) : option V :=
  match d with
  | [] => None
  | (k', v) :: d' => if String.eqb k' k then Some v else dict_get d' k
  end.

(** [d[k] = v]: an existing key keeps its position, a new key goes last. *)
Fixpoint dict_set {V} (d : dict V) (k : string) (v : V) : dict V :=
  match d with
  | [] => [(k, v)]
  | (k', v') :: d' =>
      if String.eqb k' k then (k, v) :: d' else (k', v') :: dict_set d' k v
  end.

Definition dict_keys {V} (d : dict V) : list string := map fst d.

Definition dict_values {V} (d : dict V) : list V := map snd d.

Definition dict_mem {V} (d : dict V) (k : string) : bool :=
  match dict_get d k with Some _ => true | None => false end.

(** Truthiness of a [str]: only the empty string is falsy. *)
Definition str_truthy (s : string) : bool :=
  match s with EmptyString => false | String _ _ => true end.

End Py.

Export Py.

Declare Scope py_scope.
Delimit Scope py_scope with py.
Notation "'do' x <- m ; k" := (Py.bind m (fun x => k))
  (at level 10, x name, m at level 99, k at level 200) : py_scope.
Notation "m ;; k" := (Py.bind m (fun _ => k))
  (at level 100, k at level 200, right associativity) : py_scope.
Open Scope py_scope.

(** ** Enumerations of [complete_multi_layer_thinking_core.py] *)

Inductive ThinkingLayerType : Set :=
| MATHEMATICAL
| LOGICAL
| INTERPRETIVE
| PHYSICAL
| LINGUISTIC
| SYMBOLIC
| VISUAL
| SEMANTIC.

(** [ThinkingLayerType.X.value]. *)
Definition value (t : ThinkingLayerType) : string :=
  match t with
  | MATHEMATICAL => "mathematical"
  | LOGICAL => "logical"
  | INTERPRETIVE => "interpretive"
  | PHYSICAL => "physical"
  | LINGUISTIC => "linguistic"
  | SYMBOLIC => "symbolic"
  | VISUAL => "visual"
  | SEMANTIC => "semantic"
  end.

(** Iteration order of [for layer_type in ThinkingLayerType]. *)
Definition all_layer_types : list ThinkingLayerType :=
  [MATHEMATICAL; LOGICAL; INTERPRETIVE; PHYSICAL; LINGUISTIC; SYMBOLIC; VISUAL; SEMANTIC].

#[export] Instance ThinkingLayerType_eq_dec : EqDecision ThinkingLayerType.
Proof. solve_decision. Defined.

Definition ThinkingLayerType_code (t : ThinkingLayerType) : nat :=
  match t with
  | MATHEMATICAL => 0 | LOGICAL => 1 | INTERPRETIVE => 2 | PHYSICAL => 3
  | LINGUISTIC => 4 | SYMBOLIC => 5 | VISUAL => 6 | SEMANTIC => 7
  end.

Definition ThinkingLayerType_of_code (n : nat) : option ThinkingLayerType :=
  match n with
  | 0 => Some MATHEMATICAL | 1 => Some LOGICAL | 2 => Some INTERPRETIVE
  | 3 => Some PHYSICAL | 4 => Some LINGUISTIC | 5 => Some SYMBOLIC
  | 6 => Some VISUAL | 7 => Some SEMANTIC | _ => None
  end.

#[export] Instance ThinkingLayerType_countable : Countable ThinkingLayerType.
Proof.
  apply (inj_countable ThinkingLayerType_code ThinkingLayerType_of_code).
  intros []; reflexivity.
Defined.

Inductive LayerState : Set :=
| INACTIVE
| PROCESSING
| ACTIVE
| SYNCHRONIZED
| ERROR.

#[export] Instance LayerState_eq_dec : EqDecision LayerState.
Proof. solve_decision. Defined.

(** ** [ThinkingLayer] *)

Module Layer.

(** The part of a layer that the framework hosts but does not define: the
    opaque input, the three theory applications inherited from
    [RevolutionaryMotherEquation] (defined in another module,
    [revolutionary_mother_equation]; they are parameters here and may
    raise), and the domain logic of [_specialized_processing], whose eight
    branches each catch every exception and return a dict with the keys
    ['type'] and ['confidence']. *)
Class LayerLogic : Type := {
  Input : Type;
  Theory : Type;
  Payload : Type;
  apply_zero_duality_theory : ThinkingLayerType -> Input -> Result Theory;
  apply_perpendicularity_theory : ThinkingLayerType -> Input -> string -> Result Theory;
  apply_filament_theory : ThinkingLayerType -> Z -> Result Theory;
  specialized_type : ThinkingLayerType -> Input -> string;
  specialized_confidence : ThinkingLayerType -> Input -> Q;
  specialized_payload : ThinkingLayerType -> Input -> Payload
}.

Section WithLogic.

Context `{LayerLogic}.

(** The dict returned by [_specialized_processing]. *)
Record Specialized : Type := {
  sp_type : string;
  sp_confidence : Q;
  sp_payload : Payload
}.

Definition _specialized_processing (layer_type : ThinkingLayerType) (input_data : Input)
  : Specialized :=
  {| sp_type := specialized_type layer_type input_data;
     sp_confidence := specialized_confidence layer_type input_data;
     sp_payload := specialized_payload layer_type input_data |}.

(** The two shapes of the dict returned by [process_input] (the clock
    fields ['processing_time'] and ['timestamp'] are left out). *)
Inductive LayerResult : Type :=
| SuccessResult (layer_type : string) (zero_duality perpendicularity filament : Theory)
    (specialized : Specialized)
| ErrorRecord (layer_type : string) (error : string).

(** [result.get('error')]. *)
Definition get_error (result : LayerResult) : option string :=
  match result with
  | SuccessResult _ _ _ _ _ => None
  | ErrorRecord _ e => Some e
  end.

(** [result['specialized']] when the key is present. *)
Definition get_specialized (result : LayerResult) : option Specialized :=
  match result with
  | SuccessResult _ _ _ _ sp => Some sp
  | ErrorRecord _ _ => None
  end.

Record PerformanceMetrics : Type := {
  total_processed : nat;
  success_rate : Q
}.

(** The dict built in [_synchronize_layers]; [results.get(name, {})] is
    [None] when the name has no result. *)
Record SyncData : Type := {
  result1 : option LayerResult;
  result2 : option LayerResult
}.

Record SyncEntry : Type := {
  compatibility : Q;
  sync_data : SyncData
}.

Record ThinkingLayer : Type := {
  name : string;
  layer_type : ThinkingLayerType;
  state : LayerState;
  synchronization_data : gmap string SyncEntry;
  performance_metrics : PerformanceMetrics
}.

Definition set_state (st : LayerState) (self : ThinkingLayer) : ThinkingLayer :=
  {| name := name self; layer_type := layer_type self; state := st;
     synchronization_data := synchronization_data self;
     performance_metrics := performance_metrics self |}.

Definition set_synchronization_data (d : gmap string SyncEntry) (self : ThinkingLayer)
  : ThinkingLayer :=
  {| name := name self; layer_type := layer_type self; state := state self;
     synchronization_data := d;
     performance_metrics := performance_metrics self |}.

Definition set_performance_metrics (p : PerformanceMetrics) (self : ThinkingLayer)
  : ThinkingLayer :=
  {| name := name self; layer_type := layer_type self; state := state self;
     synchronization_data := synchronization_data self;
     performance_metrics := p |}.

(** [ThinkingLayer.__init__] with the default name. *)
Definition new_ThinkingLayer (layer_type : ThinkingLayerType) : ThinkingLayer :=
  {| name := "ThinkingLayer_" ++ value layer_type;
     layer_type := layer_type;
     state := INACTIVE;
     synchronization_data := ∅;
     performance_metrics := {| total_processed := 0; success_rate := 0 |} |}.

(** [_update_performance_metrics]; the running mean of the processing time
    is a clock reading and is left out. *)
Definition _update_performance_metrics (success : bool) (self : ThinkingLayer)
  : ThinkingLayer :=
  let total := S (total_processed (performance_metrics self)) in
  let current_success :=
    (success_rate (performance_metrics self) * inject_Z (Z.of_nat (total - 1)))%Q in
  let rate :=
    if success then ((current_success + 1) / inject_Z (Z.of_nat total))%Q
    else (current_success / inject_Z (Z.of_nat total))%Q in
  set_performance_metrics {| total_processed := total; success_rate := rate |} self.

Definition process_input (input_data : Input) : M ThinkingLayer LayerResult :=
  modify (set_state PROCESSING) ;;
  try_except
    (do self <- get ;
     do zero_duality_result <- lift (apply_zero_duality_theory (layer_type self) input_data) ;
     do perpendicularity_result <-
       lift (apply_perpendicularity_theory (layer_type self) input_data "layer_context") ;
     do filament_result <- lift (apply_filament_theory (layer_type self) 3) ;
     let specialized_result := _specialized_processing (layer_type self) input_data in
     let result :=
       SuccessResult (value (layer_type self)) zero_duality_result
         perpendicularity_result filament_result specialized_result in
     modify (set_state ACTIVE) ;;
     modify (_update_performance_metrics true) ;;
     ret result)
    (fun e =>
     modify (set_state ERROR) ;;
     modify (_update_performance_metrics false) ;;
     do self <- get ;
     ret (ErrorRecord (value (layer_type self)) e)).

(** The dict literal [compatibility_matrix] of [_calculate_compatibility]. *)
Definition compatibility_matrix : list (ThinkingLayerType * ThinkingLayerType * Q) :=
  [ (MATHEMATICAL, LOGICAL, 0.9%Q);
    (SYMBOLIC, VISUAL, 0.8%Q);
    (LINGUISTIC, SEMANTIC, 0.9%Q);
    (PHYSICAL, MATHEMATICAL, 0.8%Q);
    (INTERPRETIVE, SEMANTIC, 0.8%Q) ].

(** [compatibility_matrix[pair]] when [pair in compatibility_matrix]. *)
Fixpoint matrix_get (m : list (ThinkingLayerType * ThinkingLayerType * Q))
  (pair : ThinkingLayerType * ThinkingLayerType) : option Q :=
  match m with
  | [] => None
  | (a, b, c) :: m' =>
      if decide ((a, b) = pair) then Some c else matrix_get m' pair
  end.

Definition _calculate_compatibility (self other_layer : ThinkingLayer) (sync : SyncData) : Q :=
  let base_compatibility := 0.5%Q in
  let layer_pair := (layer_type self, layer_type other_layer) in
  let reverse_pair := (layer_type other_layer, layer_type self) in
  match matrix_get compatibility_matrix layer_pair with
  | Some c => c
  | None =>
      match matrix_get compatibility_matrix reverse_pair with
      | Some c => c
      | None => base_compatibility
      end
  end.

Definition synchronize_with_layer (other_layer : ThinkingLayer) (sync : SyncData)
  : M ThinkingLayer Q :=
  try_except
    (do self <- get ;
     let compat := _calculate_compatibility self other_layer sync in
     modify (fun s =>
       set_synchronization_data
         (<[value (layer_type other_layer) := {| compatibility := compat; sync_data := sync |}]>
            (synchronization_data s)) s) ;;
     (if Qlt_le_dec 0.7 compat then modify (set_state SYNCHRONIZED) else ret tt) ;;
     ret compat)
    (fun e => ret 0%Q).

End WithLogic.

End Layer.

(** ** [CompleteMultiLayerThinkingCore] *)

Module Core.

Import Layer.

(** What the core asks of its [database_manager]: the one method it calls,
    [store_learning(layer_name, learning_data)], which mutates the manager
    and may raise. *)
Class DatabaseManager (Mgr LearningData : Type) : Type := {
  store_learning : string -> LearningData -> M Mgr unit
}.

#[export] Hint Mode DatabaseManager ! - : typeclass_instances.

Section WithManager.

Context `{LayerLogic}.

(** The dict [learning_data] built in [comprehensive_processing]. *)
Record LearningData : Type := {
  ld_input : Input;
  ld_output : LayerResult;
  ld_source : string;
  ld_performance : Q
}.

Context {Mgr : Type} `{!DatabaseManager Mgr LearningData}.

Record CoreStatistics : Type := {
  stats_total_processed : nat;
  successful_processing : nat;
  average_sync_level : Q
}.

Record ThinkingCore : Type := {
  core_name : string;
  layers : dict ThinkingLayer;
  database_manager : option Mgr;
  synchronization_matrix : gmap string (gmap string Q);
  core_statistics : CoreStatistics
}.

Definition set_layers (l : dict ThinkingLayer) (self : ThinkingCore) : ThinkingCore :=
  {| core_name := core_name self; layers := l;
     database_manager := database_manager self;
     synchronization_matrix := synchronization_matrix self;
     core_statistics := core_statistics self |}.

Definition set_database_manager (m : option Mgr) (self : ThinkingCore) : ThinkingCore :=
  {| core_name := core_name self; layers := layers self;
     database_manager := m;
     synchronization_matrix := synchronization_matrix self;
     core_statistics := core_statistics self |}.

Definition set_synchronization_matrix (m : gmap string (gmap string Q)) (self : ThinkingCore)
  : ThinkingCore :=
  {| core_name := core_name self; layers := layers self;
     database_manager := database_manager self;
     synchronization_matrix := m;
     core_statistics := core_statistics self |}.

Definition set_core_statistics (c : CoreStatistics) (self : ThinkingCore) : ThinkingCore :=
  {| core_name := core_name self; layers := layers self;
     database_manager := database_manager self;
     synchronization_matrix := synchronization_matrix self;
     core_statistics := c |}.

(** A method call on the object [self.layers[layer_name]]: the dict holds
    a reference, so the callee's mutations are seen through the dict. *)
Definition on_layer {A} (layer_name : string) (m : M ThinkingLayer A) : M ThinkingCore A :=
  fun self =>
    match dict_get (layers self) layer_name with
    | None => (self, Raised "KeyError")
    | Some layer =>
        let (layer', r) := m layer in
        (set_layers (dict_set (layers self) layer_name layer') self, r)
    end.

(** A method call on [self.database_manager]. *)
Definition on_manager {A} (mgr : Mgr) (m : M Mgr A) : M ThinkingCore A :=
  fun self =>
    let (mgr', r) := m mgr in
    (set_database_manager (Some mgr') self, r).

(** [self.synchronization_matrix[row][col] = v]: [KeyError] when the row
    dict is missing. *)
Definition matrix_set (row col : string) (v : Q) : M ThinkingCore unit :=
  fun self =>
    match synchronization_matrix self !! row with
    | None => (self, Raised "KeyError")
    | Some r =>
        (set_synchronization_matrix
           (<[row := <[col := v]> r]> (synchronization_matrix self)) self,
         Returned tt)
    end.

(** [_initialize_synchronization_matrix]: a row per key, holding [0.0] for
    every key at another position. *)
Definition zero_row (layer_types : list string) (i : nat) : gmap string Q :=
  fold_left
    (fun row '(j, layer2) => if Nat.eqb i j then row else <[layer2 := 0%Q]> row)
    (combine (seq 0 (length layer_types)) layer_types) ∅.

Definition _initialize_synchronization_matrix (self : ThinkingCore) : ThinkingCore :=
  let layer_types := dict_keys (layers self) in
  set_synchronization_matrix
    (fold_left
       (fun m '(i, layer1) => <[layer1 := zero_row layer_types i]> m)
       (combine (seq 0 (length layer_types)) layer_types)
       (synchronization_matrix self))
    self.

(** [initialize_core]; [make_manager] is the outcome of the constructor
    call [CompleteSpecializedDatabaseManager()]. *)
Definition initialize_core (make_manager : Result Mgr) : M ThinkingCore unit :=
  try_except
    (modify (fun self =>
       fold_left
         (fun s layer_type =>
            set_layers (dict_set (layers s) (value layer_type) (new_ThinkingLayer layer_type)) s)
         all_layer_types self) ;;
     do mgr <- lift make_manager ;
     modify (set_database_manager (Some mgr)) ;;
     modify _initialize_synchronization_matrix)
    (fun e => ret tt).

(** [CompleteMultiLayerThinkingCore.__init__]. *)
Definition new_ThinkingCore (core_name : string) (make_manager : Result Mgr) : ThinkingCore :=
  fst (initialize_core make_manager
         {| core_name := core_name;
            layers := [];
            database_manager := None;
            synchronization_matrix := ∅;
            core_statistics :=
              {| stats_total_processed := 0; successful_processing := 0;
                 average_sync_level := 0 |} |}).

(** The loop of [comprehensive_processing] over [active_layers]; [results]
    is the local dict being filled. *)
Fixpoint process_layers (input_data : Input) (active_layers : list string)
  (results : dict LayerResult) : M ThinkingCore (dict LayerResult) :=
  match active_layers with
  | [] => ret results
  | layer_name :: rest =>
      do self <- get ;
      if dict_mem (layers self) layer_name then
        do layer_result <- on_layer layer_name (process_input input_data) ;
        let results := dict_set results layer_name layer_result in
        (match database_manager self with
         | Some mgr =>
             let learning_data :=
               {| ld_input := input_data;
                  ld_output := layer_result;
                  ld_source := "core_processing";
                  ld_performance := 0.5 |} in
             on_manager mgr (store_learning layer_name learning_data)
         | None => ret tt
         end) ;;
        process_layers input_data rest results
      else process_layers input_data rest results
  end.

(** Inner loop of [_synchronize_layers]: [layer2_name] ranges over
    [active_layers[i+1:]]; the accumulator is [(total_sync, sync_count)]. *)
Fixpoint sync_inner (layer1_name : string) (rest : list string)
  (results : dict LayerResult) (acc : Q * nat) : M ThinkingCore (Q * nat) :=
  match rest with
  | [] => ret acc
  | layer2_name :: rest' =>
      do self <- get ;
      match dict_get (layers self) layer1_name, dict_get (layers self) layer2_name with
      | Some layer1, Some layer2 =>
          let sync :=
            {| result1 := dict_get results layer1_name;
               result2 := dict_get results layer2_name |} in
          do sync_level <- on_layer layer1_name (synchronize_with_layer layer2 sync) ;
          matrix_set layer1_name layer2_name sync_level ;;
          matrix_set layer2_name layer1_name sync_level ;;
          sync_inner layer1_name rest' results ((fst acc + sync_level)%Q, S (snd acc))
      | _, _ => sync_inner layer1_name rest' results acc
      end
  end.

(** Outer loop of [_synchronize_layers]. *)
Fixpoint sync_outer (active_layers : list string) (results : dict LayerResult)
  (acc : Q * nat) : M ThinkingCore (Q * nat) :=
  match active_layers with
  | [] => ret acc
  | layer1_name :: rest =>
      do acc' <- sync_inner layer1_name rest results acc ;
      sync_outer rest results acc'
  end.

Definition _synchronize_layers (active_layers : list string) (results : dict LayerResult)
  : M ThinkingCore Q :=
  if (length active_layers <? 2)%nat then ret 1%Q
  else
    do acc <- sync_outer active_layers results (0%Q, 0%nat) ;
    ret (if (0 <? snd acc)%nat then (fst acc / inject_Z (Z.of_nat (snd acc)))%Q else 0%Q).

(** The dict built by [_apply_revolutionary_synthesis]: four constant
    entries, and three more when at least two layers reported. *)
Record Synthesis : Type := {
  zero_duality_manifestation : string;
  perpendicular_integration : string;
  filament_construction : string;
  unified_understanding : string;
  duality_detected : option bool;
  integration_possible : option bool;
  complexity_level : option nat
}.

Record IntegratedAnalysis : Type := {
  total_layers : nat;
  successful_layers : nat;
  average_confidence : Q;
  dominant_themes : list string;
  cross_layer_insights : list string;
  revolutionary_synthesis : Synthesis
}.

(** [not result.get('error')]: the key is absent, or its text is empty. *)
Definition no_error (result : LayerResult) : bool :=
  match get_error result with
  | None => true
  | Some e => negb (str_truthy e)
  end.

(** The list [confidences] after the loop of [_integrate_layer_results]. *)
Definition collect_confidences (results : dict LayerResult) : list Q :=
  flat_map
    (fun result =>
       if no_error result then
         match get_specialized result with
         | Some sp => [sp_confidence sp]
         | None => []
         end
       else [])
    (dict_values results).

(** The list [themes] after the same loop. *)
Definition collect_themes (results : dict LayerResult) : list string :=
  flat_map
    (fun result =>
       if no_error result then
         match get_specialized result with
         | Some sp => [sp_type sp]
         | None => []
         end
       else [])
    (dict_values results).

(** [sum(confidences)]: left to right from [0]. *)
Definition py_sum (l : list Q) : Q := fold_left Qplus l 0%Q.

Definition _generate_cross_layer_insights (results : dict LayerResult) : list string :=
  (if dict_mem results "mathematical" && dict_mem results "physical"
   then ["mathematical_physical_convergence"] else [])
  ++ (if dict_mem results "symbolic" && dict_mem results "visual"
      then ["symbolic_visual_harmony"] else [])
  ++ (if dict_mem results "linguistic" && dict_mem results "semantic"
      then ["linguistic_semantic_coherence"] else [])
  ++ (if dict_mem results "logical" && dict_mem results "interpretive"
      then ["logical_interpretive_synthesis"] else []).

Definition _apply_revolutionary_synthesis (results : dict LayerResult) : Synthesis :=
  let many := (2 <=? length results)%nat in
  {| zero_duality_manifestation := "كل نتيجة تحتوي على ضدها المتوازن";
     perpendicular_integration := "النتائج المتضادة تتكامل بالتعامد";
     filament_construction := "النتائج المعقدة مبنية من فتائل بسيطة";
     unified_understanding := "فهم موحد من تعدد الطبقات";
     duality_detected := if many then Some true else None;
     integration_possible := if many then Some true else None;
     complexity_level := if many then Some (length results) else None |}.

(** [_integrate_layer_results]. [list(set(themes))] keeps one copy of each
    theme; Python leaves the order of a set open, [remove_dups] fixes
    one. *)
Definition _integrate_layer_results (results : dict LayerResult) : IntegratedAnalysis :=
  let confidences := collect_confidences results in
  let themes := collect_themes results in
  {| total_layers := length results;
     successful_layers := length (List.filter no_error (dict_values results));
     average_confidence :=
       match confidences with
       | [] => 0%Q
       | _ :: _ => (py_sum confidences / inject_Z (Z.of_nat (length confidences)))%Q
       end;
     dominant_themes := remove_dups themes;
     cross_layer_insights := _generate_cross_layer_insights results;
     revolutionary_synthesis := _apply_revolutionary_synthesis results |}.

Definition _update_core_statistics (success : bool) (sync_level : Q) (self : ThinkingCore)
  : ThinkingCore :=
  let st := core_statistics self in
  let total := S (stats_total_processed st) in
  let current_avg := average_sync_level st in
  set_core_statistics
    {| stats_total_processed := total;
       successful_processing :=
         if success then S (successful_processing st) else successful_processing st;
       average_sync_level :=
         ((current_avg * inject_Z (Z.of_nat (total - 1)) + sync_level)
          / inject_Z (Z.of_nat total))%Q |}
    self.

(** The two shapes of the dict returned by [comprehensive_processing]:
    [final_result] (['success': True]) and [error_result]
    (['success': False]); clock fields are left out. *)
Inductive RoundResult : Type :=
| FinalResult (processing_layers : list string) (layer_results : dict LayerResult)
    (synchronization_level : Q) (integrated_analysis : IntegratedAnalysis)
| ErrorResult (processing_layers : list string) (error : string).

Definition success (r : RoundResult) : bool :=
  match r with
  | FinalResult _ _ _ _ => true
  | ErrorResult _ _ => false
  end.

(** [target_layers if target_layers else list(self.layers.keys())]. *)
Definition resolve_layers (self : ThinkingCore) (target_layers : option (list string))
  : list string :=
  match target_layers with
  | Some (l :: ls) => l :: ls
  | Some [] | None => dict_keys (layers self)
  end.

Definition comprehensive_processing (input_data : Input) (target_layers : option (list string))
  : M ThinkingCore RoundResult :=
  do self <- get ;
  let active_layers := resolve_layers self target_layers in
  try_except
    (do results <- process_layers input_data active_layers [] ;
     do sync_level <- _synchronize_layers active_layers results ;
     let integrated_analysis := _integrate_layer_results results in
     let final_result :=
       FinalResult active_layers results sync_level integrated_analysis in
     modify (_update_core_statistics true sync_level) ;;
     ret final_result)
    (fun e =>
     let error_result := ErrorResult active_layers e in
     modify (_update_core_statistics false 0%Q) ;;
     ret error_result).

(** The two shapes of the dict returned by [targeted_processing]. *)
Inductive TargetedResult : Type :=
| TargetedError (requested_layers available_layers : list string)
| TargetedResults (targeted_layers : list string) (results : dict LayerResult).

(** The loop of [targeted_processing]. *)
Fixpoint targeted_loop (input_data : Input) (available_layers : list string)
  (results : dict LayerResult) : M ThinkingCore (dict LayerResult) :=
  match available_layers with
  | [] => ret results
  | layer_name :: rest =>
      do layer_result <- on_layer layer_name (process_input input_data) ;
      targeted_loop input_data rest (dict_set results layer_name layer_result)
  end.

Definition targeted_processing (input_data : Input) (target_layers : list string)
  : M ThinkingCore TargetedResult :=
  do self <- get ;
  let available_layers := List.filter (fun layer => dict_mem (layers self) layer) target_layers in
  match available_layers with
  | [] => ret (TargetedError target_layers (dict_keys (layers self)))
  | _ :: _ =>
      do results <- targeted_loop input_data available_layers [] ;
      ret (TargetedResults available_layers results)
  end.

End WithManager.

Arguments ThinkingCore {_} Mgr.

End Core.

(** ** SQLite tables as used by [specialized_databases.py] *)

Module Sql.

(** A table whose first column is [id INTEGER PRIMARY KEY AUTOINCREMENT]:
    the rows in rowid order and the largest rowid handed out so far. *)
Record Table (Row : Type) : Type := {
  rows : list Row;
  sequence : Z
}.

Arguments rows {Row} t.
Arguments sequence {Row} t.

Definition empty_table {Row} : Table Row := {| rows := []; sequence := 0 |}.

Section Statements.

Context {Row : Type}.

(** [key] reads the [TEXT UNIQUE] column; [mk id] is the row to insert
    once its rowid is known. *)
Variable key : Row -> string.

Definition conflicts (k : string) (r : Row) : bool := String.eqb (key r) k.

(** [INSERT OR REPLACE]: rows that collide on the unique column are
    deleted, then the new row is stored under a fresh rowid. *)
Definition insert_or_replace (mk : Z -> Row) (t : Table Row) : Table Row :=
  let id := (sequence t + 1)%Z in
  let r := mk id in
  {| rows := List.filter (fun old => negb (conflicts (key r) old)) (rows t) ++ [r];
     sequence := id |}.

(** [INSERT OR IGNORE]: no row is written when the unique column
    collides, but the rowid drawn for the statement is used up: SQLite
    records it in [sqlite_sequence] all the same. *)
Definition insert_or_ignore (mk : Z -> Row) (t : Table Row) : Table Row :=
  let id := (sequence t + 1)%Z in
  let r := mk id in
  if existsb (conflicts (key r)) (rows t) then {| rows := rows t; sequence := id |}
  else {| rows := rows t ++ [r]; sequence := id |}.

(** The rows stored under a given value of the unique column. *)
Definition select_by_key (k : string) (t : Table Row) : list Row :=
  List.filter (conflicts k) (rows t).

End Statements.

(** SQLite folds the case of ASCII letters only. *)
Definition ascii_lower (c : ascii) : ascii :=
  let n := N_of_ascii c in
  if ((65 <=? n) && (n <=? 90))%N then ascii_of_N (n + 32) else c.

(** [text LIKE pattern] without [ESCAPE]: [%] stands for any run of
    characters, [_] for any one character, letters match without case. *)
Fixpoint like (pattern text : string) : bool :=
  match pattern with
  | EmptyString =>
      match text with EmptyString => true | String _ _ => false end
  | String p pattern' =>
      if Ascii.eqb p "%" then
        (fix any_run (t : string) : bool :=
           like pattern' t
           || match t with
              | EmptyString => false
              | String _ t' => any_run t'
              end) text
      else
        match text with
        | EmptyString => false
        | String c text' =>
            (Ascii.eqb p "_" || Ascii.eqb (ascii_lower p) (ascii_lower c))
            && like pattern' text'
        end
  end.

(** The bound parameter [f'%{query}%']. *)
Definition contains_pattern (query : string) : string := "%" ++ query ++ "%".

Section OrderBy.

Context {Row : Type}.

(** [before a b]: the [ORDER BY] terms allow [a] to come before [b]. *)
Variable before : Row -> Row -> bool.

Fixpoint insert_row (x : Row) (l : list Row) : list Row :=
  match l with
  | [] => [x]
  | y :: l' => if before x y then x :: y :: l' else y :: insert_row x l'
  end.

(** [ORDER BY]: a sort of the selected rows; rows that tie keep their
    rowid order. *)
Definition order_by (l : list Row) : list Row := fold_right insert_row [] l.

End OrderBy.

(** [LIMIT n]: a negative [n] means no limit. *)
Definition limit {A} (n : Z) (l : list A) : list A :=
  if (n <? 0)%Z then l else firstn (Z.to_nat n) l.

(** The Python slice [l[:n]]: a negative [n] counts from the end. *)
Definition py_slice_to {A} (n : Z) (l : list A) : list A :=
  if (n <? 0)%Z then firstn (length l - Z.to_nat (- n)) l
  else firstn (Z.to_nat n) l.

(** An [int] bound to a [?] has to fit the 64-bit INTEGER of SQLite. *)
Definition sqlite_integer (n : Z) : bool := ((- 2 ^ 63 <=? n) && (n <? 2 ^ 63))%Z.

(** [cursor.execute(sql, (..., n))] followed by the code that reads the
    rows: for an [n] that does not fit, [execute] raises [OverflowError]
    before the statement runs. *)
Definition bind_integer {A} (n : Z) (run : A) : Result A :=
  if sqlite_integer n then Returned run
  else Raised "Python int too large to convert to SQLite INTEGER".

End Sql.

(** ** [BaseSpecializedDatabase], [MathematicalDatabase] and the manager *)

Module Databases.

Import Sql.

Inductive LearningSource : Set :=
| USER_INTERACTION
| INTERNET_RESEARCH
| SELF_ANALYSIS
| PATTERN_DISCOVERY
| ERROR_CORRECTION
| CROSS_LAYER_LEARNING.

Definition source_value (s : LearningSource) : string :=
  match s with
  | USER_INTERACTION => "user_interaction"
  | INTERNET_RESEARCH => "internet_research"
  | SELF_ANALYSIS => "self_analysis"
  | PATTERN_DISCOVERY => "pattern_discovery"
  | ERROR_CORRECTION => "error_correction"
  | CROSS_LAYER_LEARNING => "cross_layer_learning"
  end.

(** The values handed to [json.dumps]: [Json] ranges over what it can
    serialise, [empty_dict] is [{}]. *)
Class JsonCodec : Type := {
  Json : Type;
  json_dumps : Json -> string;
  empty_dict : Json
}.

(** Row of [learning_sessions]. *)
Record LearningSession : Type := {
  ls_id : Z;
  session_id : string;
  timestamp : string;
  source : string;
  data_type : string;
  success : bool;
  metadata : string
}.

(** Row of [discovered_patterns]. *)
Record DiscoveredPattern : Type := {
  dp_id : Z;
  pattern_id : string;
  pattern_type : string;
  pattern_data : string;
  confidence : Q;
  discovery_date : string;
  usage_count : Z
}.

(** Row of [error_corrections]. *)
Record ErrorCorrection : Type := {
  ec_id : Z;
  error_id : string;
  error_type : string;
  error_data : string;
  correction_data : string;
  correction_date : string;
  effectiveness : Q
}.

(** The state of a [BaseSpecializedDatabase]: its three base tables and
    the Python-side counters. *)
Record BaseSpecializedDatabase : Type := {
  db_name : string;
  db_layer_type : ThinkingLayerType;
  tbl_learning_sessions : Table LearningSession;
  tbl_discovered_patterns : Table DiscoveredPattern;
  tbl_error_corrections : Table ErrorCorrection;
  learning_sessions : nat;
  total_entries : nat;
  last_update : option string
}.

(** The database file as found on disk by [sqlite3.connect]: a new file
    has no table yet, which [CREATE TABLE IF NOT EXISTS] turns into empty
    tables. *)
Definition _create_base_tables (db_name : string) (layer_type : ThinkingLayerType)
  (on_disk : option (Table LearningSession * Table DiscoveredPattern * Table ErrorCorrection))
  : BaseSpecializedDatabase :=
  let '(ls, dp, ec) :=
    match on_disk with
    | Some t => t
    | None => (empty_table, empty_table, empty_table)
    end in
  {| db_name := db_name;
     db_layer_type := layer_type;
     tbl_learning_sessions := ls;
     tbl_discovered_patterns := dp;
     tbl_error_corrections := ec;
     learning_sessions := 0;
     total_entries := 0;
     last_update := None |}.

Section WithJson.

Context `{JsonCodec}.

(** [metadata or {}]. *)
Definition metadata_or_empty (metadata : option Json) : Json :=
  match metadata with
  | Some m => m
  | None => empty_dict
  end.

(** [log_learning_session]; [now] is the clock reading stored in the row,
    [updated] the later one kept in [last_update]. *)
Definition log_learning_session (session_id : string) (source : LearningSource)
  (data_type : string) (success : bool) (metadata : option Json) (now updated : string)
  (self : BaseSpecializedDatabase) : BaseSpecializedDatabase :=
  {| db_name := db_name self;
     db_layer_type := db_layer_type self;
     tbl_learning_sessions :=
       insert_or_replace Databases.session_id
         (fun id =>
            {| ls_id := id;
               session_id := session_id;
               timestamp := now;
               source := source_value source;
               data_type := data_type;
               success := success;
               metadata := json_dumps (metadata_or_empty metadata) |})
         (tbl_learning_sessions self);
     tbl_discovered_patterns := tbl_discovered_patterns self;
     tbl_error_corrections := tbl_error_corrections self;
     learning_sessions := S (learning_sessions self);
     total_entries := total_entries self;
     last_update := Some updated |}.

(** [store_pattern]; [now] is [datetime.now().isoformat()], and the column
    [usage_count] takes its default [0]. *)
Definition store_pattern (pattern_id pattern_type : string) (pattern_data : Json)
  (confidence : Q) (now : string) (self : BaseSpecializedDatabase)
  : BaseSpecializedDatabase :=
  {| db_name := db_name self;
     db_layer_type := db_layer_type self;
     tbl_learning_sessions := tbl_learning_sessions self;
     tbl_discovered_patterns :=
       insert_or_replace Databases.pattern_id
         (fun id =>
            {| dp_id := id;
               pattern_id := pattern_id;
               pattern_type := pattern_type;
               pattern_data := json_dumps pattern_data;
               confidence := confidence;
               discovery_date := now;
               usage_count := 0 |})
         (tbl_discovered_patterns self);
     tbl_error_corrections := tbl_error_corrections self;
     learning_sessions := learning_sessions self;
     total_entries := total_entries self;
     last_update := last_update self |}.

End WithJson.

(** Row of [equations]. *)
Record Equation : Type := {
  eq_id : Z;
  equation_id : string;
  equation_type : string;
  equation_formula : string;
  parameters : string;
  domain : string;
  range_info : string;
  accuracy : Q;
  eq_usage_count : Z;
  creation_date : string
}.

(** Row of [mathematical_constants]. *)
Record Constant : Type := {
  const_id : Z;
  constant_name : string;
  constant_value : Q;
  constant_description : string;
  precision_level : Z;
  const_source : string;
  verification_date : string
}.

(** Row of [applied_theories]. *)
Record AppliedTheory : Type := {
  th_id : Z;
  theory_id : string;
  theory_name : string;
  theory_type : string;
  application_context : string;
  results : string;
  th_effectiveness : Q;
  application_date : string
}.

(** Row of [mathematical_models]. *)
Record MathematicalModel : Type := {
  mm_id : Z;
  model_id : string;
  model_name : string;
  model_type : string;
  input_variables : string;
  output_variables : string;
  model_data : string;
  mm_performance_metrics : string;
  mm_creation_date : string
}.

Record MathematicalDatabase : Type := {
  base : BaseSpecializedDatabase;
  equations : Table Equation;
  mathematical_models : Table MathematicalModel;
  mathematical_constants : Table Constant;
  applied_theories : Table AppliedTheory
}.

(** The list [constants] of [_insert_initial_data]; [np.pi], [np.e] and
    [np.sqrt(2)] are written with the digits of their [repr]. *)
Definition initial_constants : list (string * Q * string * Z * string) :=
  [ ("pi", 3.141592653589793%Q, "النسبة بين محيط الدائرة وقطرها", 15%Z, "mathematical_definition");
    ("e", 2.718281828459045%Q, "أساس اللوغاريتم الطبيعي", 15%Z, "mathematical_definition");
    ("golden_ratio", 1.618033988749895%Q, "النسبة الذهبية", 15%Z, "mathematical_definition");
    ("sqrt_2", 1.4142135623730951%Q, "الجذر التربيعي للعدد 2", 15%Z, "mathematical_definition") ].

(** The list [theories] of [_insert_initial_data]. *)
Definition initial_theories : list (string * string * string * string * string * Q) :=
  [ ("zero_duality_theory", "نظرية ثنائية الصفر", "revolutionary",
     "تطبيق رياضي", "انبثاق الأضداد من الصفر", 0.95%Q);
    ("perpendicularity_theory", "نظرية التعامد", "revolutionary",
     "تطبيق رياضي", "تعامد الأضداد لمنع الفناء", 0.95%Q);
    ("filament_theory", "نظرية الفتائل", "revolutionary",
     "تطبيق رياضي", "بناء التعقيد من الوحدات الأساسية", 0.95%Q) ].

(** [_insert_initial_data]; one clock reading [now] stands for those of
    the two loops. *)
Definition _insert_initial_data (now : string) (self : MathematicalDatabase)
  : MathematicalDatabase :=
  {| base := base self;
     equations := equations self;
     mathematical_models := mathematical_models self;
     mathematical_constants :=
       fold_left
         (fun t '(name, v, desc, precision, src) =>
            insert_or_ignore constant_name
              (fun id =>
                 {| const_id := id; constant_name := name; constant_value := v;
                    constant_description := desc; precision_level := precision;
                    const_source := src; verification_date := now |}) t)
         initial_constants (mathematical_constants self);
     applied_theories :=
       fold_left
         (fun t '(tid, name, ty, context, res, eff) =>
            insert_or_ignore theory_id
              (fun id =>
                 {| th_id := id; theory_id := tid; theory_name := name; theory_type := ty;
                    application_context := context; results := res;
                    th_effectiveness := eff; application_date := now |}) t)
         initial_theories (applied_theories self) |}.

(** The four tables of the class as found on disk. *)
Record MathematicalTables : Type := {
  disk_equations : Table Equation;
  disk_models : Table MathematicalModel;
  disk_constants : Table Constant;
  disk_theories : Table AppliedTheory
}.

(** [MathematicalDatabase.__init__], which runs [_initialize_tables]. *)
Definition new_MathematicalDatabase
  (base_on_disk :
     option (Table LearningSession * Table DiscoveredPattern * Table ErrorCorrection))
  (on_disk : option MathematicalTables) (now : string) : MathematicalDatabase :=
  let b := _create_base_tables "mathematical_knowledge" MATHEMATICAL base_on_disk in
  _insert_initial_data now
    match on_disk with
    | Some t =>
        {| base := b; equations := disk_equations t; mathematical_models := disk_models t;
           mathematical_constants := disk_constants t; applied_theories := disk_theories t |}
    | None =>
        {| base := b; equations := empty_table; mathematical_models := empty_table;
           mathematical_constants := empty_table; applied_theories := empty_table |}
    end.

(** A value of a result dict. [KJson text] is [json.loads(text)]; the
    columns read this way hold what [json.dumps] has written. *)
Inductive KnowledgeValue : Type :=
| KText (s : string)
| KInt (z : Z)
| KReal (q : Q)
| KJson (text : string).

(** One result dict of [retrieve_knowledge]. *)
Definition Knowledge : Type := dict KnowledgeValue.

(** [ORDER BY accuracy DESC, usage_count DESC]. *)
Definition equation_before (a b : Equation) : bool :=
  match (accuracy a ?= accuracy b)%Q with
  | Gt => true
  | Lt => false
  | Eq => (eq_usage_count b <=? eq_usage_count a)%Z
  end.

(** [ORDER BY precision_level DESC]. *)
Definition constant_before (a b : Constant) : bool :=
  (precision_level b <=? precision_level a)%Z.

(** [WHERE equation_type LIKE ? OR equation_formula LIKE ?]. *)
Definition equation_matches (query : string) (r : Equation) : bool :=
  like (contains_pattern query) (equation_type r)
  || like (contains_pattern query) (equation_formula r).

(** [WHERE constant_name LIKE ? OR constant_description LIKE ?]. *)
Definition constant_matches (query : string) (r : Constant) : bool :=
  like (contains_pattern query) (constant_name r)
  || like (contains_pattern query) (constant_description r).

Definition select_equations (query : string) (n : Z) (self : MathematicalDatabase)
  : list Equation :=
  limit n (order_by equation_before (List.filter (equation_matches query) (rows (equations self)))).

Definition select_constants (query : string) (n : Z) (self : MathematicalDatabase)
  : list Constant :=
  limit n
    (order_by constant_before
       (List.filter (constant_matches query) (rows (mathematical_constants self)))).

(** The dict built from a row of [equations]. The code reads [row[6]]
    for ['accuracy'] and [row[7]] for ['usage_count']: these are the
    columns [range_info] and [accuracy]. *)
Definition equation_record (row : Equation) : Knowledge :=
  [ ("type", KText "equation");
    ("equation_id", KText (equation_id row));
    ("equation_type", KText (equation_type row));
    ("formula", KText (equation_formula row));
    ("parameters", KJson (parameters row));
    ("accuracy", KText (range_info row));
    ("usage_count", KReal (accuracy row)) ].

Definition constant_record (row : Constant) : Knowledge :=
  [ ("type", KText "constant");
    ("name", KText (constant_name row));
    ("value", KReal (constant_value row));
    ("description", KText (constant_description row));
    ("precision", KInt (precision_level row)) ].

(** [MathematicalDatabase.retrieve_knowledge]; the first [execute]
    already binds [limit]. *)
Definition retrieve_knowledge (query : string) (n : Z) (self : MathematicalDatabase)
  : Result (list Knowledge) :=
  bind_integer n
    (let results :=
       (map equation_record (select_equations query n self)
        ++ map constant_record (select_constants query n self))%list in
     py_slice_to n results).

End Databases.

(** ** [CompleteSpecializedDatabaseManager] *)

Module Manager.

Import Databases.

(** The classes behind [BaseSpecializedDatabase]. The manager reaches a
    database through its two abstract methods only, so the bodies of
    [store_learning] and the classes [LinguisticDatabase],
    [LogicalDatabase], [InterpretiveDatabase] and [PhysicalDatabase] stay
    parameters: [Data] is the [data: Any] argument, [Readings] the clock
    and [uuid4()] readings a [store_learning] call consumes, [Other] the
    state of a database of the four other classes. *)
Class DatabaseClasses : Type := {
  Data : Type;
  Metadata : Type;
  Readings : Type;
  Other : Type;
  mathematical_store_learning :
    Data -> LearningSource -> option Metadata -> Readings ->
    MathematicalDatabase -> MathematicalDatabase;
  other_store_learning :
    Data -> LearningSource -> option Metadata -> Readings -> Other -> Other;
  other_retrieve_knowledge : string -> Z -> Other -> Result (list Knowledge);
  new_LinguisticDatabase : Other;
  new_LogicalDatabase : Other;
  new_InterpretiveDatabase : Other;
  new_PhysicalDatabase : Other
}.

Section WithClasses.

Context `{DatabaseClasses}.

(** A database object: its class and its state. *)
Inductive Database : Type :=
| Mathematical (db : MathematicalDatabase)
| OtherClass (db : Other).

(** [db.store_learning(data, source, metadata)], dispatched on the class. *)
Definition dispatch_store_learning (data : Data) (source : LearningSource)
  (metadata : option Metadata) (r : Readings) (db : Database) : Database :=
  match db with
  | Mathematical m => Mathematical (mathematical_store_learning data source metadata r m)
  | OtherClass o => OtherClass (other_store_learning data source metadata r o)
  end.

(** [db.retrieve_knowledge(query, limit)], dispatched on the class. *)
Definition dispatch_retrieve_knowledge (query : string) (n : Z) (db : Database)
  : Result (list Knowledge) :=
  match db with
  | Mathematical m => Databases.retrieve_knowledge query n m
  | OtherClass o => other_retrieve_knowledge query n o
  end.

Record CompleteSpecializedDatabaseManager : Type := {
  databases : gmap ThinkingLayerType Database;
  learning_sessions : nat
}.

(** [_initialize_all_databases]; [math] is the freshly constructed
    [MathematicalDatabase()]. *)
Definition _initialize_all_databases (math : MathematicalDatabase)
  (self : CompleteSpecializedDatabaseManager) : CompleteSpecializedDatabaseManager :=
  {| databases :=
       <[PHYSICAL := OtherClass new_PhysicalDatabase]>
         (<[INTERPRETIVE := OtherClass new_InterpretiveDatabase]>
            (<[LOGICAL := OtherClass new_LogicalDatabase]>
               (<[LINGUISTIC := OtherClass new_LinguisticDatabase]>
                  (<[MATHEMATICAL := Mathematical math]> (databases self)))));
     learning_sessions := learning_sessions self |}.

(** [CompleteSpecializedDatabaseManager.__init__]. *)
Definition new_CompleteSpecializedDatabaseManager (math : MathematicalDatabase)
  : CompleteSpecializedDatabaseManager :=
  _initialize_all_databases math {| databases := ∅; learning_sessions := 0 |}.

Definition store_learning_for_layer (layer_type : ThinkingLayerType) (data : Data)
  (source : LearningSource) (metadata : option Metadata) (r : Readings)
  (self : CompleteSpecializedDatabaseManager) : CompleteSpecializedDatabaseManager :=
  match databases self !! layer_type with
  | Some db =>
      {| databases :=
           <[layer_type := dispatch_store_learning data source metadata r db]> (databases self);
         learning_sessions := S (learning_sessions self) |}
  | None => self
  end.

Definition retrieve_knowledge_from_layer (layer_type : ThinkingLayerType)
  (query : string) (n : Z) (self : CompleteSpecializedDatabaseManager)
  : Result (list Knowledge) :=
  match databases self !! layer_type with
  | Some db => dispatch_retrieve_knowledge query n db
  | None => Returned []
  end.

(** The core imports a class of this name (from a module
    [complete_specialized_databases]) and calls
    [self.database_manager.store_learning(layer_name, learning_data)] on
    its instance. This class has no attribute [store_learning]: on an
    instance of it the call raises [AttributeError]. *)
Definition getattr_store_learning {LearningData : Type}
  (layer_name : string) (learning_data : LearningData)
  : M CompleteSpecializedDatabaseManager unit :=
  raise "'CompleteSpecializedDatabaseManager' object has no attribute 'store_learning'".

#[export] Instance manager_of_core {LearningData : Type}
  : Core.DatabaseManager CompleteSpecializedDatabaseManager LearningData :=
  {| Core.store_learning := getattr_store_learning |}.

End WithClasses.

End Manager.

(** ** The compatibility table in the words of the specification *)

Module SpecWords.

(** The known-good pairs, each listed in both orders. *)
Definition known_good_pair (a b : ThinkingLayerType) : option Q :=
  match a, b with
  | MATHEMATICAL, LOGICAL | LOGICAL, MATHEMATICAL => Some 0.9%Q
  | SYMBOLIC, VISUAL | VISUAL, SYMBOLIC => Some 0.8%Q
  | LINGUISTIC, SEMANTIC | SEMANTIC, LINGUISTIC => Some 0.9%Q
  | PHYSICAL, MATHEMATICAL | MATHEMATICAL, PHYSICAL => Some 0.8%Q
  | INTERPRETIVE, SEMANTIC | SEMANTIC, INTERPRETIVE => Some 0.8%Q
  | _, _ => None
  end.

(** [baseCompatibility]: the table entry, [0.5] when the pair is absent. *)
Definition base_compatibility (a b : ThinkingLayerType) : Q :=
  match known_good_pair a b with
  | Some c => c
  | None => 0.5%Q
  end.

End SpecWords.

(** ** Notions used to state and prove the properties *)

(** Outcome of a computation: [Q] holds of a returned value and the final
    state, [E] of the state an exception leaves behind. *)
Module Hoare.

Definition triple {S A} (P : S -> Prop) (m : M S A) (Q : A -> S -> Prop) (E : S -> Prop)
  : Prop :=
  forall s, P s ->
    match m s with
    | (s', Returned a) => Q a s'
    | (s', Raised _) => E s'
    end.

End Hoare.

Module LayerNotions.

Import Layer SpecWords.

Section WithLogic.

Context `{LayerLogic}.

(** The layer left behind by a [synchronize_with_layer] call. *)
Definition synchronized_layer (self other : ThinkingLayer) (sync : SyncData) : ThinkingLayer :=
  let c := base_compatibility (layer_type self) (layer_type other) in
  let s1 :=
    set_synchronization_data
      (<[value (layer_type other) := {| compatibility := c; sync_data := sync |}]>
         (synchronization_data self)) self in
  if Qlt_le_dec 0.7 c then set_state SYNCHRONIZED s1 else s1.

(** The three theory applications at the head of [process_input]: the
    first exception ends them. *)
Definition theories (t : ThinkingLayerType) (input_data : Input)
  : Result (Theory * Theory * Theory) :=
  match apply_zero_duality_theory t input_data with
  | Raised e => Raised e
  | Returned z =>
      match apply_perpendicularity_theory t input_data "layer_context" with
      | Raised e => Raised e
      | Returned p =>
          match apply_filament_theory t 3 with
          | Raised e => Raised e
          | Returned f => Returned (z, p, f)
          end
      end
  end.

(** The result a layer of type [t] reports for [input_data]. *)
Definition layer_outcome (t : ThinkingLayerType) (input_data : Input) : LayerResult :=
  match theories t input_data with
  | Returned (z, p, f) =>
      SuccessResult (value t) z p f (_specialized_processing t input_data)
  | Raised e => ErrorRecord (value t) e
  end.

End WithLogic.

End LayerNotions.

Module CoreNotions.

Import Layer Core SpecWords LayerNotions.

#[export] Instance Q_eq_dec : EqDecision Q.
Proof. solve_decision. Defined.

(** [matrix[a][b]] when both keys are present. *)
Definition cell (m : gmap string (gmap string Q)) (a b : string) : option Q :=
  match m !! a with
  | Some row => row !! b
  | None => None
  end.

(** The pairs [(active[i], active[j])] with [i < j], in loop order. *)
Fixpoint index_pairs (active_layers : list string) : list (string * string) :=
  match active_layers with
  | [] => []
  | a :: rest => (map (pair a) rest ++ index_pairs rest)%list
  end.

Definition pair_eq_dec (p q : string * string) : {p = q} + {p <> q} := decide (p = q).

(** The keys of [self.layers] after [initialize_core]. *)
Definition layer_names : list string := map value all_layer_types.

Definition in_names (k : string) : bool := existsb (String.eqb k) layer_names.

(** Every cell of [m] sits at two layer names. *)
Definition cells_named (m : gmap string (gmap string Q)) : bool :=
  forallb
    (fun ar : string * gmap string Q =>
       in_names (fst ar)
       && forallb (fun bv : string * Q => in_names (fst bv)) (map_to_list (snd ar)))
    (map_to_list m).

(** The cells at layer names agree with their mirror images. *)
Definition cells_mirrored (m : gmap string (gmap string Q)) : bool :=
  forallb
    (fun a => forallb (fun b => bool_decide (cell m a b = cell m b a)) layer_names)
    layer_names.

Section WithManager.

Context `{LayerLogic} {Mgr : Type} `{!DatabaseManager Mgr LearningData}.

(** Both names of the pair are keys of [self.layers]. *)
Definition registered_pair (self : ThinkingCore Mgr) (p : string * string) : bool :=
  dict_mem (layers self) (fst p) && dict_mem (layers self) (snd p).

(** The table entry for the layer types behind the two names. *)
Definition pair_score (self : ThinkingCore Mgr) (p : string * string) : Q :=
  match dict_get (layers self) (fst p), dict_get (layers self) (snd p) with
  | Some layer1, Some layer2 => base_compatibility (layer_type layer1) (layer_type layer2)
  | _, _ => 0%Q
  end.

(** Every key of [self.layers] has its row in the matrix. *)
Definition rows_present (self : ThinkingCore Mgr) : Prop :=
  forall k, dict_mem (layers self) k = true -> is_Some (synchronization_matrix self !! k).

(** No key of [self.layers] has a row: [initialize_core] gave up before
    [_initialize_synchronization_matrix]. *)
Definition rows_absent (self : ThinkingCore Mgr) : Prop :=
  forall k, dict_mem (layers self) k = true -> synchronization_matrix self !! k = None.

(** Symmetry of the matrix, with the rows either all there or all missing. *)
Definition matrix_invariant (self : ThinkingCore Mgr) : Prop :=
  (forall a b, cell (synchronization_matrix self) a b = cell (synchronization_matrix self) b a)
  /\ (rows_present self \/ rows_absent self).

(** What a round leaves alone, relative to the core [s0] it starts in:
    the keys of [layers], the type of each layer, the rows of the matrix. *)
Definition framed (s0 s : ThinkingCore Mgr) : Prop :=
  dict_keys (layers s) = dict_keys (layers s0)
  /\ (forall k, layer_type <$> dict_get (layers s) k = layer_type <$> dict_get (layers s0) k)
  /\ (forall k, is_Some (synchronization_matrix s !! k)
                <-> is_Some (synchronization_matrix s0 !! k)).

Definition loop_invariant (s0 s : ThinkingCore Mgr) : Prop :=
  matrix_invariant s /\ framed s0 s.

(** The accumulator [(total_sync, sync_count)] after the loops have
    visited [pairs]. *)
Definition tally (s0 : ThinkingCore Mgr) (pairs : list (string * string)) (acc : Q * nat)
  : Q * nat :=
  fold_left
    (fun acc p =>
       if registered_pair s0 p then ((fst acc + pair_score s0 p)%Q, S (snd acc)) else acc)
    pairs acc.

(** The value returned by [_synchronize_layers]. *)
Definition sync_value (s0 : ThinkingCore Mgr) (active_layers : list string) : Q :=
  if (length active_layers <? 2)%nat then 1%Q
  else
    let acc := tally s0 (index_pairs active_layers) (0%Q, 0%nat) in
    if (0 <? snd acc)%nat then (fst acc / inject_Z (Z.of_nat (snd acc)))%Q else 0%Q.

(** The persistence step never raises. *)
Definition store_total : Prop :=
  forall layer_name (learning_data : LearningData) (mgr : Mgr),
    exists mgr', store_learning layer_name learning_data mgr = (mgr', Returned tt).

(** The dict [results] after the layers named in [active_layers] ran. *)
Definition expected_results (s0 : ThinkingCore Mgr) (input_data : Input)
  (active_layers : list string) (results : dict LayerResult) : dict LayerResult :=
  fold_left
    (fun res layer_name =>
       match dict_get (layers s0) layer_name with
       | Some layer => dict_set res layer_name (layer_outcome (layer_type layer) input_data)
       | None => res
       end)
    active_layers results.

(** The record returned by a round that ran to its end. *)
Definition final_result (s0 : ThinkingCore Mgr) (input_data : Input)
  (active_layers : list string) : RoundResult :=
  let results := expected_results s0 input_data active_layers [] in
  FinalResult active_layers results (sync_value s0 active_layers)
    (_integrate_layer_results results).

(** A sequence of rounds on one core. *)
Definition run_rounds (rounds : list (Input * option (list string))) (self : ThinkingCore Mgr)
  : ThinkingCore Mgr :=
  fold_left (fun s r => fst (comprehensive_processing (fst r) (snd r) s)) rounds self.

End WithManager.

Arguments store_total {_} Mgr {_}.

End CoreNotions.

Module StoreNotions.

Import Sql Databases Manager.

(** Descending order of the ranking keys of [equations]. *)
Definition equations_ranked (l : list Equation) : Prop :=
  StronglySorted
    (fun a b => (accuracy b < accuracy a)%Q
                \/ ((accuracy a == accuracy b)%Q /\ (eq_usage_count b <= eq_usage_count a)%Z))
    l.

(** Descending order of the ranking key of [mathematical_constants]. *)
Definition constants_ranked (l : list Constant) : Prop :=
  StronglySorted (fun a b => (precision_level b <= precision_level a)%Z) l.

Section WithClasses.

Context `{DatabaseClasses}.

(** The store calls a manager has served. *)
Definition StoreCall : Type :=
  ThinkingLayerType * Data * LearningSource * option Metadata * Readings.

Definition run_stores (calls : list StoreCall) (self : CompleteSpecializedDatabaseManager)
  : CompleteSpecializedDatabaseManager :=
  fold_left
    (fun s '(layer_type, data, source, metadata, r) =>
       store_learning_for_layer layer_type data source metadata r s)
    calls self.

End WithClasses.

End StoreNotions.

(** ** Concrete instances for the examples *)

Module Demo.

Import Layer Core Sql Databases Manager CoreNotions.

(** A layer logic for [str] inputs. The theory applications succeed,
    except [apply_filament_theory] on the physical layer, which raises
    with a message, and on the symbolic layer, which raises an exception
    without text. Types and confidences are the ones the branches of
    [_specialized_processing] return when nothing goes wrong. *)
Definition string_logic : LayerLogic :=
  {| Input := string;
     Theory := string;
     Payload := unit;
     apply_zero_duality_theory := fun _ _ => Returned "zero_duality";
     apply_perpendicularity_theory := fun _ _ _ => Returned "perpendicularity";
     apply_filament_theory :=
       fun t _ =>
         match t with
         | PHYSICAL => Raised "unsupported complexity level"
         | SYMBOLIC => Raised ""
         | _ => Returned "filament"
         end;
     specialized_type := fun t _ => value t ++ "_analysis";
     specialized_confidence :=
       fun t _ =>
         match t with
         | INTERPRETIVE | VISUAL => 0.7%Q
         | _ => 0.8%Q
         end;
     specialized_payload := fun _ _ => tt |}.

(** JSON documents given by their text. *)
Definition json_text : JsonCodec :=
  {| Json := string; json_dumps := fun text => text; empty_dict := "{}" |}.

(** Database classes whose [store_learning] keeps the state and whose
    other stores are empty: their queries find nothing, once the limit
    is bound. *)
Definition plain_classes : DatabaseClasses :=
  {| Data := unit;
     Metadata := unit;
     Readings := unit;
     Other := unit;
     mathematical_store_learning := fun _ _ _ _ db => db;
     other_store_learning := fun _ _ _ _ db => db;
     other_retrieve_knowledge := fun _ n _ => bind_integer n [];
     new_LinguisticDatabase := tt;
     new_LogicalDatabase := tt;
     new_InterpretiveDatabase := tt;
     new_PhysicalDatabase := tt |}.

(** A manager whose [store_learning] accepts every call. *)
Definition accepting_manager : DatabaseManager unit (@LearningData string_logic) :=
  {| Core.store_learning := fun _ _ => ret tt |}.

#[local] Existing Instance string_logic.
#[local] Existing Instance json_text.
#[local] Existing Instance plain_classes.
#[local] Existing Instance accepting_manager.

(** [MathematicalDatabase()] on a new database file. *)
Definition fresh_mathematical : MathematicalDatabase :=
  new_MathematicalDatabase None None "2025-01-01T00:00:00".

Definition fresh_manager : CompleteSpecializedDatabaseManager :=
  new_CompleteSpecializedDatabaseManager fresh_mathematical.

(** The core as [CompleteMultiLayerThinkingCore()] builds it around a
    [CompleteSpecializedDatabaseManager]. *)
Definition fresh_core : ThinkingCore CompleteSpecializedDatabaseManager :=
  new_ThinkingCore "CompleteThinkingCore" (Returned fresh_manager).

(** The same core around the accepting manager. *)
Definition quiet_core : ThinkingCore unit :=
  new_ThinkingCore "CompleteThinkingCore" (Returned tt).

(** A mathematical store holding the equations [beta] and [alpha]. *)
Definition alpha_beta_store : MathematicalDatabase :=
  {| base := base fresh_mathematical;
     equations :=
       {| rows :=
            [ {| eq_id := 1; equation_id := "eq_1"; equation_type := "beta";
                 equation_formula := "y = b"; parameters := "{}"; domain := "real";
                 range_info := "real"; accuracy := 0.5; eq_usage_count := 0;
                 creation_date := "2025-01-01T00:00:01" |};
              {| eq_id := 2; equation_id := "eq_2"; equation_type := "alpha";
                 equation_formula := "y = x"; parameters := "{}"; domain := "real";
                 range_info := "real"; accuracy := 0.9; eq_usage_count := 0;
                 creation_date := "2025-01-01T00:00:02" |} ];
          sequence := 2 |};
     mathematical_models := mathematical_models fresh_mathematical;
     mathematical_constants := mathematical_constants fresh_mathematical;
     applied_theories := applied_theories fresh_mathematical |}.

End Demo.

(** ** [get_core_status] and [shutdown_core] *)

Module Status.

Import Layer Core.

(** [LayerState.X.value]. *)
Definition state_value (s : LayerState) : string :=
  match s with
  | INACTIVE => "inactive"
  | PROCESSING => "processing"
  | ACTIVE => "active"
  | SYNCHRONIZED => "synchronized"
  | ERROR => "error"
  end.

(** What [shutdown_core] asks of the manager: [close_all_databases()],
    which may raise. *)
Class ClosableManager (Mgr : Type) : Type := {
  close_all_databases : M Mgr unit
}.

#[export] Hint Mode ClosableManager ! : typeclass_instances.

Section WithManager.

Context `{LayerLogic} {Mgr : Type}.

(** An entry of ['layer_details']. *)
Record LayerDetails : Type := {
  detail_state : string;
  detail_performance : PerformanceMetrics
}.

(** The dict returned by [get_core_status], without ['creation_time']. *)
Record CoreStatus : Type := {
  status_core_name : string;
  status_total_layers : nat;
  status_active_layers : nat;
  status_total_processed : nat;
  status_success_rate : Q;
  status_average_sync_level : Q;
  status_database_connected : bool;
  status_layer_details : dict LayerDetails
}.

Definition get_core_status (self : ThinkingCore Mgr) : CoreStatus :=
  let active_layers :=
    length (List.filter (fun layer => negb (bool_decide (state layer = INACTIVE)))
              (dict_values (layers self))) in
  let success_rate :=
    (inject_Z (Z.of_nat (successful_processing (core_statistics self)))
     / inject_Z (Z.of_nat (Nat.max (stats_total_processed (core_statistics self)) 1)))%Q in
  {| status_core_name := core_name self;
     status_total_layers := length (layers self);
     status_active_layers := active_layers;
     status_total_processed := stats_total_processed (core_statistics self);
     status_success_rate := success_rate;
     status_average_sync_level := average_sync_level (core_statistics self);
     status_database_connected :=
       match database_manager self with Some _ => true | None => false end;
     status_layer_details :=
       map (fun entry : string * ThinkingLayer =>
              (fst entry,
               {| detail_state := state_value (state (snd entry));
                  detail_performance := performance_metrics (snd entry) |}))
           (layers self) |}.

Context `{!ClosableManager Mgr}.

(** [shutdown_core]: an exception of [close_all_databases] is not caught,
    so it ends the call before the layers are reset. *)
Definition shutdown_core : M (ThinkingCore Mgr) unit :=
  do self <- get ;
  (match database_manager self with
   | Some mgr => on_manager mgr close_all_databases
   | None => ret tt
   end) ;;
  modify (fun self =>
    set_layers
      (map (fun entry : string * ThinkingLayer =>
              (fst entry, set_state INACTIVE (snd entry)))
           (layers self))
      self).

End WithManager.

End Status.

(** ** Notions for sequences of calls *)

Module RunNotions.

Import Layer Core LayerNotions CoreNotions.

Section WithLogic.

Context `{LayerLogic}.

(** The layer after it has processed [inputs] in turn. *)
Definition run_inputs (inputs : list Input) (layer : ThinkingLayer) : ThinkingLayer :=
  fold_left (fun l input_data => fst (process_input input_data l)) inputs layer.

(** The theory applications of a layer of type [t] go through. *)
Definition succeeds (t : ThinkingLayerType) (input_data : Input) : bool :=
  match theories t input_data with
  | Returned _ => true
  | Raised _ => false
  end.

Context {Mgr : Type} `{!DatabaseManager Mgr LearningData}.

(** What a call leaves alone when it works on the layers only. *)
Definition layers_only (s0 s : ThinkingCore Mgr) : Prop :=
  core_name s = core_name s0
  /\ database_manager s = database_manager s0
  /\ synchronization_matrix s = synchronization_matrix s0
  /\ core_statistics s = core_statistics s0
  /\ dict_keys (layers s) = dict_keys (layers s0).

(** The value [sync_level] that a round hands to [_update_core_statistics]. *)
Definition round_level (r : RoundResult) : Q :=
  match r with
  | FinalResult _ _ level _ => level
  | ErrorResult _ _ => 0%Q
  end.

(** The records returned by the rounds run one after the other on a core. *)
Fixpoint round_results (rounds : list (Input * option (list string))) (self : ThinkingCore Mgr)
  : list RoundResult :=
  match rounds with
  | [] => []
  | r :: rest =>
      match comprehensive_processing (fst r) (snd r) self with
      | (self', Returned record) => record :: round_results rest self'
      | (self', Raised _) => round_results rest self'
      end
  end.

(** Two of the selected names, at positions [i < j], are both registered:
    the loops of [_synchronize_layers] reach a [synchronize_with_layer]
    call. *)
Definition has_registered_pair (self : ThinkingCore Mgr) (active_layers : list string) : bool :=
  existsb (registered_pair self) (index_pairs active_layers).

(** [self.database_manager is not None]. *)
Definition connected (self : ThinkingCore Mgr) : bool :=
  match database_manager self with
  | Some _ => true
  | None => false
  end.

End WithLogic.

End RunNotions.

(** ** Text helpers of [ThinkingLayer] *)

Module Text.

(** A Python [str] as the functions below see it: its code points. *)
Definition text : Type := list N.

(** The code points of a literal, which the file holds in UTF-8. *)
Fixpoint utf8 (s : string) : text :=
  match s with
  | EmptyString => []
  | String c0 s0 =>
      let b0 := N_of_ascii c0 in
      if (b0 <? 128)%N then b0 :: utf8 s0
      else
        match s0 with
        | EmptyString => [b0]
        | String c1 s1 =>
            let b1 := N_of_ascii c1 in
            if (b0 <? 224)%N then ((b0 - 192) * 64 + (b1 - 128))%N :: utf8 s1
            else
              match s1 with
              | EmptyString => [b0]
              | String c2 s2 =>
                  let b2 := N_of_ascii c2 in
                  if (b0 <? 240)%N
                  then ((b0 - 224) * 4096 + (b1 - 128) * 64 + (b2 - 128))%N :: utf8 s2
                  else
                    match s2 with
                    | EmptyString => [b0]
                    | String c3 s3 =>
                        let b3 := N_of_ascii c3 in
                        ((b0 - 240) * 262144 + (b1 - 128) * 4096
                         + (b2 - 128) * 64 + (b3 - 128))%N :: utf8 s3
                    end
              end
        end
  end.

(** [c.isspace()], the separators of [str.split()]. *)
Definition isspace (c : N) : bool :=
  ((9 <=? c) && (c <=? 13) || (28 <=? c) && (c <=? 32)
   || (c =? 133) || (c =? 160) || (c =? 5760)
   || (8192 <=? c) && (c <=? 8202)
   || (c =? 8232) || (c =? 8233) || (c =? 8239) || (c =? 8287) || (c =? 12288))%N.

(** [text.split()]: the maximal runs of code points that are not
    whitespace; [word] holds the run being read, last code point first. *)
Fixpoint split_from (word s : text) : list text :=
  match s with
  | [] => match word with [] => [] | _ :: _ => [rev word] end
  | c :: s' =>
      if isspace c then
        match word with
        | [] => split_from [] s'
        | _ :: _ => rev word :: split_from [] s'
        end
      else split_from (c :: word) s'
  end.

Definition split (s : text) : list text := split_from [] s.

(** [s.startswith(needle)]. *)
Fixpoint starts_with (needle s : text) : bool :=
  match needle, s with
  | [], _ => true
  | _ :: _, [] => false
  | n :: needle', c :: s' => (n =? c)%N && starts_with needle' s'
  end.

(** [needle in s]. *)
Fixpoint contains (needle s : text) : bool :=
  starts_with needle s
  || match s with
     | [] => false
     | _ :: s' => contains needle s'
     end.

(** [str.lower()], which follows the case mappings of Unicode. *)
Class PyUnicode : Type := {
  lower : text -> text
}.

(** [_extract_arabic_roots]. *)
Definition _extract_arabic_roots (s : text) : list text :=
  flat_map (fun word => if (3 <=? length word)%nat then [firstn 3 word] else []) (split s).

(** [_extract_central_concept]. *)
Definition _extract_central_concept (s : text) : text :=
  match split s with
  | word :: _ => word
  | [] => utf8 "unknown"
  end.

(** [_find_related_concepts]. *)
Definition _find_related_concepts (s : text) : list text :=
  firstn 5 (flat_map (fun word => if (3 <? length word)%nat then [word] else []) (split s)).

(** [_calculate_semantic_distances]. *)
Record SemanticDistances : Type := {
  average_distance : Q;
  max_distance : Q;
  min_distance : Q
}.

Definition _calculate_semantic_distances (s : text) : SemanticDistances :=
  {| average_distance := 0.5; max_distance := 0.8; min_distance := 0.2 |}.

(** The dict built by [_build_semantic_networks]; [s] is
    [str(input_data)]. *)
Record SemanticNetwork : Type := {
  central_concept : text;
  related_concepts : list text;
  semantic_distance : SemanticDistances
}.

Definition _build_semantic_networks (s : text) : SemanticNetwork :=
  {| central_concept := _extract_central_concept s;
     related_concepts := _find_related_concepts s;
     semantic_distance := _calculate_semantic_distances s |}.

(** An entry of the list returned by [_detect_symbols]. *)
Record Symbol : Type := {
  symbol : text;
  symbol_name : string;
  category : string
}.

(** The dict literal [symbol_map], in its insertion order. *)
Definition symbol_map : list (text * (string * string)) :=
  [ (utf8 "∞", ("infinity", "mathematical"));
    (utf8 "∅", ("empty_set", "mathematical"));
    (utf8 "☯", ("yin_yang", "philosophical"));
    (utf8 "⚛", ("atom", "scientific"));
    (utf8 "🧬", ("dna", "biological"));
    (utf8 "⊥", ("perpendicular", "mathematical")) ].

(** [_detect_symbols]; [s] is [str(input_data)]. *)
Definition _detect_symbols (s : text) : list Symbol :=
  flat_map
    (fun entry : text * (string * string) =>
       if contains (fst entry) s
       then [{| symbol := fst entry;
                symbol_name := fst (snd entry);
                category := snd (snd entry) |}]
       else [])
    symbol_map.

(** An entry of the list returned by [_analyze_symbol_relationships]. *)
Record Relationship : Type := {
  symbol1 : text;
  symbol2 : text;
  relationship : string;
  strength : Q
}.

(** [_analyze_symbol_relationships]: [symbol2] ranges over
    [symbols[i+1:]]. *)
Fixpoint _analyze_symbol_relationships (symbols : list Symbol) : list Relationship :=
  match symbols with
  | [] => []
  | s1 :: rest =>
      flat_map
        (fun s2 =>
           if String.eqb (category s1) (category s2)
           then [{| symbol1 := symbol s1; symbol2 := symbol s2;
                    relationship := "same_category"; strength := 0.7 |}]
           else [])
        rest
      ++ _analyze_symbol_relationships rest
  end.

(** [_determine_cultural_context]. *)
Definition _determine_cultural_context (symbols : list Symbol) : string :=
  let categories := map category symbols in
  if existsb (String.eqb "mathematical") categories then "mathematical_context"
  else if existsb (String.eqb "philosophical") categories then "philosophical_context"
  else if existsb (String.eqb "scientific") categories then "scientific_context"
  else "general_context".

End Text.

(** ** Number helpers of [ThinkingLayer] *)

Module Numbers.

Import Text.

(** [int(math.sqrt(n))]: the square root in double precision, truncated;
    [math.sqrt] raises [OverflowError] for an [int] beyond the doubles. *)
Class PyMath : Type := {
  sqrt_int : Z -> Result Z
}.

(** [range(a, b)]. *)
Definition py_range (a b : Z) : list Z :=
  map (fun k => (a + Z.of_nat k)%Z) (seq 0 (Z.to_nat (b - a))).

(** The loop of [_is_prime]: [False] at the first [i] with [n % i == 0]. *)
Fixpoint no_divisor (n : Z) (candidates : list Z) : bool :=
  match candidates with
  | [] => true
  | i :: rest => if (n mod i =? 0)%Z then false else no_divisor n rest
  end.

Section WithMath.

Context `{PyMath}.

Definition _is_prime (n : Z) : Result bool :=
  if (n <? 2)%Z then Returned false
  else
    match sqrt_int n with
    | Raised e => Raised e
    | Returned r => Returned (no_divisor n (py_range 2 (r + 1)))
    end.

(** An [int] (a [bool] counts as one) or a [float]. *)
Inductive Number : Type :=
| PyInt (n : Z)
| PyFloat (x : Q).

(** The dict returned by [_analyze_number_properties]; the last two keys
    are set for an [int] only. *)
Record NumberProperties : Type := {
  number_value : Number;
  is_positive : bool;
  is_zero : bool;
  is_negative : bool;
  is_even : option bool;
  is_prime : option bool
}.

Definition _analyze_number_properties (number : Number) : Result NumberProperties :=
  match number with
  | PyFloat x =>
      Returned
        {| number_value := number;
           is_positive := if Qlt_le_dec 0 x then true else false;
           is_zero := Qeq_bool x 0;
           is_negative := if Qlt_le_dec x 0 then true else false;
           is_even := None;
           is_prime := None |}
  | PyInt n =>
      match (if (1 <? n)%Z then _is_prime n else Returned false) with
      | Raised e => Raised e
      | Returned prime =>
          Returned
            {| number_value := number;
               is_positive := (0 <? n)%Z;
               is_zero := (n =? 0)%Z;
               is_negative := (n <? 0)%Z;
               is_even := Some (n mod 2 =? 0)%Z;
               is_prime := Some prime |}
      end
  end.

Context `{PyUnicode}.

(** [any(op in text for op in ops)]. *)
Definition any_in (needles : list text) (s : text) : bool :=
  existsb (fun needle => contains needle s) needles.

(** [_extract_mathematical_patterns]. *)
Definition _extract_mathematical_patterns (s : text) : list string :=
  (if contains (utf8 "معادلة") s || contains (utf8 "equation") (lower s)
   then ["equation_reference"] else [])
  ++ (if any_in (map utf8 ["+"; "-"; "*"; "/"; "="; "∑"; "∫"]) s
      then ["mathematical_operators"] else [])
  ++ (if any_in (map utf8 ["sin"; "cos"; "log"; "exp"; "sigmoid"]) (lower s)
      then ["mathematical_functions"] else []).

(** [_identify_equations]. *)
Definition _identify_equations (s : text) : list string :=
  (if contains (utf8 "sigmoid") (lower s) then ["sigmoid_function"] else [])
  ++ (if contains (utf8 "linear") (lower s) then ["linear_function"] else []).

(** The [input_data: Any] of [_mathematical_processing], by the branch
    its [isinstance] tests select. *)
Inductive MathInput : Type :=
| InText (s : text)
| InNumber (number : Number)
| InOther.

(** The dicts that [_mathematical_processing] returns. *)
Inductive MathResult : Type :=
| mathematical_analysis (patterns equations : list string)
| numerical_analysis (properties : NumberProperties)
| mathematical_general
| mathematical_error.

(** The entry ['type']. *)
Definition math_type (r : MathResult) : string :=
  match r with
  | mathematical_analysis _ _ => "mathematical_analysis"
  | numerical_analysis _ => "numerical_analysis"
  | mathematical_general => "mathematical_general"
  | mathematical_error => "mathematical_error"
  end.

(** The entry ['confidence']. *)
Definition math_confidence (r : MathResult) : Q :=
  match r with
  | mathematical_analysis _ _ => 0.8
  | numerical_analysis _ => 0.9
  | mathematical_general => 0.6
  | mathematical_error => 0.1
  end.

(** [_mathematical_processing]: the bare [except] turns every exception
    into the error dict. *)
Definition _mathematical_processing (input_data : MathInput) : MathResult :=
  match input_data with
  | InText s =>
      mathematical_analysis (_extract_mathematical_patterns s) (_identify_equations s)
  | InNumber number =>
      match _analyze_number_properties number with
      | Returned properties => numerical_analysis properties
      | Raised _ => mathematical_error
      end
  | InOther => mathematical_general
  end.

End WithMath.

End Numbers.

(** ** More SQLite statements *)

Module SqlStatements.

Import Sql.

Section Insert.

Context {Row : Type}.

Variable key : Row -> string.

(** Plain [INSERT] into a table with a [TEXT UNIQUE] column: a collision
    raises [sqlite3.IntegrityError], whose text names [table.column], and
    stores nothing. *)
Definition insert (column : string) (mk : Z -> Row) : M (Table Row) unit :=
  fun t =>
    let id := (sequence t + 1)%Z in
    let r := mk id in
    if existsb (conflicts key (key r)) (rows t)
    then (t, Raised ("UNIQUE constraint failed: " ++ column))
    else ({| rows := rows t ++ [r]; sequence := id |}, Returned tt).

(** Some row holds [k] in the unique column. *)
Definition present (k : string) (t : Table Row) : bool := existsb (conflicts key k) (rows t).

End Insert.

(** [SELECT COUNT( * ) FROM table]. *)
Definition count {Row} (t : Table Row) : nat := length (rows t).

End SqlStatements.

(** ** Queries of [BaseSpecializedDatabase] *)

Module BaseQueries.

Import Sql SqlStatements Databases.

(** [ORDER BY confidence DESC]. *)
Definition pattern_before (a b : DiscoveredPattern) : bool :=
  match (confidence a ?= confidence b)%Q with
  | Lt => false
  | _ => true
  end.

(** One result dict of [get_patterns_by_type]. *)
Definition pattern_record (row : DiscoveredPattern) : Knowledge :=
  [ ("pattern_id", KText (pattern_id row));
    ("pattern_type", KText (pattern_type row));
    ("pattern_data", KJson (pattern_data row));
    ("confidence", KReal (confidence row));
    ("discovery_date", KText (discovery_date row));
    ("usage_count", KInt (usage_count row)) ].

(** The rows selected by [get_patterns_by_type]. *)
Definition select_patterns (type : string) (self : BaseSpecializedDatabase)
  : list DiscoveredPattern :=
  order_by pattern_before
    (List.filter (fun row => String.eqb (pattern_type row) type)
       (rows (tbl_discovered_patterns self))).

Definition get_patterns_by_type (type : string) (self : BaseSpecializedDatabase)
  : list Knowledge :=
  map pattern_record (select_patterns type self).

(** The dict returned by [get_database_stats], without
    ['database_size_mb'], which is read from the file system. *)
Record DatabaseStats : Type := {
  database_name : string;
  stats_layer_type : string;
  total_learning_sessions : nat;
  total_patterns : nat;
  total_corrections : nat;
  stats_success_rate : Q;
  stats_last_update : option string
}.

(** [SELECT AVG(CAST(success AS REAL))], which is [NULL] on an empty
    table, followed by [or 0.0]. *)
Definition average_success (sessions : list LearningSession) : Q :=
  match sessions with
  | [] => 0
  | _ :: _ =>
      (inject_Z (Z.of_nat (length (List.filter success sessions)))
       / inject_Z (Z.of_nat (length sessions)))%Q
  end.

Definition get_database_stats (self : BaseSpecializedDatabase) : DatabaseStats :=
  {| database_name := db_name self;
     stats_layer_type := value (db_layer_type self);
     total_learning_sessions := count (tbl_learning_sessions self);
     total_patterns := count (tbl_discovered_patterns self);
     total_corrections := count (tbl_error_corrections self);
     stats_success_rate := average_success (rows (tbl_learning_sessions self));
     stats_last_update := last_update self |}.

End BaseQueries.

(** ** [MathematicalDatabase]: storing and ranking *)

Module MathematicalStore.

Import Sql SqlStatements Databases.

(** What the store methods need of JSON beyond [JsonCodec]: the literal
    [[]] and the dict [{**metadata, 'error': text}]. *)
Class JsonObjects `{JsonCodec} : Type := {
  empty_list : Json;
  with_error : Json -> string -> Json
}.

Section WithJson.

Context `{JsonObjects}.

(** The value found under a key of [data]: a dict, read with [.get], or
    an object of another type, on which [.get] raises [AttributeError]. *)
Inductive Payload (A : Type) : Type :=
| IsDict (entries : A)
| NotDict (type_name : string).

Arguments IsDict {A} entries.
Arguments NotDict {A} type_name.

(** The dict [equation_data]: each key is absent or holds a value of the
    type of its column. *)
Record EquationData : Type := {
  eqd_type : option string;
  eqd_formula : option string;
  eqd_parameters : option Json;
  eqd_domain : option string;
  eqd_range : option string;
  eqd_accuracy : option Q
}.

(** The dict [model_data]. *)
Record ModelData : Type := {
  md_name : option string;
  md_type : option string;
  md_inputs : option Json;
  md_outputs : option Json;
  md_data : option Json;
  md_metrics : option Json
}.

(** The dict [constant_data]. *)
Record ConstantData : Type := {
  cd_name : option string;
  cd_value : option Q;
  cd_description : option string;
  cd_precision : option Z;
  cd_source : option string
}.

(** The argument [data: Any] of [store_learning]: a dict, of which the
    three keys the method looks for are kept, or another object. *)
Record DataDict : Type := {
  data_equation : option (Payload EquationData);
  data_model : option (Payload ModelData);
  data_constant : option (Payload ConstantData)
}.

Inductive Data : Type :=
| DictData (d : DataDict)
| OtherData.

(** The [uuid4()] and clock readings of one [store_learning] call. *)
Record Readings : Type := {
  session_uuid : string;
  item_uuid : string;
  item_now : string;
  log_now : string;
  log_updated : string
}.

(** [d.get(key, default)]. *)
Definition get_or {A} (entry : option A) (default : A) : A :=
  match entry with
  | Some v => v
  | None => default
  end.

(** [payload.get]: the attribute lookup that fails on a non-dict. *)
Definition as_dict {S A} (payload : Payload A) : M S A :=
  match payload with
  | IsDict entries => ret entries
  | NotDict type_name => raise ("'" ++ type_name ++ "' object has no attribute 'get'")
  end.

Definition on_equations {A} (m : M (Table Equation) A) : M MathematicalDatabase A :=
  fun self =>
    let (t, r) := m (equations self) in
    ({| base := base self; equations := t;
        mathematical_models := mathematical_models self;
        mathematical_constants := mathematical_constants self;
        applied_theories := applied_theories self |}, r).

Definition on_models {A} (m : M (Table MathematicalModel) A) : M MathematicalDatabase A :=
  fun self =>
    let (t, r) := m (mathematical_models self) in
    ({| base := base self; equations := equations self;
        mathematical_models := t;
        mathematical_constants := mathematical_constants self;
        applied_theories := applied_theories self |}, r).

Definition on_constants (f : Table Constant -> Table Constant)
  (self : MathematicalDatabase) : MathematicalDatabase :=
  {| base := base self; equations := equations self;
     mathematical_models := mathematical_models self;
     mathematical_constants := f (mathematical_constants self);
     applied_theories := applied_theories self |}.

Definition on_base (f : BaseSpecializedDatabase -> BaseSpecializedDatabase)
  (self : MathematicalDatabase) : MathematicalDatabase :=
  {| base := f (base self); equations := equations self;
     mathematical_models := mathematical_models self;
     mathematical_constants := mathematical_constants self;
     applied_theories := applied_theories self |}.

(** The row that [_store_equation] inserts. *)
Definition equation_row (equation_data : EquationData) (r : Readings) (id : Z) : Equation :=
  {| eq_id := id;
     equation_id := "eq_" ++ item_uuid r;
     equation_type := get_or (eqd_type equation_data) "unknown";
     equation_formula := get_or (eqd_formula equation_data) "";
     parameters := json_dumps (get_or (eqd_parameters equation_data) empty_dict);
     domain := get_or (eqd_domain equation_data) "real";
     range_info := get_or (eqd_range equation_data) "real";
     accuracy := get_or (eqd_accuracy equation_data) 0%Q;
     eq_usage_count := 0;
     creation_date := item_now r |}.

Definition _store_equation (payload : Payload EquationData) (r : Readings)
  : M MathematicalDatabase unit :=
  do equation_data <- as_dict payload ;
  on_equations (insert equation_id "equations.equation_id" (equation_row equation_data r)).

(** The row that [_store_mathematical_model] inserts. *)
Definition model_row (model_data : ModelData) (r : Readings) (id : Z) : MathematicalModel :=
  {| mm_id := id;
     model_id := "model_" ++ item_uuid r;
     model_name := get_or (md_name model_data) "unnamed_model";
     model_type := get_or (md_type model_data) "unknown";
     input_variables := json_dumps (get_or (md_inputs model_data) empty_list);
     output_variables := json_dumps (get_or (md_outputs model_data) empty_list);
     model_data := json_dumps (get_or (md_data model_data) empty_dict);
     mm_performance_metrics := json_dumps (get_or (md_metrics model_data) empty_dict);
     mm_creation_date := item_now r |}.

Definition _store_mathematical_model (payload : Payload ModelData) (r : Readings)
  : M MathematicalDatabase unit :=
  do model_data <- as_dict payload ;
  on_models (insert model_id "mathematical_models.model_id" (model_row model_data r)).

(** The row that [_store_constant] writes. *)
Definition constant_row (constant_data : ConstantData) (r : Readings) (id : Z) : Constant :=
  {| const_id := id;
     constant_name := get_or (cd_name constant_data) "unnamed_constant";
     constant_value := get_or (cd_value constant_data) 0%Q;
     constant_description := get_or (cd_description constant_data) "";
     precision_level := get_or (cd_precision constant_data) 10%Z;
     const_source := get_or (cd_source constant_data) "user_input";
     verification_date := item_now r |}.

Definition _store_constant (payload : Payload ConstantData) (r : Readings)
  : M MathematicalDatabase unit :=
  do constant_data <- as_dict payload ;
  modify (on_constants (insert_or_replace constant_name (constant_row constant_data r))).

(** The branch of [store_learning] that [data] selects. *)
Definition store_item (data : Data) (r : Readings) : M MathematicalDatabase unit :=
  match data with
  | DictData d =>
      match data_equation d with
      | Some payload => _store_equation payload r
      | None =>
          match data_model d with
          | Some payload => _store_mathematical_model payload r
          | None =>
              match data_constant d with
              | Some payload => _store_constant payload r
              | None => ret tt
              end
          end
      end
  | OtherData => ret tt
  end.

(** [f"math_learning_{uuid.uuid4()}"]. *)
Definition session_name (r : Readings) : string := "math_learning_" ++ session_uuid r.

(** [MathematicalDatabase.store_learning]. *)
Definition store_learning (data : Data) (source : LearningSource) (metadata : option Json)
  (r : Readings) : M MathematicalDatabase unit :=
  let session_id := session_name r in
  try_except
    (store_item data r ;;
     modify (on_base (log_learning_session session_id source "mathematical_data" true
                        metadata (log_now r) (log_updated r))))
    (fun e =>
     modify (on_base (log_learning_session session_id source "mathematical_data" false
                        (Some (with_error (metadata_or_empty metadata) e))
                        (log_now r) (log_updated r)))).

End WithJson.

Arguments IsDict {A} entries.
Arguments NotDict {A} type_name.

(** The body of the first loop of [_insert_initial_data]. *)
Definition constant_step (now : string) (t : Table Constant)
  (entry : string * Q * string * Z * string) : Table Constant :=
  let '(name, v, desc, precision, src) := entry in
  insert_or_ignore constant_name
    (fun id =>
       {| const_id := id; constant_name := name; constant_value := v;
          constant_description := desc; precision_level := precision;
          const_source := src; verification_date := now |}) t.

(** The body of its second loop. *)
Definition theory_step (now : string) (t : Table AppliedTheory)
  (entry : string * string * string * string * string * Q) : Table AppliedTheory :=
  let '(tid, name, ty, context, res, eff) := entry in
  insert_or_ignore theory_id
    (fun id =>
       {| th_id := id; theory_id := tid; theory_name := name; theory_type := ty;
          application_context := context; results := res;
          th_effectiveness := eff; application_date := now |}) t.

(** The names [_insert_initial_data] looks for. *)
Definition initial_constant_names : list string :=
  map (fun entry => fst (fst (fst (fst entry)))) initial_constants.

Definition initial_theory_ids : list string :=
  map (fun entry => fst (fst (fst (fst (fst entry))))) initial_theories.

(** [MathematicalDatabase(db_path)] on the file another instance has
    written: the tables are found as they were left. *)
Definition reopen (now : string) (self : MathematicalDatabase) : MathematicalDatabase :=
  new_MathematicalDatabase
    (Some (tbl_learning_sessions (base self), tbl_discovered_patterns (base self),
           tbl_error_corrections (base self)))
    (Some {| disk_equations := equations self;
             disk_models := mathematical_models self;
             disk_constants := mathematical_constants self;
             disk_theories := applied_theories self |})
    now.

(** One result dict of [get_best_equations]; as in [retrieve_knowledge],
    ['accuracy'] is read from [row[6]] and ['usage_count'] from [row[7]],
    the columns [range_info] and [accuracy]. *)
Definition best_equation_record (row : Equation) : Knowledge :=
  [ ("equation_id", KText (equation_id row));
    ("equation_type", KText (equation_type row));
    ("formula", KText (equation_formula row));
    ("parameters", KJson (parameters row));
    ("accuracy", KText (range_info row));
    ("usage_count", KReal (accuracy row)) ].

(** The rows selected by [get_best_equations]: [if equation_type:] is
    false for [None] and for the empty string. *)
Definition select_best_equations (type : option string) (n : Z) (self : MathematicalDatabase)
  : list Equation :=
  let chosen :=
    match type with
    | Some t =>
        if str_truthy t
        then List.filter (fun row => String.eqb (equation_type row) t) (rows (equations self))
        else rows (equations self)
    | None => rows (equations self)
    end in
  limit n (order_by equation_before chosen).

(** [get_best_equations]; either [execute] binds [limit]. *)
Definition get_best_equations (type : option string) (n : Z) (self : MathematicalDatabase)
  : Result (list Knowledge) :=
  bind_integer n (map best_equation_record (select_best_equations type n self)).

End MathematicalStore.

(** ** Notions for sequences of store calls *)

Module StoreRuns.

Import Sql SqlStatements Databases.

Section WithJson.

Context `{JsonCodec}.

(** The arguments and clock readings of a [log_learning_session] call. *)
Record LogCall : Type := {
  call_session_id : string;
  call_source : LearningSource;
  call_data_type : string;
  call_success : bool;
  call_metadata : option Json;
  call_now : string;
  call_updated : string
}.

Definition log_call (c : LogCall) (self : BaseSpecializedDatabase) : BaseSpecializedDatabase :=
  log_learning_session (call_session_id c) (call_source c) (call_data_type c)
    (call_success c) (call_metadata c) (call_now c) (call_updated c) self.

(** The database after the calls, in their order. *)
Definition run_logs (calls : list LogCall) (self : BaseSpecializedDatabase)
  : BaseSpecializedDatabase :=
  fold_left (fun db c => log_call c db) calls self.

End WithJson.

End StoreRuns.

(** ** [LogicalDatabase] *)

Module LogicalStore.

Import Sql SqlStatements Databases MathematicalStore.

(** Row of [logical_rules]. *)
Record LogicalRule : Type := {
  lr_id : Z;
  rule_id : string;
  rule_name : string;
  rule_type : string;
  premise : string;
  conclusion : string;
  rule_confidence : Q;
  applications : Z;
  rule_creation_date : string
}.

(** Row of [contradictions_perpendicularity]. *)
Record Contradiction : Type := {
  cp_id : Z;
  contradiction_id : string;
  concept_a : string;
  concept_b : string;
  contradiction_type : string;
  perpendicular_resolution : string;
  resolution_effectiveness : Q;
  cp_discovery_date : string
}.

(** The state of a [LogicalDatabase]. The tables [inferences] and
    [logical_patterns] are created and then neither written nor read by
    any method; they are left out. *)
Record LogicalDatabase : Type := {
  logical_base : BaseSpecializedDatabase;
  logical_rules : Table LogicalRule;
  contradictions_perpendicularity : Table Contradiction
}.

(** The list [basic_rules] of [_insert_initial_logical_data]. *)
Definition basic_rules : list (string * string * string * string * string * Q) :=
  [ ("modus_ponens", "الاستدلال المباشر", "deductive",
     "إذا كان P يؤدي إلى Q، و P صحيح", "إذن Q صحيح", 0.95%Q);
    ("modus_tollens", "الاستدلال العكسي", "deductive",
     "إذا كان P يؤدي إلى Q، و Q خاطئ", "إذن P خاطئ", 0.95%Q);
    ("zero_duality_logic", "منطق ثنائية الصفر", "revolutionary",
     "كل مفهوم ينبثق من الصفر إلى ضدين", "الأضداد متوازنة ومتعامدة", 0.90%Q);
    ("perpendicular_resolution", "حل التضاد بالتعامد", "revolutionary",
     "عند وجود تضاد", "يتم حله بالتعامد لمنع الفناء", 0.90%Q) ].

(** Its list [contradictions]. *)
Definition contradictions : list (string * string * string * string * string * Q) :=
  [ ("light_darkness", "النور", "الظلام", "physical_opposition",
     "تعامد في الفضاء الفيزيائي", 0.85%Q);
    ("positive_negative", "الإيجابي", "السلبي", "mathematical_opposition",
     "تعامد في الفضاء الرياضي", 0.90%Q);
    ("existence_nonexistence", "الوجود", "العدم", "philosophical_opposition",
     "تعامد في الفضاء الفلسفي", 0.80%Q) ].

(** [_insert_initial_logical_data]; the column [applications] takes its
    default [0]. *)
Definition _insert_initial_logical_data (now : string) (self : LogicalDatabase)
  : LogicalDatabase :=
  {| logical_base := logical_base self;
     logical_rules :=
       fold_left
         (fun t '(rid, name, ty, prem, concl, conf) =>
            insert_or_ignore rule_id
              (fun id =>
                 {| lr_id := id; rule_id := rid; rule_name := name; rule_type := ty;
                    premise := prem; conclusion := concl; rule_confidence := conf;
                    applications := 0; rule_creation_date := now |}) t)
         basic_rules (logical_rules self);
     contradictions_perpendicularity :=
       fold_left
         (fun t '(cid, a, b, ty, resolution, eff) =>
            insert_or_ignore contradiction_id
              (fun id =>
                 {| cp_id := id; contradiction_id := cid; concept_a := a; concept_b := b;
                    contradiction_type := ty; perpendicular_resolution := resolution;
                    resolution_effectiveness := eff; cp_discovery_date := now |}) t)
         contradictions (contradictions_perpendicularity self) |}.

(** [LogicalDatabase.__init__], which runs [_initialize_tables], on the
    tables found on disk. *)
Definition new_LogicalDatabase
  (base_on_disk :
     option (Table LearningSession * Table DiscoveredPattern * Table ErrorCorrection))
  (on_disk : option (Table LogicalRule * Table Contradiction)) (now : string)
  : LogicalDatabase :=
  let b := _create_base_tables "logical_knowledge" LOGICAL base_on_disk in
  let '(rules, contras) :=
    match on_disk with
    | Some t => t
    | None => (empty_table, empty_table)
    end in
  _insert_initial_logical_data now
    {| logical_base := b; logical_rules := rules;
       contradictions_perpendicularity := contras |}.

(** The dict [rule_data]. *)
Record RuleData : Type := {
  rd_name : option string;
  rd_type : option string;
  rd_premise : option string;
  rd_conclusion : option string;
  rd_confidence : option Q
}.

(** The argument [data: Any] of [store_learning]: of a dict, the value
    under ['rule'] and the presence of the keys ['inference'] and
    ['contradiction'], whose values are never looked at. *)
Record DataDict : Type := {
  data_rule : option (Payload RuleData);
  has_inference : bool;
  has_contradiction : bool
}.

Inductive Data : Type :=
| DictData (d : DataDict)
| OtherData.

Section WithJson.

Context `{JsonObjects}.

Definition on_rules {A} (m : M (Table LogicalRule) A) : M LogicalDatabase A :=
  fun self =>
    let (t, r) := m (logical_rules self) in
    ({| logical_base := logical_base self; logical_rules := t;
        contradictions_perpendicularity := contradictions_perpendicularity self |}, r).

Definition on_base (f : BaseSpecializedDatabase -> BaseSpecializedDatabase)
  (self : LogicalDatabase) : LogicalDatabase :=
  {| logical_base := f (logical_base self); logical_rules := logical_rules self;
     contradictions_perpendicularity := contradictions_perpendicularity self |}.

(** The row that [_store_logical_rule] inserts. *)
Definition rule_row (rule_data : RuleData) (r : Readings) (id : Z) : LogicalRule :=
  {| lr_id := id;
     rule_id := "rule_" ++ item_uuid r;
     rule_name := get_or (rd_name rule_data) "unnamed_rule";
     rule_type := get_or (rd_type rule_data) "unknown";
     premise := get_or (rd_premise rule_data) "";
     conclusion := get_or (rd_conclusion rule_data) "";
     rule_confidence := get_or (rd_confidence rule_data) 0.5%Q;
     applications := 0;
     rule_creation_date := item_now r |}.

Definition _store_logical_rule (payload : Payload RuleData) (r : Readings)
  : M LogicalDatabase unit :=
  do rule_data <- as_dict payload ;
  on_rules (insert rule_id "logical_rules.rule_id" (rule_row rule_data r)).

(** [self.<name>] for a method the class does not define. *)
Definition missing_method {A} (name : string) : M LogicalDatabase A :=
  raise ("'LogicalDatabase' object has no attribute '" ++ name ++ "'").

(** The branch of [store_learning] that [data] selects. The class
    defines neither [_store_inference] nor [_store_contradiction]: the
    attribute lookup fails before the arguments are evaluated. *)
Definition store_item (data : Data) (r : Readings) : M LogicalDatabase unit :=
  match data with
  | DictData d =>
      match data_rule d with
      | Some payload => _store_logical_rule payload r
      | None =>
          if has_inference d then missing_method "_store_inference"
          else if has_contradiction d then missing_method "_store_contradiction"
          else ret tt
      end
  | OtherData => ret tt
  end.

(** [f"logic_learning_{uuid.uuid4()}"]. *)
Definition session_name (r : Readings) : string := "logic_learning_" ++ session_uuid r.

(** [LogicalDatabase.store_learning]. *)
Definition store_learning (data : Data) (source : LearningSource) (metadata : option Json)
  (r : Readings) : M LogicalDatabase unit :=
  let session_id := session_name r in
  try_except
    (store_item data r ;;
     modify (on_base (log_learning_session session_id source "logical_data" true
                        metadata (log_now r) (log_updated r))))
    (fun e =>
     modify (on_base (log_learning_session session_id source "logical_data" false
                        (Some (with_error (metadata_or_empty metadata) e))
                        (log_now r) (log_updated r)))).

End WithJson.

(** [ORDER BY confidence DESC, applications DESC]. *)
Definition rule_before (a b : LogicalRule) : bool :=
  match (rule_confidence a ?= rule_confidence b)%Q with
  | Gt => true
  | Lt => false
  | Eq => (applications b <=? applications a)%Z
  end.

(** [WHERE rule_name LIKE ? OR premise LIKE ? OR conclusion LIKE ?]. *)
Definition rule_matches (query : string) (r : LogicalRule) : bool :=
  like (contains_pattern query) (rule_name r)
  || like (contains_pattern query) (premise r)
  || like (contains_pattern query) (conclusion r).

Definition select_rules (query : string) (n : Z) (self : LogicalDatabase) : list LogicalRule :=
  limit n (order_by rule_before (List.filter (rule_matches query) (rows (logical_rules self)))).

Definition rule_record (row : LogicalRule) : Knowledge :=
  [ ("type", KText "logical_rule");
    ("rule_id", KText (rule_id row));
    ("rule_name", KText (rule_name row));
    ("rule_type", KText (rule_type row));
    ("premise", KText (premise row));
    ("conclusion", KText (conclusion row));
    ("confidence", KReal (rule_confidence row));
    ("applications", KInt (applications row)) ].

(** [LogicalDatabase.retrieve_knowledge]. *)
Definition retrieve_knowledge (query : string) (n : Z) (self : LogicalDatabase)
  : Result (list Knowledge) :=
  bind_integer n (py_slice_to n (map rule_record (select_rules query n self))).

End LogicalStore.

(** ** [PhysicalDatabase] *)

Module PhysicalStore.

Import Sql SqlStatements Databases MathematicalStore.

(** Row of [physical_laws]. *)
Record PhysicalLaw : Type := {
  pl_id : Z;
  law_id : string;
  law_name : string;
  law_category : string;
  mathematical_expression : string;
  law_description : string;
  applicable_domain : string;
  experimental_verification : Q;
  law_discovery_date : string;
  law_applications : Z
}.

(** Row of [physical_constants]. *)
Record PhysicalConstant : Type := {
  pc_id : Z;
  constant_id : string;
  pc_name : string;
  constant_symbol : string;
  pc_value : Q;
  unit_name : string;
  uncertainty : Q;
  measurement_precision : Z;
  last_updated : string
}.

(** Row of [revolutionary_physics]. *)
Record RevolutionaryTheory : Type := {
  rp_id : Z;
  rp_theory_id : string;
  rp_theory_name : string;
  rp_theory_type : string;
  core_principles : string;
  mathematical_framework : string;
  experimental_predictions : string;
  verification_status : Q;
  development_date : string
}.

(** The state of a [PhysicalDatabase]. The table [physical_phenomena] is
    created and then neither written nor read; it is left out. *)
Record PhysicalDatabase : Type := {
  physical_base : BaseSpecializedDatabase;
  physical_laws : Table PhysicalLaw;
  physical_constants : Table PhysicalConstant;
  revolutionary_physics : Table RevolutionaryTheory
}.

(** The list [constants] of [_insert_initial_physical_data]. *)
Definition constants : list (string * string * string * Q * string * Q * Z) :=
  [ ("speed_of_light", "سرعة الضوء", "c", 299792458.0%Q, "m/s", 0.0%Q, 15%Z);
    ("planck_constant", "ثابت بلانك", "h", 6.62607015e-34%Q, "J⋅s", 0.0%Q, 15%Z);
    ("gravitational_constant", "ثابت الجاذبية", "G", 6.67430e-11%Q, "m³⋅kg⁻¹⋅s⁻²",
     2.2e-15%Q, 10%Z);
    ("elementary_charge", "الشحنة الأولية", "e", 1.602176634e-19%Q, "C", 0.0%Q, 15%Z);
    ("boltzmann_constant", "ثابت بولتزمان", "k", 1.380649e-23%Q, "J/K", 0.0%Q, 15%Z) ].

(** Its list [revolutionary_theories]. *)
Definition revolutionary_theories
  : list (string * string * string * string * string * string * Q) :=
  [ ("zero_emergence_physics", "فيزياء انبثاق الصفر", "revolutionary",
     "كل الوجود ينبثق من الصفر إلى أضداد متعامدة",
     "معادلات التعامد والانبثاق", "تنبؤات حول طبيعة المادة والطاقة", 0.85%Q);
    ("perpendicular_forces", "نظرية القوى المتعامدة", "revolutionary",
     "القوى المتضادة تتعامد لمنع الفناء المتبادل",
     "رياضيات التعامد في الفضاء الفيزيائي", "تفسير استقرار الذرة", 0.80%Q);
    ("filament_particle_theory", "نظرية جسيمات الفتائل", "revolutionary",
     "كل الجسيمات مبنية من فتائل أساسية",
     "معادلات بناء الجسيمات من الفتائل", "تنبؤات حول الجسيمات الأولية", 0.75%Q) ].

(** [_insert_initial_physical_data]: it writes to [physical_constants]
    and [revolutionary_physics] only. *)
Definition _insert_initial_physical_data (now : string) (self : PhysicalDatabase)
  : PhysicalDatabase :=
  {| physical_base := physical_base self;
     physical_laws := physical_laws self;
     physical_constants :=
       fold_left
         (fun t '(cid, name, sym, v, unit, unc, precision) =>
            insert_or_ignore constant_id
              (fun id =>
                 {| pc_id := id; constant_id := cid; pc_name := name; constant_symbol := sym;
                    pc_value := v; unit_name := unit; uncertainty := unc;
                    measurement_precision := precision; last_updated := now |}) t)
         constants (physical_constants self);
     revolutionary_physics :=
       fold_left
         (fun t '(tid, name, ty, principles, framework, predictions, verification) =>
            insert_or_ignore rp_theory_id
              (fun id =>
                 {| rp_id := id; rp_theory_id := tid; rp_theory_name := name;
                    rp_theory_type := ty; core_principles := principles;
                    mathematical_framework := framework;
                    experimental_predictions := predictions;
                    verification_status := verification; development_date := now |}) t)
         revolutionary_theories (revolutionary_physics self) |}.

(** [PhysicalDatabase.__init__] on the tables found on disk. *)
Definition new_PhysicalDatabase
  (base_on_disk :
     option (Table LearningSession * Table DiscoveredPattern * Table ErrorCorrection))
  (on_disk :
     option (Table PhysicalLaw * Table PhysicalConstant * Table RevolutionaryTheory))
  (now : string) : PhysicalDatabase :=
  let b := _create_base_tables "physical_knowledge" PHYSICAL base_on_disk in
  let '(laws, consts, theories) :=
    match on_disk with
    | Some t => t
    | None => (empty_table, empty_table, empty_table)
    end in
  _insert_initial_physical_data now
    {| physical_base := b; physical_laws := laws; physical_constants := consts;
       revolutionary_physics := theories |}.

(** The argument [data: Any] of [store_learning]: of a dict, the presence
    of the three keys the method looks for. *)
Record DataDict : Type := {
  has_law : bool;
  has_constant : bool;
  has_phenomenon : bool
}.

Inductive Data : Type :=
| DictData (d : DataDict)
| OtherData.

Section WithJson.

Context `{JsonObjects}.

Definition on_base (f : BaseSpecializedDatabase -> BaseSpecializedDatabase)
  (self : PhysicalDatabase) : PhysicalDatabase :=
  {| physical_base := f (physical_base self); physical_laws := physical_laws self;
     physical_constants := physical_constants self;
     revolutionary_physics := revolutionary_physics self |}.

(** [self.<name>] for a method the class does not define. *)
Definition missing_method {A} (name : string) : M PhysicalDatabase A :=
  raise ("'PhysicalDatabase' object has no attribute '" ++ name ++ "'").

(** The branch of [store_learning] that [data] selects: none of the
    three methods it names is defined. *)
Definition store_item (data : Data) : M PhysicalDatabase unit :=
  match data with
  | DictData d =>
      if has_law d then missing_method "_store_physical_law"
      else if has_constant d then missing_method "_store_physical_constant"
      else if has_phenomenon d then missing_method "_store_physical_phenomenon"
      else ret tt
  | OtherData => ret tt
  end.

(** [data] is a dict with one of the three keys. *)
Definition names_a_method (data : Data) : bool :=
  match data with
  | DictData d => has_law d || has_constant d || has_phenomenon d
  | OtherData => false
  end.

(** [f"phys_learning_{uuid.uuid4()}"]. *)
Definition session_name (r : Readings) : string := "phys_learning_" ++ session_uuid r.

(** [PhysicalDatabase.store_learning]. *)
Definition store_learning (data : Data) (source : LearningSource) (metadata : option Json)
  (r : Readings) : M PhysicalDatabase unit :=
  let session_id := session_name r in
  try_except
    (store_item data ;;
     modify (on_base (log_learning_session session_id source "physical_data" true
                        metadata (log_now r) (log_updated r))))
    (fun e =>
     modify (on_base (log_learning_session session_id source "physical_data" false
                        (Some (with_error (metadata_or_empty metadata) e))
                        (log_now r) (log_updated r)))).

(** The store calls a database has served, in their order. *)
Definition StoreCall : Type := Data * LearningSource * option Json * Readings.

Definition run_stores (calls : list StoreCall) (self : PhysicalDatabase) : PhysicalDatabase :=
  fold_left
    (fun db '(data, source, metadata, r) => fst (store_learning data source metadata r db))
    calls self.

End WithJson.

(** [ORDER BY experimental_verification DESC, applications DESC]. *)
Definition law_before (a b : PhysicalLaw) : bool :=
  match (experimental_verification a ?= experimental_verification b)%Q with
  | Gt => true
  | Lt => false
  | Eq => (law_applications b <=? law_applications a)%Z
  end.

(** [WHERE law_name LIKE ? OR description LIKE ?]. *)
Definition law_matches (query : string) (r : PhysicalLaw) : bool :=
  like (contains_pattern query) (law_name r)
  || like (contains_pattern query) (law_description r).

Definition select_laws (query : string) (n : Z) (self : PhysicalDatabase) : list PhysicalLaw :=
  limit n (order_by law_before (List.filter (law_matches query) (rows (physical_laws self)))).

Definition law_record (row : PhysicalLaw) : Knowledge :=
  [ ("type", KText "physical_law");
    ("law_name", KText (law_name row));
    ("category", KText (law_category row));
    ("expression", KText (mathematical_expression row));
    ("description", KText (law_description row));
    ("verification", KReal (experimental_verification row)) ].

(** [PhysicalDatabase.retrieve_knowledge]. *)
Definition retrieve_knowledge (query : string) (n : Z) (self : PhysicalDatabase)
  : Result (list Knowledge) :=
  bind_integer n (py_slice_to n (map law_record (select_laws query n self))).

End PhysicalStore.

(** ** Sample data for the stores and helpers *)

Module Samples.

Import Layer Core Sql SqlStatements Databases MathematicalStore LogicalStore Numbers Demo.

#[local] Existing Instance string_logic.
#[local] Existing Instance json_text.

(** On JSON given by its text: the literal [[]], and the text of a dict
    with one more key. *)
Definition json_objects : JsonObjects :=
  {| empty_list := "[]";
     with_error := fun text e => "{**" ++ text ++ ", 'error': '" ++ e ++ "'}" |}.

(** [int(math.sqrt(n))] where the float square root is exact. *)
Definition exact_sqrt : PyMath :=
  {| sqrt_int := fun n => Returned (Z.sqrt n) |}.

(** The [uuid4()] and clock readings of one call. *)
Definition readings_3 : Readings :=
  {| session_uuid := "s3"; item_uuid := "3"; item_now := "2025-01-01T00:00:03";
     log_now := "2025-01-01T00:00:04"; log_updated := "2025-01-01T00:00:05" |}.

(** The same with the [uuid4()] of the stored equation [eq_2]. *)
Definition readings_2 : Readings :=
  {| session_uuid := "s2"; item_uuid := "2"; item_now := "2025-01-01T00:00:03";
     log_now := "2025-01-01T00:00:04"; log_updated := "2025-01-01T00:00:05" |}.

(** [{'type': 'gamma', 'formula': 'y = x + c', 'accuracy': 0.7}]. *)
Definition gamma_equation : EquationData :=
  {| eqd_type := Some "gamma"; eqd_formula := Some "y = x + c"; eqd_parameters := None;
     eqd_domain := None; eqd_range := None; eqd_accuracy := Some 0.7%Q |}.

(** [{'equation': {...}, 'constant': 'pi'}]: the second key is never
    looked at. *)
Definition equation_data : MathematicalStore.DataDict :=
  {| data_equation := Some (IsDict gamma_equation); data_model := None;
     data_constant := Some (NotDict "str") |}.

(** [{'equation': 'y = x'}]: a string where a dict is expected. *)
Definition text_equation_data : MathematicalStore.DataDict :=
  {| data_equation := Some (NotDict "str"); data_model := None; data_constant := None |}.

(** [{'constant': {'name': 'pi', 'value': 3.14}}]. *)
Definition short_pi : ConstantData :=
  {| cd_name := Some "pi"; cd_value := Some 3.14%Q; cd_description := None;
     cd_precision := None; cd_source := None |}.

Definition constant_data : MathematicalStore.DataDict :=
  {| data_equation := None; data_model := None; data_constant := Some (IsDict short_pi) |}.

(** [LogicalDatabase()] on a new database file. *)
Definition fresh_logical : LogicalDatabase :=
  new_LogicalDatabase None None "2025-01-01T00:00:00".

(** [{'rule': {'name': 'syllogism', 'premise': 'all men are mortal'}}]. *)
Definition syllogism : RuleData :=
  {| rd_name := Some "syllogism"; rd_type := None; rd_premise := Some "all men are mortal";
     rd_conclusion := None; rd_confidence := None |}.

Definition rule_data : LogicalStore.DataDict :=
  {| data_rule := Some (IsDict syllogism); has_inference := true; has_contradiction := false |}.

(** [{'contradiction': ...}]. *)
Definition contradiction_data : LogicalStore.DataDict :=
  {| data_rule := None; has_inference := false; has_contradiction := true |}.

(** Two layer results with confidences [0.8] and [0.7] and one error. *)
Definition three_results : dict LayerResult :=
  [ ("mathematical",
     SuccessResult "mathematical" "zero_duality" "perpendicularity" "filament"
       {| sp_type := "mathematical_analysis"; sp_confidence := 0.8; sp_payload := tt |});
    ("physical", ErrorRecord "physical" "unsupported complexity level");
    ("visual",
     SuccessResult "visual" "zero_duality" "perpendicularity" "filament"
       {| sp_type := "visual_analysis"; sp_confidence := 0.7; sp_payload := tt |}) ].

End Samples.

(** * Properties *)

Module PyFacts.

Import Hoare.

Section Triples.

Context {S : Type}.

Lemma triple_ret {A} (P : S -> Prop) (a : A) (Q : A -> S -> Prop) E :
  (forall s, P s -> Q a s) -> triple P (ret a) Q E.
Proof. intros HQ s Hs. cbn. auto. Qed.

Lemma triple_raise {A} (P : S -> Prop) msg (Q : A -> S -> Prop) (E : S -> Prop) :
  (forall s, P s -> E s) -> triple P (raise msg) Q E.
Proof. intros HE s Hs. cbn. auto. Qed.

Lemma triple_bind {A B} (P : S -> Prop) (m : M S A) (k : A -> M S B) R Q E :
  triple P m R E -> (forall a, triple (R a) (k a) Q E) -> triple P (bind m k) Q E.
Proof.
  intros Hm Hk s Hs. unfold bind. specialize (Hm s Hs).
  destruct (m s) as [s' [a|e]]; [apply (Hk a s' Hm) | exact Hm].
Qed.

Lemma triple_get (P : S -> Prop) E : triple P get (fun a s => a = s /\ P s) E.
Proof. intros s Hs. cbn. auto. Qed.

Lemma triple_modify (P : S -> Prop) (f : S -> S) (Q : unit -> S -> Prop) E :
  (forall s, P s -> Q tt (f s)) -> triple P (modify f) Q E.
Proof. intros HQ s Hs. cbn. auto. Qed.

Lemma triple_lift {A} (P : S -> Prop) (r : Result A) (Q : A -> S -> Prop) (E : S -> Prop) :
  (forall s, P s -> match r with Returned a => Q a s | Raised _ => E s end) ->
  triple P (lift r) Q E.
Proof. intros HQ s Hs. unfold lift. specialize (HQ s Hs). destruct r; auto. Qed.

Lemma triple_try_except {A} (P : S -> Prop) (body : M S A) handler Q E' E :
  triple P body Q E' -> (forall e, triple E' (handler e) Q E) ->
  triple P (try_except body handler) Q E.
Proof.
  intros Hb Hh s Hs. unfold try_except. specialize (Hb s Hs).
  destruct (body s) as [s' [a|e]]; [exact Hb | apply (Hh e s' Hb)].
Qed.

Lemma triple_conseq {A} (P P' : S -> Prop) (m : M S A) (Q Q' : A -> S -> Prop) (E E' : S -> Prop) :
  triple P' m Q' E' -> (forall s, P s -> P' s) -> (forall a s, Q' a s -> Q a s) ->
  (forall s, E' s -> E s) -> triple P m Q E.
Proof.
  intros Hm HP HQ HE s Hs. specialize (Hm s (HP s Hs)).
  destruct (m s) as [s' [a|e]]; auto.
Qed.

Lemma bind_assoc {A B C} (m : M S A) (f : A -> M S B) (g : B -> M S C) s :
  bind (bind m f) g s = bind m (fun x => bind (f x) g) s.
Proof. unfold bind. destruct (m s) as [s' [a|e]]; reflexivity. Qed.

End Triples.

Section Dicts.

Context {V : Type}.

Lemma dict_get_set (d : dict V) k k' v :
  dict_get (dict_set d k v) k' = if String.eqb k k' then Some v else dict_get d k'.
Proof.
  induction d as [|[k0 v0] d IH]; cbn.
  - reflexivity.
  - destruct (String.eqb k0 k) eqn:E0; cbn.
    + apply String.eqb_eq in E0. subst k0. destruct (String.eqb k k'); reflexivity.
    + rewrite IH. destruct (String.eqb k k') eqn:E1; [|reflexivity].
      apply String.eqb_eq in E1. subst k'. rewrite E0. reflexivity.
Qed.

Lemma dict_get_set_eq (d : dict V) k v : dict_get (dict_set d k v) k = Some v.
Proof. rewrite dict_get_set, String.eqb_refl. reflexivity. Qed.

Lemma dict_get_set_ne (d : dict V) k k' v :
  k <> k' -> dict_get (dict_set d k v) k' = dict_get d k'.
Proof.
  intros Hne. rewrite dict_get_set.
  destruct (String.eqb k k') eqn:E; [apply String.eqb_eq in E; contradiction | reflexivity].
Qed.

Lemma dict_keys_set_present (d : dict V) k v :
  dict_mem d k = true -> dict_keys (dict_set d k v) = dict_keys d.
Proof.
  unfold dict_mem, dict_keys. induction d as [|[k0 v0] d IH]; cbn.
  - discriminate.
  - destruct (String.eqb k0 k) eqn:E0; cbn.
    + apply String.eqb_eq in E0. subst. reflexivity.
    + intros Hm. f_equal. apply IH, Hm.
Qed.

Lemma dict_mem_get (d : dict V) k : dict_mem d k = true <-> exists v, dict_get d k = Some v.
Proof.
  unfold dict_mem. destruct (dict_get d k) as [v|].
  - split; eauto.
  - split; [discriminate | intros [v Hv]; discriminate].
Qed.

Lemma dict_mem_keys (d : dict V) k : dict_mem d k = true <-> In k (dict_keys d).
Proof.
  unfold dict_mem, dict_keys. induction d as [|[k0 v0] d IH]; cbn.
  - split; [discriminate | tauto].
  - destruct (String.eqb k0 k) eqn:E0.
    + apply String.eqb_eq in E0. tauto.
    + apply String.eqb_neq in E0. rewrite IH. intuition congruence.
Qed.

End Dicts.

End PyFacts.

Module LayerFacts.

Import Layer SpecWords LayerNotions.

Section WithLogic.

Context `{LayerLogic}.

Lemma calculate_compatibility_table self other sync :
  _calculate_compatibility self other sync
  = base_compatibility (layer_type self) (layer_type other).
Proof.
  unfold _calculate_compatibility, base_compatibility.
  destruct (layer_type self), (layer_type other); reflexivity.
Qed.

Lemma synchronize_with_layer_run self other sync :
  synchronize_with_layer other sync self
  = (synchronized_layer self other sync,
     Returned (base_compatibility (layer_type self) (layer_type other))).
Proof.
  unfold synchronize_with_layer, synchronized_layer, try_except, bind, get, modify, ret.
  rewrite calculate_compatibility_table. cbn.
  destruct (Qlt_le_dec 0.7 _); reflexivity.
Qed.

Lemma synchronized_layer_type self other sync :
  layer_type (synchronized_layer self other sync) = layer_type self.
Proof. unfold synchronized_layer. destruct (Qlt_le_dec _ _); reflexivity. Qed.

Lemma base_compatibility_sym a b : base_compatibility a b = base_compatibility b a.
Proof. destruct a, b; reflexivity. Qed.

Lemma base_compatibility_range a b :
  (0 <= base_compatibility a b)%Q /\ (base_compatibility a b <= 1)%Q.
Proof. destruct a, b; split; unfold Qle; cbn; lia. Qed.

Lemma process_input_run input_data self :
  process_input input_data self
  = match theories (layer_type self) input_data with
    | Returned (z, p, f) =>
        (_update_performance_metrics true (set_state ACTIVE (set_state PROCESSING self)),
         Returned (SuccessResult (value (layer_type self)) z p f
                     (_specialized_processing (layer_type self) input_data)))
    | Raised e =>
        (_update_performance_metrics false (set_state ERROR (set_state PROCESSING self)),
         Returned (ErrorRecord (value (layer_type self)) e))
    end.
Proof.
  unfold process_input, theories, try_except, bind, get, modify, ret, lift. cbn.
  destruct (apply_zero_duality_theory _ _); [|reflexivity].
  destruct (apply_perpendicularity_theory _ _ _); [|reflexivity].
  destruct (apply_filament_theory _ _); reflexivity.
Qed.

Lemma process_input_layer_type input_data self :
  layer_type (fst (process_input input_data self)) = layer_type self.
Proof.
  rewrite process_input_run.
  destruct (theories _ _) as [[[z p] f]|e]; reflexivity.
Qed.

End WithLogic.

End LayerFacts.

Module CoreFacts.

Import Hoare Layer Core SpecWords LayerNotions CoreNotions PyFacts LayerFacts.

Section WithManager.

Context `{LayerLogic} {Mgr : Type} `{!DatabaseManager Mgr LearningData}.

Implicit Types (self s : ThinkingCore Mgr) (m : gmap string (gmap string Q)).

Lemma cell_insert m a b v row x y :
  m !! a = Some row ->
  cell (<[a := <[b := v]> row]> m) x y
  = if decide (x = a /\ y = b) then Some v else cell m x y.
Proof.
  intros Ha. unfold cell.
  destruct (decide (x = a /\ y = b)) as [[-> ->]|Hn].
  - rewrite lookup_insert_eq. apply lookup_insert_eq.
  - destruct (decide (a = x)) as [<-|Hne].
    + rewrite lookup_insert_eq, Ha. apply lookup_insert_ne. intros ->. apply Hn. auto.
    + rewrite lookup_insert_ne by exact Hne. reflexivity.
Qed.

Lemma framed_refl s : framed s s.
Proof. split; [reflexivity | split; [reflexivity | tauto]]. Qed.

Lemma framed_mem s0 s k : framed s0 s -> dict_mem (layers s) k = dict_mem (layers s0) k.
Proof.
  intros (_ & Ht & _). specialize (Ht k). unfold dict_mem.
  destruct (dict_get (layers s) k), (dict_get (layers s0) k); cbn in Ht; congruence.
Qed.

Lemma framed_registered s0 s p : framed s0 s -> registered_pair s p = registered_pair s0 p.
Proof. intros Hf. unfold registered_pair. rewrite !(framed_mem s0 s) by assumption. reflexivity. Qed.

Lemma framed_score s0 s p : framed s0 s -> pair_score s p = pair_score s0 p.
Proof.
  intros (_ & Ht & _). unfold pair_score.
  pose proof (Ht (fst p)) as H1. pose proof (Ht (snd p)) as H2.
  destruct (dict_get (layers s) (fst p)) as [a|], (dict_get (layers s0) (fst p)) as [a0|];
    cbn in H1; try discriminate H1; [|reflexivity].
  destruct (dict_get (layers s) (snd p)) as [b|], (dict_get (layers s0) (snd p)) as [b0|];
    cbn in H2; try discriminate H2; [|reflexivity].
  congruence.
Qed.

Lemma framed_rows_present s0 s : framed s0 s -> rows_present s <-> rows_present s0.
Proof.
  intros Hf. unfold rows_present. destruct Hf as (Hk & Ht & Hm).
  assert (Hmem : forall k, dict_mem (layers s) k = dict_mem (layers s0) k).
  { intros k. apply framed_mem. exact (conj Hk (conj Ht Hm)). }
  split; intros Hr k Hk'.
  - apply Hm, Hr. rewrite Hmem. exact Hk'.
  - apply Hm, Hr. rewrite <- Hmem. exact Hk'.
Qed.

(** A layer replaced by one of the same type leaves the frame intact. *)
Lemma framed_set_layer s0 s k layer layer' :
  framed s0 s -> dict_get (layers s) k = Some layer -> layer_type layer' = layer_type layer ->
  framed s0 (set_layers (dict_set (layers s) k layer') s).
Proof.
  intros (Hk & Ht & Hm) Hget Hty.
  unfold framed, set_layers. cbn [layers synchronization_matrix]. split; [|split].
  - rewrite dict_keys_set_present; [exact Hk|]. apply dict_mem_get. eauto.
  - intros k'. rewrite dict_get_set. destruct (String.eqb k k') eqn:E.
    + apply String.eqb_eq in E. subst k'. rewrite <- Ht, Hget. cbn. congruence.
    + apply Ht.
  - exact Hm.
Qed.

Lemma invariant_set_layer s k layer layer' :
  matrix_invariant s -> dict_get (layers s) k = Some layer ->
  matrix_invariant (set_layers (dict_set (layers s) k layer') s).
Proof.
  intros [Hsym Hrows] Hget.
  assert (Hmem : forall k', dict_mem (dict_set (layers s) k layer') k' = dict_mem (layers s) k').
  { intros k'. unfold dict_mem. rewrite dict_get_set. destruct (String.eqb k k') eqn:E; [|reflexivity].
    apply String.eqb_eq in E. subst k'. rewrite Hget. reflexivity. }
  split; [exact Hsym|]. unfold rows_present, rows_absent, set_layers in *.
  cbn [layers synchronization_matrix].
  destruct Hrows as [Hr|Hr]; [left|right]; intros k' Hk'; apply Hr; rewrite <- Hmem; exact Hk'.
Qed.

End WithManager.

End CoreFacts.

Module CoreLoops.

Import Hoare Layer Core SpecWords LayerNotions CoreNotions PyFacts LayerFacts CoreFacts.

Section WithManager.

Context `{LayerLogic} {Mgr : Type} `{!DatabaseManager Mgr LearningData}.

Implicit Types (self s : ThinkingCore Mgr).

Lemma tally_cons s0 p pairs acc :
  tally s0 (p :: pairs) acc
  = tally s0 pairs
      (if registered_pair s0 p then ((fst acc + pair_score s0 p)%Q, S (snd acc)) else acc).
Proof. reflexivity. Qed.

Lemma tally_app s0 pairs1 pairs2 acc :
  tally s0 (pairs1 ++ pairs2) acc = tally s0 pairs2 (tally s0 pairs1 acc).
Proof. unfold tally. apply fold_left_app. Qed.

(** The two assignments into the matrix, for two registered names. *)
Lemma matrix_set_pair s a b v :
  matrix_invariant s ->
  dict_mem (layers s) a = true -> dict_mem (layers s) b = true ->
  (exists s', bind (matrix_set a b v) (fun _ => matrix_set b a v) s = (s', Returned tt)
     /\ layers s' = layers s
     /\ matrix_invariant s'
     /\ (forall k, is_Some (synchronization_matrix s' !! k)
                   <-> is_Some (synchronization_matrix s !! k))
     /\ cell (synchronization_matrix s') a b = Some v
     /\ cell (synchronization_matrix s') b a = Some v
     /\ rows_present s)
  \/ (exists e, bind (matrix_set a b v) (fun _ => matrix_set b a v) s = (s, Raised e)
      /\ ~ rows_present s).
Proof.
  intros [Hsym Hrows] Ha Hb.
  destruct (synchronization_matrix s !! a) as [ra|] eqn:Ra.
  - assert (Hp : rows_present s).
    { destruct Hrows as [Hp|Hn]; [exact Hp|]. rewrite (Hn a Ha) in Ra. discriminate. }
    left. unfold bind, matrix_set at 1. rewrite Ra.
    unfold matrix_set, set_synchronization_matrix. cbn [synchronization_matrix].
    set (m1 := <[a := <[b := v]> ra]> (synchronization_matrix s)).
    assert (Hb1 : exists rb, m1 !! b = Some rb).
    { subst m1. destruct (decide (a = b)) as [<-|Hne].
      - rewrite lookup_insert_eq. eauto.
      - rewrite lookup_insert_ne by exact Hne. destruct (Hp b Hb) as [rb Hrb]. eauto. }
    destruct Hb1 as [rb Hrb]. rewrite Hrb.
    eexists. split; [reflexivity|]. cbn [layers synchronization_matrix].
    assert (Hcell : forall x y,
      cell (<[b := <[a := v]> rb]> m1) x y
      = if decide (x = b /\ y = a) then Some v
        else if decide (x = a /\ y = b) then Some v
        else cell (synchronization_matrix s) x y).
    { intros x y. rewrite (cell_insert m1 b a v rb x y Hrb).
      destruct (decide (x = b /\ y = a)); [reflexivity|].
      subst m1. apply cell_insert. exact Ra. }
    assert (Hdom : forall k, is_Some ((<[b := <[a := v]> rb]> m1) !! k)
                             <-> is_Some (synchronization_matrix s !! k)).
    { intros k. subst m1. destruct (decide (b = k)) as [<-|Hbk].
      - rewrite lookup_insert_eq. split; [intros _; apply Hp, Hb | eauto].
      - rewrite lookup_insert_ne by exact Hbk. destruct (decide (a = k)) as [<-|Hak].
        + rewrite lookup_insert_eq, Ra. split; eauto.
        + rewrite lookup_insert_ne by exact Hak. tauto. }
    split; [reflexivity|]. split; [|split; [exact Hdom|split; [|split; [|exact Hp]]]].
    + split.
      * intros x y. rewrite !Hcell.
        destruct (decide (x = b /\ y = a)) as [[-> ->]|N1].
        { destruct (decide (a = b /\ b = a)); [reflexivity|].
          rewrite decide_True by auto. reflexivity. }
        destruct (decide (x = a /\ y = b)) as [[-> ->]|N2].
        { rewrite decide_True by auto. reflexivity. }
        rewrite decide_False by (intros [-> ->]; apply N2; auto).
        rewrite decide_False by (intros [-> ->]; apply N1; auto).
        apply Hsym.
      * left. intros k Hk. apply Hdom, Hp, Hk.
    + rewrite Hcell. destruct (decide (a = b /\ b = a)); [reflexivity|].
      rewrite decide_True by auto. reflexivity.
    + rewrite Hcell. rewrite decide_True by auto. reflexivity.
  - right. exists "KeyError". unfold bind, matrix_set at 1. rewrite Ra. split; [reflexivity|].
    intros Hp. destruct (Hp a Ha) as [r Hr]. congruence.
Qed.

Lemma loop_invariant_registered s0 s a layer :
  loop_invariant s0 s -> dict_get (layers s) a = Some layer ->
  dict_mem (layers s0) a = true.
Proof.
  intros [_ Hf] Hget. rewrite <- (framed_mem s0 s a Hf). apply dict_mem_get. eauto.
Qed.

Lemma sync_inner_spec s0 layer1_name results rest :
  forall acc,
    triple (loop_invariant s0)
      (sync_inner layer1_name rest results acc)
      (fun r s' => loop_invariant s0 s' /\ r = tally s0 (map (pair layer1_name) rest) acc)
      (fun s' => loop_invariant s0 s' /\ ~ rows_present s0).
Proof.
  induction rest as [|layer2_name rest IH]; intros acc.
  - apply triple_ret. auto.
  - intros s Hs. cbn [sync_inner map]. unfold bind at 1. cbn [get].
    rewrite tally_cons. unfold registered_pair. cbn [fst snd].
    destruct (dict_get (layers s) layer1_name) as [layer1|] eqn:E1.
    2:{ assert (dict_mem (layers s0) layer1_name = false) as ->.
        { rewrite <- (framed_mem s0 s _ (proj2 Hs)). unfold dict_mem. rewrite E1. reflexivity. }
        cbn [andb]. apply IH, Hs. }
    destruct (dict_get (layers s) layer2_name) as [layer2|] eqn:E2.
    2:{ assert (dict_mem (layers s0) layer2_name = false) as ->.
        { rewrite <- (framed_mem s0 s _ (proj2 Hs)). unfold dict_mem. rewrite E2. reflexivity. }
        rewrite andb_false_r. apply IH, Hs. }
    rewrite (loop_invariant_registered s0 s _ _ Hs E1).
    rewrite (loop_invariant_registered s0 s _ _ Hs E2). cbn [andb].
    unfold bind at 1. unfold on_layer. rewrite E1.
    rewrite synchronize_with_layer_run.
    set (v := base_compatibility (layer_type layer1) (layer_type layer2)).
    set (s1 := set_layers _ s).
    assert (Hs1 : loop_invariant s0 s1).
    { destruct Hs as [HJ HF]. split.
      - eapply invariant_set_layer; eauto.
      - eapply framed_set_layer; eauto. apply synchronized_layer_type. }
    assert (Hv : pair_score s0 (layer1_name, layer2_name) = v).
    { rewrite <- (framed_score s0 s _ (proj2 Hs)). unfold pair_score. cbn [fst snd].
      rewrite E1, E2. reflexivity. }
    rewrite Hv.
    rewrite <- (bind_assoc (matrix_set layer1_name layer2_name v)
                  (fun _ => matrix_set layer2_name layer1_name v)).
    assert (Hm1 : dict_mem (layers s1) layer1_name = true).
    { rewrite (framed_mem s0 s1 _ (proj2 Hs1)).
      exact (loop_invariant_registered s0 s _ _ Hs E1). }
    assert (Hm2 : dict_mem (layers s1) layer2_name = true).
    { rewrite (framed_mem s0 s1 _ (proj2 Hs1)).
      exact (loop_invariant_registered s0 s _ _ Hs E2). }
    destruct (matrix_set_pair s1 layer1_name layer2_name v (proj1 Hs1) Hm1 Hm2)
      as [(s2 & Hrun & Hl & HJ2 & Hdom & _ & _ & _)|(e & Hrun & Hnp)].
    + unfold bind at 1. rewrite Hrun.
      apply IH. split; [exact HJ2|].
      destruct Hs1 as [_ (Hk & Ht & Hm)]. split; [|split].
      * rewrite Hl. exact Hk.
      * intros k. rewrite Hl. apply Ht.
      * intros k. rewrite Hdom. apply Hm.
    + unfold bind at 1. rewrite Hrun. split; [exact Hs1|].
      intros Hp. apply Hnp. apply (framed_rows_present s0 s1 (proj2 Hs1)). exact Hp.
Qed.

Lemma sync_outer_spec s0 results active_layers :
  forall acc,
    triple (loop_invariant s0)
      (sync_outer active_layers results acc)
      (fun r s' => loop_invariant s0 s' /\ r = tally s0 (index_pairs active_layers) acc)
      (fun s' => loop_invariant s0 s' /\ ~ rows_present s0).
Proof.
  induction active_layers as [|layer1_name rest IH]; intros acc.
  - apply triple_ret. auto.
  - cbn [sync_outer index_pairs].
    eapply triple_bind; [apply sync_inner_spec|].
    intros acc' s [Hs ->].
    specialize (IH (tally s0 (map (pair layer1_name) rest) acc) s Hs).
    destruct (sync_outer rest results _ s) as [s' [r|e]]; [|exact IH].
    destruct IH as [Hs' ->]. split; [exact Hs'|]. symmetry. apply tally_app.
Qed.

End WithManager.

End CoreLoops.

Module RoundFacts.

Import Hoare Layer Core SpecWords LayerNotions CoreNotions PyFacts LayerFacts CoreFacts CoreLoops.

Section WithManager.

Context `{LayerLogic} {Mgr : Type} `{!DatabaseManager Mgr LearningData}.

Implicit Types (self s : ThinkingCore Mgr).

Lemma process_input_outcome input_data (layer : ThinkingLayer) :
  snd (process_input input_data layer) = Returned (layer_outcome (layer_type layer) input_data).
Proof.
  rewrite process_input_run. unfold layer_outcome.
  destruct (theories _ _) as [[[z p] f]|e]; reflexivity.
Qed.

Lemma on_layer_process_input s0 s layer_name layer input_data :
  loop_invariant s0 s -> dict_get (layers s) layer_name = Some layer ->
  exists s', on_layer layer_name (process_input input_data) s
             = (s', Returned (layer_outcome (layer_type layer) input_data))
    /\ loop_invariant s0 s'
    /\ database_manager s' = database_manager s
    /\ dict_get (layers s') layer_name = Some (fst (process_input input_data layer)).
Proof.
  intros [HJ HF] Hget. unfold on_layer. rewrite Hget.
  pose proof (process_input_outcome input_data layer) as Hout.
  destruct (process_input input_data layer) as [layer' r] eqn:Hrun. cbn in Hout. subst r.
  eexists. split; [reflexivity|]. split; [split|split].
  - eapply invariant_set_layer; eauto.
  - eapply framed_set_layer; eauto.
    change layer' with (fst (layer', @Returned LayerResult (layer_outcome (layer_type layer) input_data))).
    rewrite <- Hrun. apply process_input_layer_type.
  - reflexivity.
  - cbn. apply dict_get_set_eq.
Qed.

Lemma process_layers_spec s0 input_data active_layers :
  forall results,
    triple (loop_invariant s0)
      (process_layers input_data active_layers results)
      (fun r s' => loop_invariant s0 s'
                   /\ r = expected_results s0 input_data active_layers results)
      (fun s' => loop_invariant s0 s' /\ ~ store_total Mgr).
Proof.
  induction active_layers as [|layer_name rest IH]; intros results.
  - apply triple_ret. auto.
  - intros s Hs. cbn [process_layers expected_results fold_left].
    fold (expected_results s0 input_data rest).
    unfold bind at 1. cbn [get]. unfold dict_mem.
    assert (Hty : layer_type <$> dict_get (layers s) layer_name
                  = layer_type <$> dict_get (layers s0) layer_name)
      by apply (proj2 Hs).
    destruct (dict_get (layers s) layer_name) as [layer|] eqn:E.
    2:{ destruct (dict_get (layers s0) layer_name); [discriminate Hty|]. apply IH, Hs. }
    destruct (dict_get (layers s0) layer_name) as [layer0|]; [|discriminate Hty].
    cbn in Hty. injection Hty as Hty. rewrite <- Hty.
    destruct (on_layer_process_input s0 s layer_name layer input_data Hs E)
      as (s1 & Hrun & Hs1 & Hmgr & _).
    unfold bind at 1. rewrite Hrun.
    destruct (database_manager s) as [mgr|] eqn:Em.
    + unfold bind at 1. unfold on_manager.
      destruct (store_learning layer_name _ mgr) as [mgr' [[]|e]] eqn:Est.
      * apply IH. destruct Hs1 as [[Hsym Hrows] HF]. split; [split|]; auto.
      * split.
        { destruct Hs1 as [[Hsym Hrows] HF]. split; [split|]; auto. }
        intros Htot.
        match type of Est with
        | store_learning ?n ?d ?m = _ => destruct (Htot n d m) as [mgr'' Hm]
        end.
        rewrite Hm in Est. discriminate.
    + unfold bind at 1. cbn [ret]. apply IH, Hs1.
Qed.

Lemma synchronize_layers_spec s0 active_layers results :
  triple (loop_invariant s0)
    (_synchronize_layers active_layers results)
    (fun r s' => loop_invariant s0 s' /\ r = sync_value s0 active_layers)
    (fun s' => loop_invariant s0 s' /\ ~ rows_present s0).
Proof.
  unfold _synchronize_layers, sync_value.
  destruct (length active_layers <? 2)%nat.
  - apply triple_ret. auto.
  - eapply triple_bind; [apply sync_outer_spec|].
    intros acc. apply triple_ret. intros s [Hs ->]. auto.
Qed.

Lemma loop_invariant_statistics s0 s success sync_level :
  loop_invariant s0 s -> loop_invariant s0 (_update_core_statistics success sync_level s).
Proof. intros [[Hsym Hrows] HF]. split; [split|]; auto. Qed.

Lemma comprehensive_processing_spec s input_data target_layers :
  matrix_invariant s ->
  let active_layers := resolve_layers s target_layers in
  exists s' r,
    comprehensive_processing input_data target_layers s = (s', Returned r)
    /\ loop_invariant s s'
    /\ (r = final_result s input_data active_layers
        \/ (exists e, r = ErrorResult active_layers e)
            /\ (~ store_total Mgr \/ ~ rows_present s)).
Proof.
  intros HJ active_layers. unfold comprehensive_processing.
  unfold bind at 1. cbn [get]. fold active_layers.
  assert (Hbody : triple (loop_invariant s)
            (do results <- process_layers input_data active_layers [] ;
             do sync_level <- _synchronize_layers active_layers results ;
             modify (_update_core_statistics true sync_level) ;;
             ret (FinalResult active_layers results sync_level
                    (_integrate_layer_results results)))
            (fun r s' => loop_invariant s s' /\ r = final_result s input_data active_layers)
            (fun s' => loop_invariant s s' /\ (~ store_total Mgr \/ ~ rows_present s))).
  { eapply (triple_bind _ _ _
              (fun r s' => loop_invariant s s'
                           /\ r = expected_results s input_data active_layers [])).
    { eapply triple_conseq; [apply (process_layers_spec s)| | |]; cbn beta.
      - auto.
      - auto.
      - intros s' [Hs' Hn]. auto. }
    intros results s1 [Hs1 ->]. revert s1 Hs1.
    change (triple (loop_invariant s)
       (do sync_level <- _synchronize_layers active_layers
                           (expected_results s input_data active_layers []) ;
        modify (_update_core_statistics true sync_level) ;;
        ret (FinalResult active_layers (expected_results s input_data active_layers [])
               sync_level
               (_integrate_layer_results (expected_results s input_data active_layers []))))
       (fun r s' => loop_invariant s s' /\ r = final_result s input_data active_layers)
       (fun s' => loop_invariant s s' /\ (~ store_total Mgr \/ ~ rows_present s))).
    eapply (triple_bind _ _ _
              (fun r s' => loop_invariant s s' /\ r = sync_value s active_layers)).
    { eapply triple_conseq; [apply (synchronize_layers_spec s)| | |]; cbn beta.
      - auto.
      - auto.
      - intros s' [Hs' Hn]. auto. }
    intros sync_level s2 [Hs2 ->].
    unfold bind, modify, ret. split; [|reflexivity].
    apply loop_invariant_statistics, Hs2. }
  unfold try_except.
  specialize (Hbody s (conj HJ (framed_refl s))).
  match goal with
  | Hb : match ?body s with _ => _ end |- _ => destruct (body s) as [s' [r|e]]
  end.
  - exists s', r. destruct Hbody as [Hs' ->]. auto.
  - destruct Hbody as [Hs' Hwhy].
    unfold bind, modify, ret. eexists _, _. split; [reflexivity|].
    split; [apply loop_invariant_statistics, Hs'|]. right. eauto.
Qed.

Lemma comprehensive_processing_final s input_data target_layers :
  matrix_invariant s -> rows_present s -> store_total Mgr ->
  exists s',
    comprehensive_processing input_data target_layers s
    = (s', Returned (final_result s input_data (resolve_layers s target_layers))).
Proof.
  intros Hinv Hrows Htot.
  destruct (comprehensive_processing_spec s input_data target_layers Hinv)
    as (s' & r & Hrun & _ & [->|[_ [Hno|Hno]]]).
  - exists s'. exact Hrun.
  - contradiction.
  - contradiction.
Qed.

End WithManager.

End RoundFacts.

Module InitFacts.

Import Hoare Layer Core SpecWords LayerNotions CoreNotions PyFacts LayerFacts CoreFacts CoreLoops RoundFacts.

Lemma in_names_spec k : in_names k = true <-> In k layer_names.
Proof.
  unfold in_names. rewrite existsb_exists. split.
  - intros (x & Hx & Hk). apply String.eqb_eq in Hk. subst. exact Hx.
  - intros Hk. exists k. split; [exact Hk | apply String.eqb_refl].
Qed.

Lemma cells_named_sound m a b v :
  cells_named m = true -> cell m a b = Some v -> In a layer_names /\ In b layer_names.
Proof.
  unfold cells_named, cell. intros Hc Hcell.
  destruct (m !! a) as [row|] eqn:Ha; [|discriminate].
  rewrite forallb_forall in Hc.
  specialize (Hc (a, row)). cbn [fst snd] in Hc.
  assert (Hin : In (a, row) (map_to_list m)).
  { apply list_elem_of_In, elem_of_map_to_list. exact Ha. }
  apply Hc in Hin. apply andb_true_iff in Hin as [Hna Hrow].
  split; [apply in_names_spec, Hna|].
  rewrite forallb_forall in Hrow. specialize (Hrow (b, v)). cbn [fst] in Hrow.
  apply in_names_spec, Hrow. apply list_elem_of_In, elem_of_map_to_list. exact Hcell.
Qed.

Lemma mirrored_symmetric m :
  cells_named m = true -> cells_mirrored m = true ->
  forall a b, cell m a b = cell m b a.
Proof.
  intros Hn Hm a b.
  destruct (in_names a && in_names b) eqn:Hab.
  - apply andb_true_iff in Hab as [Ha Hb].
    unfold cells_mirrored in Hm. rewrite forallb_forall in Hm.
    specialize (Hm a (proj1 (in_names_spec a) Ha)). rewrite forallb_forall in Hm.
    specialize (Hm b (proj1 (in_names_spec b) Hb)).
    apply bool_decide_eq_true in Hm. exact Hm.
  - destruct (cell m a b) as [v|] eqn:E1.
    + destruct (cells_named_sound m a b v Hn E1) as [Ha Hb].
      apply in_names_spec in Ha, Hb. rewrite Ha, Hb in Hab. discriminate.
    + destruct (cell m b a) as [v|] eqn:E2; [|reflexivity].
      destruct (cells_named_sound m b a v Hn E2) as [Hb Ha].
      apply in_names_spec in Ha, Hb. rewrite Ha, Hb in Hab. discriminate.
Qed.

Section WithManager.

Context `{LayerLogic} {Mgr : Type} `{!DatabaseManager Mgr LearningData}.

Implicit Types (self s : ThinkingCore Mgr).

Lemma new_core_layers core_name (make_manager : Result Mgr) :
  dict_keys (layers (new_ThinkingCore core_name make_manager)) = layer_names.
Proof. destruct make_manager; reflexivity. Qed.

Lemma new_core_rows_present core_name (mgr : Mgr) :
  rows_present (new_ThinkingCore core_name (Returned mgr)).
Proof.
  intros k Hk. apply dict_mem_keys in Hk. rewrite new_core_layers in Hk.
  assert (Hall : forallb
            (fun k => bool_decide
               (is_Some (synchronization_matrix (new_ThinkingCore core_name (Returned mgr)) !! k)))
            layer_names = true) by (vm_compute; reflexivity).
  rewrite forallb_forall in Hall. specialize (Hall k Hk).
  apply bool_decide_eq_true in Hall. exact Hall.
Qed.

Lemma new_core_invariant core_name (make_manager : Result Mgr) :
  matrix_invariant (new_ThinkingCore core_name make_manager).
Proof.
  destruct make_manager as [mgr|e].
  - split; [|left; apply new_core_rows_present].
    apply mirrored_symmetric; vm_compute; reflexivity.
  - split; [intros a b; reflexivity|]. right. intros k _. reflexivity.
Qed.

End WithManager.

End InitFacts.

Module PairFacts.

Import Hoare Layer Core SpecWords LayerNotions CoreNotions PyFacts LayerFacts CoreFacts CoreLoops.

Lemma index_pairs_in l a b : In (a, b) (index_pairs l) -> In a l /\ In b l.
Proof.
  induction l as [|x rest IH]; cbn [index_pairs]; [intros []|].
  intros Hin. apply in_app_or in Hin as [Hin|Hin].
  - apply in_map_iff in Hin as (y & Heq & Hy). injection Heq as <- <-.
    split; [left; reflexivity | right; exact Hy].
  - destruct (IH Hin). split; right; assumption.
Qed.

Lemma index_pairs_double l : 2 * length (index_pairs l) = length l * (length l - 1).
Proof.
  induction l as [|x rest IH]; [reflexivity|].
  cbn [index_pairs]. rewrite List.length_app, List.length_map. cbn [length].
  rewrite Nat.mul_add_distr_l, IH. destruct (length rest); cbn; lia.
Qed.

Lemma index_pairs_length l : length (index_pairs l) = length l * (length l - 1) / 2.
Proof.
  rewrite <- index_pairs_double, Nat.mul_comm, Nat.div_mul by discriminate. reflexivity.
Qed.

Lemma count_occ_pair_fst x rest a b :
  count_occ pair_eq_dec (map (pair x) rest) (a, b)
  = if decide (a = x) then count_occ string_dec rest b else 0.
Proof.
  destruct (decide (a = x)) as [->|Hne].
  - induction rest as [|y rest IH]; cbn [map count_occ]; [reflexivity|].
    rewrite IH. destruct (pair_eq_dec (x, y) (x, b)) as [Heq|Hn], (string_dec y b) as [Hy|Hy];
      try reflexivity.
    + injection Heq as Heq. contradiction.
    + subst y. contradiction.
  - induction rest as [|y rest IH]; cbn [map count_occ]; [reflexivity|].
    rewrite IH. destruct (pair_eq_dec (x, y) (a, b)) as [Heq|Hn]; [|reflexivity].
    injection Heq as Heq _. congruence.
Qed.

(** Among distinct names, each unordered pair is visited exactly once. *)
Lemma index_pairs_once l a b :
  List.NoDup l -> In a l -> In b l -> a <> b ->
  count_occ pair_eq_dec (index_pairs l) (a, b)
  + count_occ pair_eq_dec (index_pairs l) (b, a) = 1.
Proof.
  induction l as [|x rest IH]; [intros _ []|].
  intros Hnd Ha Hb Hab. apply NoDup_cons_iff in Hnd as [Hx Hnd].
  cbn [index_pairs]. rewrite !count_occ_app, !count_occ_pair_fst.
  assert (Hout : forall p q, (p = x \/ q = x) ->
            count_occ pair_eq_dec (index_pairs rest) (p, q) = 0).
  { intros p q Hpq. apply count_occ_not_In. intros Hin.
    apply index_pairs_in in Hin as [Hp Hq]. destruct Hpq; subst; contradiction. }
  destruct (decide (a = x)) as [->|Hax].
  - rewrite decide_False by congruence.
    destruct Hb as [Hb|Hb]; [congruence|].
    rewrite (Hout x b), (Hout b x) by auto.
    rewrite (proj1 (NoDup_count_occ' string_dec rest) Hnd b Hb). reflexivity.
  - destruct (decide (b = x)) as [->|Hbx].
    + destruct Ha as [Ha|Ha]; [congruence|].
      rewrite (Hout a x), (Hout x a) by auto.
      rewrite (proj1 (NoDup_count_occ' string_dec rest) Hnd a Ha). reflexivity.
    + destruct Ha as [Ha|Ha]; [congruence|]. destruct Hb as [Hb|Hb]; [congruence|].
      cbn [Nat.add]. apply IH; assumption.
Qed.

Section WithManager.

Context `{LayerLogic} {Mgr : Type} `{!DatabaseManager Mgr LearningData}.

Implicit Types (self s : ThinkingCore Mgr).

Lemma registered_index_pairs s l :
  Forall (fun n => dict_mem (layers s) n = true) l ->
  Forall (fun p => registered_pair s p = true) (index_pairs l).
Proof.
  intros Hl. apply Forall_forall. intros [a b] Hin.
  apply index_pairs_in in Hin as [Ha Hb].
  rewrite Forall_forall in Hl. unfold registered_pair. cbn [fst snd].
  rewrite (Hl a Ha), (Hl b Hb). reflexivity.
Qed.

Lemma tally_registered s pairs :
  Forall (fun p => registered_pair s p = true) pairs ->
  forall acc,
    tally s pairs acc
    = (fold_left Qplus (map (pair_score s) pairs) (fst acc), snd acc + length pairs).
Proof.
  induction 1 as [|p pairs Hp Hall IH]; intros [t c].
  - cbn. rewrite Nat.add_0_r. reflexivity.
  - rewrite tally_cons, Hp, IH. cbn [fst snd map fold_left length].
    f_equal. lia.
Qed.

End WithManager.

End PairFacts.

(** ** Synchronization: claims C3, C4, C5 *)

Module SynchronizationSpec.

Import Hoare Layer Core SpecWords LayerNotions CoreNotions PyFacts LayerFacts CoreFacts CoreLoops RoundFacts.
Import InitFacts PairFacts.

Section WithManager.

Context `{LayerLogic} {Mgr : Type} `{!DatabaseManager Mgr LearningData}.

Implicit Types (self s : ThinkingCore Mgr).

(** C5. [synchronize_with_layer] returns the entry of the known-good-pair
    table for the two layer types, looked up in both orders, and [0.5] for
    a pair that is not in the table; the score lies in [0,1]; the calling
    layer becomes [SYNCHRONIZED] when the score exceeds [0.7] and keeps its
    state otherwise. *)
Theorem synchronize_with_layer_table (self other_layer : ThinkingLayer) (sync : SyncData) :
  let a := layer_type self in
  let b := layer_type other_layer in
  let self' := fst (synchronize_with_layer other_layer sync self) in
  snd (synchronize_with_layer other_layer sync self) = Returned (base_compatibility a b)
  /\ base_compatibility a b
     = match known_good_pair a b with Some c => c | None => 0.5%Q end
  /\ known_good_pair a b = known_good_pair b a
  /\ (0 <= base_compatibility a b)%Q
  /\ (base_compatibility a b <= 1)%Q
  /\ state self' = (if Qlt_le_dec 0.7 (base_compatibility a b) then SYNCHRONIZED else state self)
  /\ (state self' = SYNCHRONIZED <-> (0.7 < base_compatibility a b)%Q \/ state self = SYNCHRONIZED).
Proof.
  intros a b self'. subst self'. rewrite synchronize_with_layer_run. cbn [fst snd].
  fold a b. split; [reflexivity|]. split; [reflexivity|].
  split; [destruct a, b; reflexivity|].
  destruct (base_compatibility_range a b) as [Hlo Hhi].
  split; [exact Hlo|]. split; [exact Hhi|].
  unfold synchronized_layer. fold a b.
  destruct (Qlt_le_dec 0.7 (base_compatibility a b)) as [Hgt|Hle]; cbn [state set_state].
  - split; [reflexivity|]. split; auto.
  - split; [reflexivity|]. split; [auto|].
    intros [Hgt|Hst]; [|exact Hst].
    exfalso. apply (Qlt_not_le _ _ Hgt Hle).
Qed.

(** C3. The score does not depend on which of the two layers is the
    caller, and after any sequence of rounds on a freshly built core the
    matrix holds the same value in the cells [(a,b)] and [(b,a)]. *)
Theorem synchronization_symmetric :
  (forall (layer_a layer_b : ThinkingLayer) (sync sync' : SyncData),
      snd (synchronize_with_layer layer_b sync layer_a)
      = snd (synchronize_with_layer layer_a sync' layer_b))
  /\ (forall core_name (make_manager : Result Mgr) rounds a b,
         let core := run_rounds rounds (new_ThinkingCore core_name make_manager) in
         cell (synchronization_matrix core) a b = cell (synchronization_matrix core) b a).
Proof.
  split.
  - intros layer_a layer_b sync sync'. rewrite !synchronize_with_layer_run. cbn [snd].
    f_equal. apply base_compatibility_sym.
  - intros core_name make_manager rounds a b core. subst core.
    assert (Hinv : forall rounds s, matrix_invariant s -> matrix_invariant (run_rounds rounds s)).
    { clear. intros rounds. induction rounds as [|[input_data target] rounds IH]; intros s Hs.
      - exact Hs.
      - cbn [run_rounds fold_left fst snd]. apply IH.
        destruct (comprehensive_processing_spec s input_data target Hs)
          as (s' & r & Hrun & [Hs' _] & _).
        rewrite Hrun. exact Hs'. }
    apply (Hinv rounds _ (new_core_invariant core_name make_manager)).
Qed.

(** C4. With fewer than two selected names the score is [1.0]. With [N >= 2]
    selected names that are distinct and registered, [sync_count] ends at
    [N(N-1)/2]: one [synchronize_with_layer] call for each element of
    [index_pairs], in which every unordered pair occurs once; [total_sync]
    is the sum of their scores, and the returned score is their quotient. *)
Theorem synchronize_layers_mean
  (self : ThinkingCore Mgr) (active_layers : list string) (results : dict LayerResult)
  (Hinv : matrix_invariant self) (Hrows : rows_present self)
  (Hreg : Forall (fun n => dict_mem (layers self) n = true) active_layers)
  (Hdistinct : List.NoDup active_layers) :
  let n := length active_layers in
  let pairs := index_pairs active_layers in
  let total := fold_left Qplus (map (pair_score self) pairs) 0%Q in
  (n < 2 -> _synchronize_layers active_layers results self = (self, Returned 1%Q))
  /\ (2 <= n ->
      exists self',
        sync_outer active_layers results (0%Q, 0) self = (self', Returned (total, n * (n - 1) / 2))
        /\ _synchronize_layers active_layers results self
           = (self', Returned (total / inject_Z (Z.of_nat (n * (n - 1) / 2)))%Q)
        /\ length pairs = n * (n - 1) / 2
        /\ (forall a b, In a active_layers -> In b active_layers -> a <> b ->
              count_occ pair_eq_dec pairs (a, b) + count_occ pair_eq_dec pairs (b, a) = 1)).
Proof.
  intros n pairs total. split.
  - intros Hn. unfold _synchronize_layers.
    destruct (Nat.ltb_spec (length active_layers) 2) as [_|Hge]; [reflexivity|]. fold n in Hge. lia.
  - intros Hn.
    pose proof (sync_outer_spec self results active_layers (0%Q, 0)
                  self (conj Hinv (framed_refl self))) as Hloop.
    destruct (sync_outer active_layers results (0%Q, 0) self) as [self' [acc|e]] eqn:Hrun.
    2:{ destruct Hloop as [_ Hno]. contradiction. }
    destruct Hloop as [_ ->].
    rewrite (tally_registered self _ (registered_index_pairs self _ Hreg)).
    cbn [fst snd Nat.add]. fold pairs total.
    assert (Hlen : length pairs = n * (n - 1) / 2) by apply index_pairs_length.
    exists self'. rewrite Hlen. split; [reflexivity|]. split; [|split; [reflexivity|]].
    + unfold _synchronize_layers.
      destruct (Nat.ltb_spec (length active_layers) 2) as [Hlt|_]; [fold n in Hlt; lia|].
      unfold bind. rewrite Hrun.
      rewrite (tally_registered self _ (registered_index_pairs self _ Hreg)).
      cbn [fst snd Nat.add ret]. fold pairs total. rewrite Hlen.
      assert (Hpos : 0 < n * (n - 1) / 2).
      { rewrite <- Hlen. unfold pairs.
        destruct active_layers as [|x [|y rest]]; cbn in Hn |- *; lia. }
      destruct (Nat.ltb_spec 0 (n * (n - 1) / 2)) as [_|Hz]; [reflexivity | lia].
    + intros a b. apply index_pairs_once. exact Hdistinct.
Qed.

End WithManager.

End SynchronizationSpec.

(** ** Rounds: claims C1, C2, C6 *)

Module RoundSpec.

Import Hoare Layer Core SpecWords LayerNotions CoreNotions PyFacts LayerFacts CoreFacts CoreLoops RoundFacts.
Import InitFacts PairFacts.

Section WithManager.

Context `{LayerLogic} {Mgr : Type} `{!DatabaseManager Mgr LearningData}.

Implicit Types (self s : ThinkingCore Mgr).

Lemma process_input_returns input_data (layer : ThinkingLayer) :
  exists layer' r, process_input input_data layer = (layer', Returned r).
Proof.
  rewrite process_input_run. destruct (theories _ _) as [[[z p] f]|e]; eauto.
Qed.

Lemma comprehensive_processing_returns self input_data target_layers :
  exists self' r,
    comprehensive_processing input_data target_layers self = (self', Returned r)
    /\ ((exists results sync_level,
           r = FinalResult (resolve_layers self target_layers) results sync_level
                 (_integrate_layer_results results))
        \/ (exists e, r = ErrorResult (resolve_layers self target_layers) e)).
Proof.
  unfold comprehensive_processing. unfold bind at 1. cbn [get].
  unfold try_except.
  match goal with
  | |- context [match ?body self with _ => _ end] => destruct (body self) as [s' [r|e]] eqn:Hbody
  end.
  - exists s', r. split; [reflexivity|]. left.
    revert Hbody. unfold bind at 1.
    destruct (process_layers _ _ _ self) as [s1 [results|e1]]; [|discriminate].
    unfold bind at 1.
    destruct (_synchronize_layers _ _ s1) as [s2 [sync_level|e2]]; [|discriminate].
    unfold bind, modify, ret. intros [= _ <-]. eauto.
  - unfold bind, modify, ret. eexists _, _. split; [reflexivity|]. right. eauto.
Qed.

Lemma dict_values_set {V} (d : dict V) k x v :
  In v (dict_values (dict_set d k x)) -> v = x \/ In v (dict_values d).
Proof.
  unfold dict_values. induction d as [|[k0 v0] d IH]; cbn.
  - intros [<-|[]]. auto.
  - destruct (String.eqb k0 k); cbn.
    + intros [<-|Hin]; auto.
    + intros [<-|Hin]; [auto|]. destruct (IH Hin); auto.
Qed.

Lemma expected_results_values s input_data active_layers :
  forall results v,
    In v (dict_values (expected_results s input_data active_layers results)) ->
    In v (dict_values results)
    \/ exists layer_name layer,
         In layer_name active_layers
         /\ dict_get (layers s) layer_name = Some layer
         /\ v = layer_outcome (layer_type layer) input_data.
Proof.
  induction active_layers as [|layer_name rest IH]; intros results v Hin.
  - left. exact Hin.
  - cbn [expected_results fold_left] in Hin. fold (expected_results s input_data rest) in Hin.
    destruct (dict_get (layers s) layer_name) as [layer|] eqn:E.
    + destruct (IH _ _ Hin) as [Hold|(n & l & Hn & Hl & ->)].
      * destruct (dict_values_set _ _ _ _ Hold) as [->|Hold']; [|left; exact Hold'].
        right. exists layer_name, layer. split; [left; reflexivity|]. auto.
      * right. exists n, l. split; [right; exact Hn|]. auto.
    + destruct (IH _ _ Hin) as [Hold|(n & l & Hn & Hl & ->)]; [left; exact Hold|].
      right. exists n, l. split; [right; exact Hn|]. auto.
Qed.

(** C1, as the code has it. A round never raises: it returns either the
    complete record or the error record of its [except] branch. On a core
    whose matrix has its rows, and with a persistence step that does not
    raise, it returns the complete record, in which every selected
    registered layer has its result; if each of these layers failed with a
    non-empty error text, the record counts no successful layer. *)
Theorem comprehensive_processing_record
  (self : ThinkingCore Mgr) (input_data : Input) (target_layers : option (list string)) :
  let active_layers := resolve_layers self target_layers in
  (exists self' r,
      comprehensive_processing input_data target_layers self = (self', Returned r)
      /\ ((exists results sync_level,
             r = FinalResult active_layers results sync_level (_integrate_layer_results results))
          \/ (exists e, r = ErrorResult active_layers e)))
  /\ (matrix_invariant self -> rows_present self -> store_total Mgr ->
      exists self',
        comprehensive_processing input_data target_layers self
        = (self', Returned (final_result self input_data active_layers)))
  /\ ((forall layer_name layer,
          In layer_name active_layers -> dict_get (layers self) layer_name = Some layer ->
          exists e, theories (layer_type layer) input_data = Raised e /\ e <> "") ->
      match final_result self input_data active_layers with
      | FinalResult _ _ _ integrated_analysis => successful_layers integrated_analysis = 0
      | ErrorResult _ _ => False
      end).
Proof.
  intros active_layers. split; [apply comprehensive_processing_returns|]. split.
  - apply comprehensive_processing_final.
  - intros Hfail. unfold final_result, _integrate_layer_results. cbn [successful_layers].
    apply length_zero_iff_nil.
    destruct (List.filter no_error _) as [|v l] eqn:Hf; [reflexivity|].
    assert (Hv : In v (List.filter no_error
                         (dict_values (expected_results self input_data active_layers []))))
      by (rewrite Hf; left; reflexivity).
    apply filter_In in Hv as [Hv Hne].
    destruct (expected_results_values _ _ _ _ _ Hv) as [[]|(n & l0 & Hn & Hl & ->)].
    destruct (Hfail n l0 Hn Hl) as (e & He & Hnonempty).
    unfold layer_outcome in Hne. rewrite He in Hne. cbn in Hne.
    destruct e; [contradiction | discriminate].
Qed.

(** C2. [process_input] never raises. When the theory applications of a
    layer raise, it returns the error record carrying the exception text
    and leaves the layer in state [ERROR]; a round over such a layer [x]
    and a layer [y] that succeeds returns both results. *)
Theorem process_input_isolates_failure
  (self : ThinkingCore Mgr) (x y : string) (layer_x layer_y : ThinkingLayer)
  (input_data : Input) (e : string) (z p f : Theory)
  (Hx : dict_get (layers self) x = Some layer_x)
  (Hy : dict_get (layers self) y = Some layer_y)
  (Hxy : x <> y)
  (Hfail : theories (layer_type layer_x) input_data = Raised e)
  (Hok : theories (layer_type layer_y) input_data = Returned (z, p, f)) :
  let error_x := ErrorRecord (value (layer_type layer_x)) e in
  let result_y :=
    SuccessResult (value (layer_type layer_y)) z p f
      (_specialized_processing (layer_type layer_y) input_data) in
  (forall layer input, exists layer' r, process_input input layer = (layer', Returned r))
  /\ (exists layer_x',
        process_input input_data layer_x = (layer_x', Returned error_x)
        /\ state layer_x' = ERROR)
  /\ (exists self' results,
        targeted_processing input_data [x; y] self
        = (self', Returned (TargetedResults [x; y] results))
        /\ dict_get results x = Some error_x
        /\ dict_get results y = Some result_y
        /\ state <$> dict_get (layers self') x = Some ERROR
        /\ state <$> dict_get (layers self') y = Some ACTIVE)
  /\ (matrix_invariant self -> rows_present self -> store_total Mgr ->
      exists self',
        comprehensive_processing input_data (Some [x; y]) self
        = (self',
           Returned (FinalResult [x; y] [(x, error_x); (y, result_y)]
                       (sync_value self [x; y])
                       (_integrate_layer_results [(x, error_x); (y, result_y)])))).
Proof.
  intros error_x result_y. split; [intros; apply process_input_returns|]. split; [|split].
  - rewrite process_input_run, Hfail. eexists. split; reflexivity.
  - assert (Hne : String.eqb x y = false) by (apply String.eqb_neq; exact Hxy).
    unfold targeted_processing. unfold bind at 1. cbn [get List.filter].
    unfold dict_mem. rewrite Hx, Hy. cbn [targeted_loop].
    unfold bind at 1. unfold bind at 1. unfold on_layer at 1. rewrite Hx.
    rewrite process_input_run, Hfail.
    unfold bind at 1. unfold on_layer. unfold set_layers at 1. cbn [layers].
    rewrite dict_get_set_ne by exact Hxy. rewrite Hy.
    rewrite process_input_run, Hok. cbn [ret dict_set].
    rewrite Hne. cbn [dict_set].
    eexists _, _. split; [reflexivity|]. cbn [dict_get layers set_layers].
    rewrite String.eqb_refl, Hne, String.eqb_refl.
    split; [reflexivity|]. split; [reflexivity|].
    rewrite dict_get_set_eq.
    rewrite dict_get_set_ne by congruence. rewrite dict_get_set_eq.
    split; reflexivity.
  - intros Hinv Hrows Htot.
    destruct (comprehensive_processing_final self input_data (Some [x; y]) Hinv Hrows Htot)
      as [self' Hrun].
    exists self'. rewrite Hrun. do 2 f_equal.
    assert (Hres : expected_results self input_data [x; y] []
                   = [(x, error_x); (y, result_y)]).
    { unfold expected_results. cbn [fold_left]. rewrite Hx, Hy.
      unfold layer_outcome. rewrite Hfail, Hok. cbn [dict_set].
      assert (String.eqb x y = false) as -> by (apply String.eqb_neq; exact Hxy).
      reflexivity. }
    cbn [resolve_layers]. unfold final_result. rewrite Hres. reflexivity.
Qed.

(** The part of C6 that the code has: the average is taken over the
    confidences of the layers that reported a result. *)
Lemma integrate_average (results : dict LayerResult) :
  (forall r, In r (dict_values results) ->
             match get_error r with Some e => e <> "" | None => True end) ->
  let successes := flat_map (fun r => match get_specialized r with
                                      | Some sp => [sp_confidence sp]
                                      | None => []
                                      end) (dict_values results) in
  successful_layers (_integrate_layer_results results) = length successes
  /\ average_confidence (_integrate_layer_results results)
     = match successes with
       | [] => 0%Q
       | _ :: _ => (py_sum successes / inject_Z (Z.of_nat (length successes)))%Q
       end.
Proof.
  intros Htexts successes. subst successes.
  unfold _integrate_layer_results, collect_confidences. cbn [successful_layers average_confidence].
  induction (dict_values results) as [|r rs IH]; [split; reflexivity|].
  assert (Hrs : forall r0, In r0 rs ->
                  match get_error r0 with Some e => e <> "" | None => True end)
    by (intros r0 Hr0; apply Htexts; right; exact Hr0).
  specialize (Htexts r (or_introl eq_refl)).
  destruct (IH Hrs) as [IHn IHa]. clear IH.
  assert (Heq : flat_map
            (fun result => if no_error result
                           then match get_specialized result with
                                | Some sp => [sp_confidence sp]
                                | None => []
                                end
                           else []) rs
          = flat_map (fun r => match get_specialized r with
                               | Some sp => [sp_confidence sp]
                               | None => []
                               end) rs).
  { clear -Hrs. induction rs as [|r0 rs IH]; [reflexivity|]. cbn [flat_map].
    rewrite IH by (intros; apply Hrs; right; assumption).
    specialize (Hrs r0 (or_introl eq_refl)).
    destruct r0 as [t z p f sp|t e]; cbn in *; [reflexivity|].
    destruct e; [contradiction | reflexivity]. }
  cbn [flat_map List.filter]. rewrite Heq.
  destruct r as [t z p f sp|t e]; cbn in *.
  - split; [f_equal; exact IHn | reflexivity].
  - destruct e; [contradiction|]. cbn. split; [exact IHn|reflexivity].
Qed.

(** The example of C6: confidences [0.8] and [0.6] and one layer that
    failed with a message. *)
Lemma integrate_example (z p f : Theory) (payload : Payload) :
  let ok (name : string) c :=
    (name, SuccessResult name z p f
             {| sp_type := name; sp_confidence := c; sp_payload := payload |}) in
  let report := _integrate_layer_results
                  [ok "mathematical" 0.8%Q; ok "logical" 0.6%Q;
                   ("physical", ErrorRecord "physical" "failure")] in
  (average_confidence report == 0.7)%Q /\ successful_layers report = 2.
Proof. cbn. split; reflexivity. Qed.

(** C6 fails on a layer whose exception has an empty text: [str(e)] is
    [''], [not result.get('error')] holds, and the errored layer is
    counted as successful. *)
Theorem integrate_counts_empty_error_text (layer_name : string) :
  let results := [(layer_name, ErrorRecord layer_name "")] in
  successful_layers (_integrate_layer_results results) = 1
  /\ average_confidence (_integrate_layer_results results) = 0%Q
  /\ get_error (ErrorRecord layer_name "") = Some "".
Proof. cbn. repeat split; reflexivity. Qed.

(** How such a record arises: an exception whose text is empty. *)
Lemma process_input_empty_error_text (layer : ThinkingLayer) (input_data : Input) :
  theories (layer_type layer) input_data = Raised "" ->
  snd (process_input input_data layer) = Returned (ErrorRecord (value (layer_type layer)) "").
Proof. intros Hraise. rewrite process_input_run, Hraise. reflexivity. Qed.

End WithManager.

End RoundSpec.

Module SqlFacts.

Import Sql.

Section Statements.

Context {Row : Type} (key : Row -> string).

Lemma filter_conflicts_same (l : list Row) k :
  List.filter (conflicts key k) (List.filter (fun old => negb (conflicts key k old)) l) = [].
Proof.
  induction l as [|r l IH]; [reflexivity|]. cbn [List.filter].
  destruct (conflicts key k r) eqn:E; cbn [negb List.filter]; [exact IH|].
  rewrite E. exact IH.
Qed.

Lemma filter_conflicts_other (l : list Row) k k' :
  k' <> k ->
  List.filter (conflicts key k) (List.filter (fun old => negb (conflicts key k' old)) l)
  = List.filter (conflicts key k) l.
Proof.
  intros Hk. induction l as [|r l IH]; [reflexivity|]. cbn [List.filter].
  destruct (conflicts key k' r) eqn:E'; cbn [negb List.filter].
  - unfold conflicts in E'. apply String.eqb_eq in E'.
    assert (conflicts key k r = false) as ->; [|exact IH].
    unfold conflicts. apply String.eqb_neq. congruence.
  - destruct (conflicts key k r); [f_equal|]; exact IH.
Qed.

Lemma select_insert_or_replace_same (mk : Z -> Row) (t : Table Row) k :
  key (mk (sequence t + 1)%Z) = k ->
  select_by_key key k (insert_or_replace key mk t) = [mk (sequence t + 1)%Z].
Proof.
  intros Hk. unfold select_by_key, insert_or_replace. cbv zeta. cbn [rows].
  rewrite List.filter_app, Hk, filter_conflicts_same. cbn [List.filter app].
  unfold conflicts. rewrite Hk, String.eqb_refl. reflexivity.
Qed.

Lemma select_insert_or_replace_other (mk : Z -> Row) (t : Table Row) k :
  key (mk (sequence t + 1)%Z) <> k ->
  select_by_key key k (insert_or_replace key mk t) = select_by_key key k t.
Proof.
  intros Hk. unfold select_by_key, insert_or_replace. cbv zeta. cbn [rows].
  rewrite List.filter_app, filter_conflicts_other by exact Hk. cbn [List.filter].
  unfold conflicts at 2. apply String.eqb_neq in Hk. rewrite Hk. apply app_nil_r.
Qed.

Lemma sequence_insert_or_replace (mk : Z -> Row) (t : Table Row) :
  sequence (insert_or_replace key mk t) = (sequence t + 1)%Z.
Proof. reflexivity. Qed.

End Statements.

Section OrderBy.

Context {Row : Type} (before : Row -> Row -> bool).

Hypothesis before_total : forall a b, before a b = false -> before b a = true.
Hypothesis before_trans : forall a b c, before a b = true -> before b c = true -> before a c = true.

Lemma insert_row_in x l z : In z (insert_row before x l) <-> z = x \/ In z l.
Proof.
  induction l as [|y l IH]; cbn [insert_row].
  - cbn. intuition.
  - destruct (before x y); cbn [In]; [intuition|]. rewrite IH. intuition.
Qed.

Lemma order_by_in l z : In z (order_by before l) <-> In z l.
Proof.
  induction l as [|x l IH]; cbn [order_by fold_right]; [reflexivity|].
  fold (order_by before l). rewrite insert_row_in, IH. cbn [In]. intuition.
Qed.

Lemma insert_row_sorted x l :
  StronglySorted (fun a b => before a b = true) l ->
  StronglySorted (fun a b => before a b = true) (insert_row before x l).
Proof.
  induction 1 as [|y l Hl IH Hy]; cbn [insert_row].
  - constructor; constructor.
  - destruct (before x y) eqn:E.
    + constructor; [constructor; assumption|].
      constructor; [exact E|].
      rewrite Forall_forall in Hy |- *. intros z Hz. eapply before_trans; eauto.
    + constructor; [exact IH|].
      rewrite Forall_forall in Hy |- *. intros z Hz.
      apply insert_row_in in Hz as [->|Hz]; [apply before_total, E | apply Hy, Hz].
Qed.

Lemma order_by_sorted l : StronglySorted (fun a b => before a b = true) (order_by before l).
Proof.
  induction l as [|x l IH]; cbn [order_by fold_right]; [constructor|].
  apply insert_row_sorted, IH.
Qed.

End OrderBy.

Lemma firstn_in {A} k (l : list A) z : In z (firstn k l) -> In z l.
Proof.
  revert k. induction l as [|x l IH]; intros [|k]; cbn [firstn In]; try tauto.
  intros [->|Hz]; [left; reflexivity | right; apply (IH k), Hz].
Qed.

Lemma firstn_sorted {A} (R : A -> A -> Prop) k l :
  StronglySorted R l -> StronglySorted R (firstn k l).
Proof.
  intros Hl. revert k. induction Hl as [|x l Hl IH Hx]; intros [|k]; cbn [firstn];
    try constructor.
  - apply IH.
  - rewrite Forall_forall in Hx |- *. intros z Hz. apply Hx.
    apply (firstn_in k), Hz.
Qed.

Lemma limit_prefix {A} n (l : list A) : exists k, limit n l = firstn k l.
Proof.
  unfold limit. destruct (n <? 0)%Z; [exists (length l); symmetry; apply firstn_all | eauto].
Qed.

Lemma py_slice_to_prefix {A} n (l : list A) : exists k, py_slice_to n l = firstn k l.
Proof. unfold py_slice_to. destruct (n <? 0)%Z; eauto. Qed.

Lemma py_slice_to_length {A} n (l : list A) :
  (0 <= n)%Z -> length (py_slice_to n l) <= Z.to_nat n.
Proof.
  intros Hn. unfold py_slice_to.
  destruct (Z.ltb_spec n 0) as [Hneg|_]; [lia|]. apply firstn_le_length.
Qed.

Lemma bind_integer_in {A} n (run : A) :
  sqlite_integer n = true -> bind_integer n run = Returned run.
Proof. intros Hn. unfold bind_integer. rewrite Hn. reflexivity. Qed.

Lemma bind_integer_out {A} n (run : A) :
  sqlite_integer n = false ->
  bind_integer n run = Raised "Python int too large to convert to SQLite INTEGER".
Proof. intros Hn. unfold bind_integer. rewrite Hn. reflexivity. Qed.

Lemma sqlite_integer_spec n : sqlite_integer n = true <-> (- 2 ^ 63 <= n < 2 ^ 63)%Z.
Proof. unfold sqlite_integer. rewrite andb_true_iff, Z.leb_le, Z.ltb_lt. reflexivity. Qed.

End SqlFacts.

(** ** Knowledge stores: claims C7, C8, C9, C10 *)

Module StoreSpec.

Import Sql Databases SqlFacts.

Lemma equation_before_spec a b :
  equation_before a b = true
  <-> (accuracy b < accuracy a)%Q
      \/ ((accuracy a == accuracy b)%Q /\ (eq_usage_count b <= eq_usage_count a)%Z).
Proof.
  unfold equation_before.
  destruct (accuracy a ?= accuracy b)%Q eqn:E.
  - apply Qeq_alt in E. rewrite Z.leb_le. split; [auto|].
    intros [Hlt|[_ Hle]]; [|exact Hle]. rewrite E in Hlt. exfalso. apply (Qlt_irrefl _ Hlt).
  - apply Qlt_alt in E. split; [discriminate|].
    intros [Hlt|[Heq _]]; exfalso.
    + apply (Qlt_irrefl (accuracy a)). eapply Qlt_trans; eauto.
    + rewrite Heq in E. apply (Qlt_irrefl _ E).
  - apply Qgt_alt in E. split; auto.
Qed.

Lemma equation_before_total a b : equation_before a b = false -> equation_before b a = true.
Proof.
  intros Hf. apply equation_before_spec.
  destruct (Qlt_le_dec (accuracy a) (accuracy b)) as [Hlt|Hle]; [left; exact Hlt|].
  apply Qle_lt_or_eq in Hle as [Hlt|Heq].
  - exfalso. assert (equation_before a b = true) by (apply equation_before_spec; auto). congruence.
  - right. split; [exact Heq|].
    destruct (Z.le_gt_cases (eq_usage_count a) (eq_usage_count b)) as [Hu|Hu]; [exact Hu|].
    exfalso. assert (equation_before a b = true).
    { apply equation_before_spec. right. split; [symmetry; exact Heq | lia]. }
    congruence.
Qed.

Lemma equation_before_trans a b c :
  equation_before a b = true -> equation_before b c = true -> equation_before a c = true.
Proof.
  rewrite !equation_before_spec.
  intros [H1|[E1 U1]] [H2|[E2 U2]].
  - left. eapply Qlt_trans; eauto.
  - left. rewrite <- E2. exact H1.
  - left. rewrite E1. exact H2.
  - right. split; [rewrite E1; exact E2 | lia].
Qed.

Lemma constant_before_total a b : constant_before a b = false -> constant_before b a = true.
Proof. unfold constant_before. rewrite Z.leb_gt, Z.leb_le. lia. Qed.

Lemma constant_before_trans a b c :
  constant_before a b = true -> constant_before b c = true -> constant_before a c = true.
Proof. unfold constant_before. rewrite !Z.leb_le. lia. Qed.

Section WithJson.

Context `{JsonCodec}.

(** C7. Two [store_pattern] calls with the same [pattern_id] leave one row
    for it, holding the type, payload, confidence and date of the second
    call; the rows of the other pattern ids are the ones of before. *)
Theorem store_pattern_upsert (db : BaseSpecializedDatabase) (pid : string)
  (type1 type2 : string) (payload1 payload2 : Json) (confidence1 confidence2 : Q)
  (now1 now2 : string) :
  let db2 :=
    store_pattern pid type2 payload2 confidence2 now2
      (store_pattern pid type1 payload1 confidence1 now1 db) in
  select_by_key pattern_id pid (tbl_discovered_patterns db2)
  = [ {| dp_id := sequence (tbl_discovered_patterns db) + 2;
         pattern_id := pid;
         pattern_type := type2;
         pattern_data := json_dumps payload2;
         confidence := confidence2;
         discovery_date := now2;
         usage_count := 0 |} ]
  /\ (forall other, other <> pid ->
        select_by_key pattern_id other (tbl_discovered_patterns db2)
        = select_by_key pattern_id other (tbl_discovered_patterns db))
  /\ tbl_learning_sessions db2 = tbl_learning_sessions db
  /\ tbl_error_corrections db2 = tbl_error_corrections db.
Proof.
  intros db2. subst db2. unfold store_pattern. cbn [tbl_discovered_patterns
    tbl_learning_sessions tbl_error_corrections]. split; [|split; [|split; reflexivity]].
  - rewrite select_insert_or_replace_same by reflexivity.
    rewrite sequence_insert_or_replace. do 2 f_equal. lia.
  - intros other Hother.
    rewrite !select_insert_or_replace_other by (cbn; congruence). reflexivity.
Qed.

(** C8, as the code has it. [log_learning_session] is an
    [INSERT OR REPLACE]: two calls with the same [session_id] leave one row
    for it, and that row holds the source, data type, outcome, metadata
    and time of the second call; every call adds one to the counter
    [learning_sessions]. *)
Theorem log_learning_session_replaces (db : BaseSpecializedDatabase) (sid : string)
  (source1 source2 : LearningSource) (data_type1 data_type2 : string)
  (success1 success2 : bool) (metadata1 metadata2 : option Json)
  (now1 updated1 now2 updated2 : string) :
  let db2 :=
    log_learning_session sid source2 data_type2 success2 metadata2 now2 updated2
      (log_learning_session sid source1 data_type1 success1 metadata1 now1 updated1 db) in
  select_by_key session_id sid (tbl_learning_sessions db2)
  = [ {| ls_id := sequence (tbl_learning_sessions db) + 2;
         session_id := sid;
         timestamp := now2;
         source := source_value source2;
         data_type := data_type2;
         success := success2;
         metadata := json_dumps (metadata_or_empty metadata2) |} ]
  /\ (forall other, other <> sid ->
        select_by_key session_id other (tbl_learning_sessions db2)
        = select_by_key session_id other (tbl_learning_sessions db))
  /\ learning_sessions db2 = S (S (learning_sessions db))
  /\ last_update db2 = Some updated2.
Proof.
  intros db2. subst db2. unfold log_learning_session. cbn [tbl_learning_sessions
    learning_sessions last_update]. split; [|split; [|split; reflexivity]].
  - rewrite select_insert_or_replace_same by reflexivity.
    rewrite sequence_insert_or_replace. do 2 f_equal. lia.
  - intros other Hother.
    rewrite !select_insert_or_replace_other by (cbn; congruence). reflexivity.
Qed.

End WithJson.

End StoreSpec.

Module ManagerSpec.

Import Sql Databases SqlFacts StoreSpec Manager StoreNotions.

Lemma sorted_weaken {A} (R R' : A -> A -> Prop) l :
  (forall a b, R a b -> R' a b) -> StronglySorted R l -> StronglySorted R' l.
Proof.
  intros HR. induction 1 as [|x l Hl IH Hx]; constructor; [exact IH|].
  rewrite Forall_forall in Hx |- *. auto.
Qed.

Lemma select_equations_spec query n db :
  exists k,
    select_equations query n db
    = firstn k (order_by equation_before
                  (List.filter (equation_matches query) (rows (equations db)))).
Proof. apply limit_prefix. Qed.

Lemma select_constants_spec query n db :
  exists k,
    select_constants query n db
    = firstn k (order_by constant_before
                  (List.filter (constant_matches query) (rows (mathematical_constants db)))).
Proof. apply limit_prefix. Qed.

(** What [MathematicalDatabase.retrieve_knowledge] returns. *)
Lemma retrieve_knowledge_mathematical query n (db : MathematicalDatabase) :
  sqlite_integer n = true ->
  exists eqs consts,
    Databases.retrieve_knowledge query n db
    = Returned (map equation_record eqs ++ map constant_record consts)%list
    /\ equations_ranked eqs
    /\ constants_ranked consts
    /\ (forall r, In r eqs -> In r (rows (equations db)) /\ equation_matches query r = true)
    /\ (forall r, In r consts ->
          In r (rows (mathematical_constants db)) /\ constant_matches query r = true).
Proof.
  intros Hn. unfold Databases.retrieve_knowledge. rewrite (bind_integer_in n _ Hn).
  destruct (py_slice_to_prefix n
              (map equation_record (select_equations query n db)
               ++ map constant_record (select_constants query n db))%list) as [k ->].
  rewrite firstn_app, !firstn_map, List.length_map.
  destruct (select_equations_spec query n db) as [ke ->].
  destruct (select_constants_spec query n db) as [kc ->].
  eexists _, _. split; [reflexivity|].
  split; [|split; [|split]].
  - apply firstn_sorted, firstn_sorted.
    eapply sorted_weaken; [|apply (order_by_sorted equation_before equation_before_total
                                     equation_before_trans)].
    intros a b. apply equation_before_spec.
  - apply firstn_sorted, firstn_sorted.
    eapply sorted_weaken; [|apply (order_by_sorted constant_before constant_before_total
                                     constant_before_trans)].
    intros a b. unfold constant_before. apply Z.leb_le.
  - intros r Hr. apply firstn_in, firstn_in, order_by_in, filter_In in Hr. exact Hr.
  - intros r Hr. apply firstn_in, firstn_in, order_by_in, filter_In in Hr. exact Hr.
Qed.

Lemma retrieve_knowledge_no_match query n (db : MathematicalDatabase) :
  sqlite_integer n = true ->
  (forall r, In r (rows (equations db)) -> equation_matches query r = false) ->
  (forall r, In r (rows (mathematical_constants db)) -> constant_matches query r = false) ->
  Databases.retrieve_knowledge query n db = Returned [].
Proof.
  intros Hn He Hc.
  destruct (retrieve_knowledge_mathematical query n db Hn)
    as (eqs & consts & -> & _ & _ & Heqs & Hconsts).
  destruct eqs as [|r eqs].
  - destruct consts as [|r consts]; [reflexivity|].
    destruct (Hconsts r (or_introl eq_refl)) as [Hin Hm]. rewrite (Hc r Hin) in Hm. discriminate.
  - destruct (Heqs r (or_introl eq_refl)) as [Hin Hm]. rewrite (He r Hin) in Hm. discriminate.
Qed.

Section WithClasses.

Context `{DatabaseClasses}.

(** C9. A layer without a database yields the empty list, whatever the
    limit. On the mathematical store a limit that fits the 64-bit INTEGER
    of SQLite yields a list, never an exception: the matching equations by
    descending accuracy, then usage count, followed by the matching
    constants by descending precision; the list is empty when no row
    matches and has at most [n] entries for a limit [n >= 0]. A limit
    that does not fit makes the query raise [OverflowError], also when
    no row matches. The outcome depends on nothing but the store, the
    query and the limit. *)
Theorem retrieve_knowledge_from_layer_spec
  (self : CompleteSpecializedDatabaseManager) (layer_type : ThinkingLayerType)
  (query : string) (n : Z) :
  (databases self !! layer_type = None ->
   retrieve_knowledge_from_layer layer_type query n self = Returned [])
  /\ (forall db, databases self !! layer_type = Some (Mathematical db) ->
        ((- 2 ^ 63 <= n < 2 ^ 63)%Z ->
         (exists eqs consts,
             retrieve_knowledge_from_layer layer_type query n self
             = Returned (map equation_record eqs ++ map constant_record consts)%list
             /\ equations_ranked eqs
             /\ constants_ranked consts
             /\ (forall r, In r eqs ->
                   In r (rows (equations db)) /\ equation_matches query r = true)
             /\ (forall r, In r consts ->
                   In r (rows (mathematical_constants db)) /\ constant_matches query r = true))
         /\ ((forall r, In r (rows (equations db)) -> equation_matches query r = false) ->
             (forall r, In r (rows (mathematical_constants db)) ->
                constant_matches query r = false) ->
             retrieve_knowledge_from_layer layer_type query n self = Returned [])
         /\ ((0 <= n)%Z ->
             exists results,
               retrieve_knowledge_from_layer layer_type query n self = Returned results
               /\ length results <= Z.to_nat n))
        /\ (~ (- 2 ^ 63 <= n < 2 ^ 63)%Z ->
            retrieve_knowledge_from_layer layer_type query n self
            = Raised "Python int too large to convert to SQLite INTEGER"))
  /\ (forall other : CompleteSpecializedDatabaseManager,
        databases other !! layer_type = databases self !! layer_type ->
        retrieve_knowledge_from_layer layer_type query n other
        = retrieve_knowledge_from_layer layer_type query n self).
Proof.
  unfold retrieve_knowledge_from_layer. split; [|split].
  - intros ->. reflexivity.
  - intros db ->. cbn [dispatch_retrieve_knowledge]. split.
    + intros Hrange. apply sqlite_integer_spec in Hrange. split; [|split].
      * apply retrieve_knowledge_mathematical, Hrange.
      * apply retrieve_knowledge_no_match, Hrange.
      * intros Hn. unfold Databases.retrieve_knowledge. rewrite (bind_integer_in n _ Hrange).
        eexists. split; [reflexivity|]. apply py_slice_to_length, Hn.
    + intros Hrange. apply bind_integer_out.
      destruct (sqlite_integer n) eqn:E; [|reflexivity].
      apply sqlite_integer_spec in E. contradiction.
  - intros other ->. reflexivity.
Qed.

Lemma store_learning_for_layer_dom layer_type data source metadata r self :
  dom (databases (store_learning_for_layer layer_type data source metadata r self))
  = dom (databases self).
Proof.
  unfold store_learning_for_layer.
  destruct (databases self !! layer_type) as [db|] eqn:E; [|reflexivity].
  cbn [databases]. rewrite dom_insert_L.
  apply subseteq_union_1_L, singleton_subseteq_l, elem_of_dom. eauto.
Qed.

Lemma run_stores_dom calls self : dom (databases (run_stores calls self)) = dom (databases self).
Proof.
  revert self. induction calls as [|[[[[lt d] src] md] r] calls IH]; intros self; [reflexivity|].
  change (run_stores ((lt, d, src, md, r) :: calls) self)
    with (run_stores calls (store_learning_for_layer lt d src md r self)).
  rewrite IH. apply store_learning_for_layer_dom.
Qed.

(** C10. The manager registers a database for the five types
    [MATHEMATICAL], [LINGUISTIC], [LOGICAL], [INTERPRETIVE] and [PHYSICAL]
    and for no other, whatever store calls it has served; for [SYMBOLIC],
    [VISUAL] and [SEMANTIC], [store_learning_for_layer] returns the manager
    as it was and [retrieve_knowledge_from_layer] returns the empty list. *)
Theorem manager_registers_five_layers (math : MathematicalDatabase) (calls : list StoreCall)
  (data : Data) (source : LearningSource) (metadata : option Metadata) (r : Readings)
  (query : string) (n : Z) :
  let self := run_stores calls (new_CompleteSpecializedDatabaseManager math) in
  dom (databases self)
  = ({[ MATHEMATICAL; LINGUISTIC; LOGICAL; INTERPRETIVE; PHYSICAL ]} : gset ThinkingLayerType)
  /\ Forall
       (fun layer_type =>
          databases self !! layer_type = None
          /\ store_learning_for_layer layer_type data source metadata r self = self
          /\ retrieve_knowledge_from_layer layer_type query n self = Returned [])
       [SYMBOLIC; VISUAL; SEMANTIC].
Proof.
  intros self.
  assert (Hdom : dom (databases self)
                 = ({[ MATHEMATICAL; LINGUISTIC; LOGICAL; INTERPRETIVE; PHYSICAL ]}
                    : gset ThinkingLayerType)).
  { subst self. rewrite run_stores_dom.
    unfold new_CompleteSpecializedDatabaseManager, _initialize_all_databases.
    cbn [databases]. rewrite !dom_insert_L, dom_empty_L.
    apply set_eq. intros x. rewrite !elem_of_union, !elem_of_singleton, elem_of_empty. tauto. }
  split; [exact Hdom|].
  assert (Habsent : forall layer_type,
            layer_type ∉ ({[ MATHEMATICAL; LINGUISTIC; LOGICAL; INTERPRETIVE; PHYSICAL ]}
                          : gset ThinkingLayerType) ->
            databases self !! layer_type = None
            /\ store_learning_for_layer layer_type data source metadata r self = self
            /\ retrieve_knowledge_from_layer layer_type query n self = Returned []).
  { intros layer_type Hnot. rewrite <- Hdom in Hnot. apply not_elem_of_dom in Hnot.
    unfold store_learning_for_layer, retrieve_knowledge_from_layer. rewrite Hnot. auto. }
  repeat constructor; apply Habsent;
    rewrite !elem_of_union, !elem_of_singleton; intuition discriminate.
Qed.

End WithClasses.

End ManagerSpec.

(** ** Layers and core over many calls: properties X1 to X9 *)

Module LayerRunFacts.

Import Layer LayerNotions RunNotions LayerFacts.

Lemma inject_nat_pos n : ~ (inject_Z (Z.of_nat (S n)) == 0)%Q.
Proof. unfold Qeq. cbn. lia. Qed.

Lemma scaled_rate_bounds (rate : Q) (n k : nat) :
  (rate * inject_Z (Z.of_nat (S n)) == inject_Z (Z.of_nat k))%Q -> k <= S n ->
  (0 <= rate)%Q /\ (rate <= 1)%Q.
Proof.
  intros Hrate Hk.
  assert (Hr : (rate == inject_Z (Z.of_nat k) / inject_Z (Z.of_nat (S n)))%Q).
  { rewrite <- Hrate. field. apply inject_nat_pos. }
  assert (Hpos : (0 < inject_Z (Z.of_nat (S n)))%Q) by (unfold Qlt; cbn; lia).
  rewrite Hr. split.
  - apply Qle_shift_div_l; [exact Hpos|]. rewrite Qmult_0_l. unfold Qle. cbn. lia.
  - apply Qle_shift_div_r; [exact Hpos|]. rewrite Qmult_1_l. unfold Qle. cbn. lia.
Qed.

Section WithLogic.

Context `{LayerLogic}.

Lemma process_input_step input_data (layer : ThinkingLayer) :
  fst (process_input input_data layer)
  = _update_performance_metrics (succeeds (layer_type layer) input_data)
      (set_state (if succeeds (layer_type layer) input_data then ACTIVE else ERROR)
         (set_state PROCESSING layer)).
Proof.
  rewrite process_input_run. unfold succeeds.
  destruct (theories _ _) as [[[z p] f]|e]; reflexivity.
Qed.

Lemma update_metrics_rate success (layer : ThinkingLayer) (k : nat) :
  let n := total_processed (performance_metrics layer) in
  (success_rate (performance_metrics layer) * inject_Z (Z.of_nat n) == inject_Z (Z.of_nat k))%Q ->
  let layer' := _update_performance_metrics success layer in
  total_processed (performance_metrics layer') = S n
  /\ (success_rate (performance_metrics layer') * inject_Z (Z.of_nat (S n))
      == inject_Z (Z.of_nat (if success then S k else k)))%Q.
Proof.
  intros n Hrate layer'. subst layer'. unfold _update_performance_metrics.
  cbn [performance_metrics set_performance_metrics total_processed success_rate].
  fold n. split; [reflexivity|].
  replace (S n - 1) with n by lia.
  pose proof (inject_nat_pos n) as Hn.
  assert (Hk : (inject_Z (Z.of_nat (S k)) == inject_Z (Z.of_nat k) + 1)%Q).
  { rewrite Nat2Z.inj_succ, <- Z.add_1_r, inject_Z_plus. reflexivity. }
  destruct success.
  - rewrite Hrate, Hk. field. exact Hn.
  - rewrite Hrate. field. exact Hn.
Qed.

Lemma run_inputs_cons input_data inputs (layer : ThinkingLayer) :
  run_inputs (input_data :: inputs) layer
  = run_inputs inputs (fst (process_input input_data layer)).
Proof. reflexivity. Qed.

Lemma run_inputs_app inputs1 inputs2 (layer : ThinkingLayer) :
  run_inputs (inputs1 ++ inputs2) layer = run_inputs inputs2 (run_inputs inputs1 layer).
Proof. unfold run_inputs. apply fold_left_app. Qed.

Lemma run_inputs_metrics inputs :
  forall (layer : ThinkingLayer) (k : nat),
    (success_rate (performance_metrics layer)
     * inject_Z (Z.of_nat (total_processed (performance_metrics layer)))
     == inject_Z (Z.of_nat k))%Q ->
    let layer' := run_inputs inputs layer in
    layer_type layer' = layer_type layer
    /\ total_processed (performance_metrics layer')
       = total_processed (performance_metrics layer) + length inputs
    /\ (success_rate (performance_metrics layer')
        * inject_Z (Z.of_nat (total_processed (performance_metrics layer')))
        == inject_Z (Z.of_nat (k + length (List.filter (succeeds (layer_type layer)) inputs))))%Q.
Proof.
  induction inputs as [|input_data inputs IH]; intros layer k Hrate layer'.
  - subst layer'. cbn. rewrite !Nat.add_0_r. auto.
  - subst layer'. rewrite run_inputs_cons, process_input_step.
    set (ok := succeeds (layer_type layer) input_data).
    set (l1 := set_state (if ok then ACTIVE else ERROR) (set_state PROCESSING layer)).
    destruct (update_metrics_rate ok l1 k Hrate) as [Htot Hr].
    assert (Hty : layer_type (_update_performance_metrics ok l1) = layer_type layer) by reflexivity.
    rewrite <- Htot in Hr.
    destruct (IH (_update_performance_metrics ok l1) (if ok then S k else k) Hr)
      as (Hty' & Htot' & Hr').
    rewrite Hty in Hty', Hr'. split; [exact Hty'|]. split.
    + rewrite Htot', Htot. cbn [length l1 set_state performance_metrics]. lia.
    + rewrite Hr'. cbn [List.filter]. fold ok.
      destruct ok; cbn [length]; f_equiv; f_equal; lia.
Qed.

End WithLogic.

End LayerRunFacts.

Module LayerRunSpec.

Import Layer LayerNotions RunNotions LayerFacts LayerRunFacts.

Section WithLogic.

Context `{LayerLogic}.

(** X1. After a new layer has processed a list of inputs, [total_processed]
    is the number of inputs and [success_rate] is the share of the inputs
    whose theory applications went through, a number between 0 and 1. The
    layer is [INACTIVE] when it has processed nothing; otherwise its state
    shows the last input alone: [ACTIVE] when that one went through,
    [ERROR] when it raised. *)
Theorem success_rate_counts_successes (t : ThinkingLayerType) (inputs : list Input) :
  let layer := run_inputs inputs (new_ThinkingLayer t) in
  let metrics := performance_metrics layer in
  let successes := length (List.filter (succeeds t) inputs) in
  total_processed metrics = length inputs
  /\ (success_rate metrics * inject_Z (Z.of_nat (length inputs))
      == inject_Z (Z.of_nat successes))%Q
  /\ (0 <= success_rate metrics)%Q
  /\ (success_rate metrics <= 1)%Q
  /\ state layer
     = match rev inputs with
       | [] => INACTIVE
       | last_input :: _ => if succeeds t last_input then ACTIVE else ERROR
       end.
Proof.
  intros layer metrics successes.
  assert (H0 : (success_rate (performance_metrics (new_ThinkingLayer t))
                * inject_Z (Z.of_nat (total_processed (performance_metrics (new_ThinkingLayer t))))
                == inject_Z (Z.of_nat 0))%Q) by reflexivity.
  destruct (run_inputs_metrics inputs (new_ThinkingLayer t) 0 H0) as (Hty & Htot & Hrate).
  fold layer in Hty, Htot, Hrate. fold metrics in Htot, Hrate.
  cbn [new_ThinkingLayer performance_metrics total_processed layer_type Nat.add] in Htot, Hrate.
  fold successes in Hrate. rewrite Htot in Hrate.
  split; [exact Htot|]. split; [exact Hrate|].
  assert (Hle : successes <= length inputs) by apply List.filter_length_le.
  assert (Hbounds : (0 <= success_rate metrics)%Q /\ (success_rate metrics <= 1)%Q).
  { destruct inputs as [|i inputs'] eqn:E.
    - subst layer metrics. cbn. split; unfold Qle; cbn; lia.
    - apply (scaled_rate_bounds _ (length inputs') successes); [exact Hrate | exact Hle]. }
  split; [apply Hbounds|]. split; [apply Hbounds|].
  subst layer. destruct (rev inputs) as [|last_input front] eqn:E.
  - apply (f_equal (@rev _)) in E. rewrite rev_involutive in E. subst inputs. reflexivity.
  - apply (f_equal (@rev _)) in E. rewrite rev_involutive in E. cbn [rev] in E. subst inputs.
    rewrite run_inputs_app, run_inputs_cons, process_input_step.
    destruct (run_inputs_metrics (rev front) (new_ThinkingLayer t) 0 H0) as (Hty' & _).
    rewrite Hty'. cbn [new_ThinkingLayer layer_type].
    destruct (succeeds t last_input); reflexivity.
Qed.

End WithLogic.

End LayerRunSpec.

Module FrameFacts.

Import Hoare Layer Core SpecWords LayerNotions CoreNotions RunNotions.
Import PyFacts LayerFacts CoreFacts CoreLoops RoundFacts.

Section Frames.

Context `{LayerLogic} {Mgr : Type} `{!DatabaseManager Mgr LearningData}.

Implicit Types (self s : ThinkingCore Mgr).

(** A property of the core that survives every assignment the loops of a
    round make. *)
Variable I : ThinkingCore Mgr -> Prop.
Hypothesis I_layers : forall l s, I s -> I (set_layers l s).
Hypothesis I_matrix : forall m s, I s -> I (set_synchronization_matrix m s).
Hypothesis I_manager :
  forall mgr mgr' s, I s -> database_manager s = Some mgr -> I (set_database_manager (Some mgr') s).

Lemma on_layer_keeps {A} k (m : M ThinkingLayer A) s : I s -> I (fst (on_layer k m s)).
Proof.
  intros Hs. unfold on_layer. destruct (dict_get (layers s) k) as [layer|]; [|exact Hs].
  destruct (m layer) as [layer' r]. cbn. apply I_layers, Hs.
Qed.

Lemma on_layer_manager {A} k (m : M ThinkingLayer A) s :
  database_manager (fst (on_layer k m s)) = database_manager s.
Proof.
  unfold on_layer. destruct (dict_get (layers s) k) as [layer|]; [|reflexivity].
  destruct (m layer) as [layer' r]. reflexivity.
Qed.

Lemma matrix_set_keeps row col v s : I s -> I (fst (matrix_set row col v s)).
Proof.
  intros Hs. unfold matrix_set. destruct (synchronization_matrix s !! row); [|exact Hs].
  cbn. apply I_matrix, Hs.
Qed.

Lemma process_layers_keeps input_data active_layers :
  forall results s, I s -> I (fst (process_layers input_data active_layers results s)).
Proof.
  induction active_layers as [|layer_name rest IH]; intros results s Hs; [exact Hs|].
  cbn [process_layers]. unfold bind at 1. cbn [get].
  destruct (dict_mem (layers s) layer_name); [|apply IH, Hs].
  unfold bind at 1.
  pose proof (on_layer_keeps layer_name (process_input input_data) s Hs) as H1.
  pose proof (on_layer_manager layer_name (process_input input_data) s) as Hm.
  destruct (on_layer layer_name (process_input input_data) s) as [s1 [layer_result|e]];
    cbn [fst] in H1, Hm; [|exact H1].
  unfold bind at 1.
  destruct (database_manager s) as [mgr|] eqn:Em.
  - unfold on_manager. destruct (store_learning _ _ mgr) as [mgr' [[]|e]].
    + apply IH. eapply I_manager; eauto.
    + cbn. eapply I_manager; eauto.
  - cbn [ret]. apply IH, H1.
Qed.

Lemma sync_inner_keeps layer1_name results rest :
  forall acc s, I s -> I (fst (sync_inner layer1_name rest results acc s)).
Proof.
  induction rest as [|layer2_name rest IH]; intros acc s Hs; [exact Hs|].
  cbn [sync_inner]. unfold bind at 1. cbn [get].
  destruct (dict_get (layers s) layer1_name) as [layer1|]; [|apply IH, Hs].
  destruct (dict_get (layers s) layer2_name) as [layer2|]; [|apply IH, Hs].
  unfold bind at 1.
  pose proof (on_layer_keeps layer1_name
                (synchronize_with_layer layer2
                   {| result1 := dict_get results layer1_name;
                      result2 := dict_get results layer2_name |}) s Hs) as H1.
  destruct (on_layer layer1_name _ s) as [s1 [sync_level|e]]; cbn [fst] in H1; [|exact H1].
  unfold bind at 1.
  pose proof (matrix_set_keeps layer1_name layer2_name sync_level s1 H1) as H2.
  destruct (matrix_set layer1_name layer2_name sync_level s1) as [s2 [[]|e]];
    cbn [fst] in H2; [|exact H2].
  unfold bind at 1.
  pose proof (matrix_set_keeps layer2_name layer1_name sync_level s2 H2) as H3.
  destruct (matrix_set layer2_name layer1_name sync_level s2) as [s3 [[]|e]];
    cbn [fst] in H3; [|exact H3].
  apply IH, H3.
Qed.

Lemma sync_outer_keeps results active_layers :
  forall acc s, I s -> I (fst (sync_outer active_layers results acc s)).
Proof.
  induction active_layers as [|layer1_name rest IH]; intros acc s Hs; [exact Hs|].
  cbn [sync_outer]. unfold bind at 1.
  pose proof (sync_inner_keeps layer1_name results rest acc s Hs) as H1.
  destruct (sync_inner layer1_name rest results acc s) as [s1 [acc'|e]];
    cbn [fst] in H1; [|exact H1].
  apply IH, H1.
Qed.

Lemma synchronize_layers_keeps active_layers results s :
  I s -> I (fst (_synchronize_layers active_layers results s)).
Proof.
  intros Hs. unfold _synchronize_layers.
  destruct (length active_layers <? 2)%nat; [exact Hs|].
  unfold bind.
  pose proof (sync_outer_keeps results active_layers (0%Q, 0) s Hs) as H1.
  destruct (sync_outer active_layers results (0%Q, 0) s) as [s1 [acc|e]]; exact H1.
Qed.

(** A round: the loops, then one update of the statistics. *)
Lemma comprehensive_processing_keeps self input_data target_layers :
  I self ->
  exists s1 r,
    comprehensive_processing input_data target_layers self
    = (_update_core_statistics (success r) (round_level r) s1, Returned r)
    /\ I s1.
Proof.
  intros Hs. unfold comprehensive_processing. unfold bind at 1. cbn [get].
  unfold try_except. unfold bind at 1.
  pose proof (process_layers_keeps input_data (resolve_layers self target_layers) [] self Hs)
    as H1.
  destruct (process_layers input_data (resolve_layers self target_layers) [] self)
    as [s1 [results|e]]; cbn [fst] in H1.
  - unfold bind at 1.
    pose proof (synchronize_layers_keeps (resolve_layers self target_layers) results s1 H1)
      as H2.
    destruct (_synchronize_layers (resolve_layers self target_layers) results s1)
      as [s2 [sync_level|e]]; cbn [fst] in H2.
    + unfold bind, modify, ret. eexists s2, (FinalResult _ _ _ _). split; [reflexivity|exact H2].
    + unfold bind, modify, ret. eexists s2, (ErrorResult _ _). split; [reflexivity|exact H2].
  - unfold bind, modify, ret. eexists s1, (ErrorResult _ _). split; [reflexivity|exact H1].
Qed.

End Frames.

End FrameFacts.

Module StatisticsFacts.

Import Hoare Layer Core SpecWords LayerNotions CoreNotions RunNotions Status.
Import PyFacts LayerFacts CoreFacts CoreLoops RoundFacts InitFacts LayerRunFacts FrameFacts.

Section WithManager.

Context `{LayerLogic} {Mgr : Type} `{!DatabaseManager Mgr LearningData}.

Implicit Types (self s : ThinkingCore Mgr).

Lemma round_statistics self input_data target_layers :
  exists self' r,
    comprehensive_processing input_data target_layers self = (self', Returned r)
    /\ core_statistics self'
       = core_statistics (_update_core_statistics (success r) (round_level r) self)
    /\ core_name self' = core_name self
    /\ connected self' = connected self.
Proof.
  destruct (comprehensive_processing_keeps
              (fun s => core_statistics s = core_statistics self
                        /\ core_name s = core_name self
                        /\ connected s = connected self)
              ltac:(intros l s Hs; exact Hs)
              ltac:(intros m s Hs; exact Hs)
              ltac:(intros mgr mgr' s (H1 & H2 & H3) Hm; split; [exact H1|split; [exact H2|]];
                    rewrite <- H3; unfold connected; cbn; rewrite Hm; reflexivity)
              self input_data target_layers (conj eq_refl (conj eq_refl eq_refl)))
    as (s1 & r & Hrun & Hst & Hname & Hconn).
  exists (_update_core_statistics (success r) (round_level r) s1), r.
  split; [exact Hrun|]. split; [|split].
  - unfold _update_core_statistics. cbn [core_statistics set_core_statistics].
    rewrite Hst. reflexivity.
  - exact Hname.
  - exact Hconn.
Qed.

Lemma run_rounds_cons r rounds s :
  run_rounds (r :: rounds) s
  = run_rounds rounds (fst (comprehensive_processing (fst r) (snd r) s)).
Proof. reflexivity. Qed.

Lemma py_sum_from (l : list Q) (a : Q) : (fold_left Qplus l a == a + py_sum l)%Q.
Proof.
  unfold py_sum. revert a. induction l as [|x l IH]; intros a; cbn [fold_left].
  - ring.
  - rewrite IH, (IH (0 + x)%Q). ring.
Qed.

Lemma py_sum_cons (x : Q) (l : list Q) : (py_sum (x :: l) == x + py_sum l)%Q.
Proof. unfold py_sum at 1. cbn [fold_left]. rewrite py_sum_from. ring. Qed.

Lemma run_rounds_statistics rounds :
  forall s,
    let s' := run_rounds rounds s in
    let outcomes := round_results rounds s in
    let st := core_statistics s in
    let st' := core_statistics s' in
    length outcomes = length rounds
    /\ stats_total_processed st' = stats_total_processed st + length rounds
    /\ successful_processing st'
       = successful_processing st + length (List.filter success outcomes)
    /\ (average_sync_level st' * inject_Z (Z.of_nat (stats_total_processed st'))
        == average_sync_level st * inject_Z (Z.of_nat (stats_total_processed st))
           + py_sum (map round_level outcomes))%Q
    /\ core_name s' = core_name s
    /\ connected s' = connected s.
Proof.
  induction rounds as [|[input_data target] rounds IH]; intros s.
  - cbn. rewrite !Nat.add_0_r. repeat split; try reflexivity. unfold py_sum. cbn. ring.
  - cbv zeta. rewrite run_rounds_cons. cbn [round_results fst snd].
    destruct (round_statistics s input_data target) as (s1 & r & Hrun & Hst & Hname & Hconn).
    rewrite Hrun. cbn [fst].
    destruct (IH s1) as (Hlen & Htot & Hsucc & Havg & Hname' & Hconn').
    cbv zeta in Hlen, Htot, Hsucc, Havg.
    rewrite Hst in Htot, Hsucc, Havg.
    unfold _update_core_statistics in Htot, Hsucc, Havg.
    cbn [core_statistics set_core_statistics stats_total_processed successful_processing
         average_sync_level] in Htot, Hsucc, Havg.
    split; [cbn [length]; f_equal; exact Hlen|].
    split; [rewrite Htot; cbn [length]; lia|].
    split.
    { rewrite Hsucc. cbn [List.filter]. destruct (success r); cbn [length]; lia. }
    split.
    { rewrite Havg. cbn [map]. rewrite py_sum_cons.
      replace (S (stats_total_processed (core_statistics s)) - 1)
        with (stats_total_processed (core_statistics s)) by lia.
      field. apply inject_nat_pos. }
    split; [congruence|congruence].
Qed.

Lemma run_rounds_invariant rounds :
  forall s, matrix_invariant s ->
    matrix_invariant (run_rounds rounds s)
    /\ dict_keys (layers (run_rounds rounds s)) = dict_keys (layers s).
Proof.
  induction rounds as [|[input_data target] rounds IH]; intros s Hs.
  - split; [exact Hs|reflexivity].
  - rewrite run_rounds_cons. cbn [fst snd].
    destruct (comprehensive_processing_spec s input_data target Hs)
      as (s' & r & Hrun & [Hs' (Hkeys & _)] & _).
    rewrite Hrun. cbn [fst]. destruct (IH s' Hs') as [Hinv Hk].
    split; [exact Hinv|]. rewrite Hk. exact Hkeys.
Qed.

End WithManager.

End StatisticsFacts.

Module StatisticsSpec.

Import Hoare Layer Core SpecWords LayerNotions CoreNotions RunNotions Status.
Import PyFacts LayerFacts CoreFacts CoreLoops RoundFacts InitFacts LayerRunFacts FrameFacts.
Import StatisticsFacts.

Section WithManager.

Context `{LayerLogic} {Mgr : Type} `{!DatabaseManager Mgr LearningData}.

Implicit Types (self s : ThinkingCore Mgr).

(** X2. [comprehensive_processing] always returns a record, and it counts
    the round exactly once: [total_processed] grows by one,
    [successful_processing] grows by one when the record has
    [success = True] and stays otherwise, and [average_sync_level] becomes
    the running mean with the round's level, which is [0.0] for a failed
    round. The name of the core is kept. *)
Theorem round_counted_once self (input_data : Input) (target_layers : option (list string)) :
  exists self' r,
    comprehensive_processing input_data target_layers self = (self', Returned r)
    /\ let st := core_statistics self in
       let st' := core_statistics self' in
       let n := stats_total_processed st in
       stats_total_processed st' = S n
       /\ successful_processing st'
          = (if success r then S (successful_processing st) else successful_processing st)
       /\ average_sync_level st'
          = ((average_sync_level st * inject_Z (Z.of_nat n) + round_level r)
             / inject_Z (Z.of_nat (S n)))%Q
       /\ (success r = false -> round_level r = 0%Q)
       /\ core_name self' = core_name self.
Proof.
  destruct (round_statistics self input_data target_layers)
    as (self' & r & Hrun & Hst & Hname & _).
  exists self', r. split; [exact Hrun|]. cbv zeta. rewrite Hst.
  unfold _update_core_statistics.
  cbn [core_statistics set_core_statistics stats_total_processed successful_processing
       average_sync_level].
  split; [reflexivity|]. split; [reflexivity|]. split.
  - replace (S (stats_total_processed (core_statistics self)) - 1)
      with (stats_total_processed (core_statistics self)) by lia.
    reflexivity.
  - split; [|exact Hname]. destruct r; [discriminate|reflexivity].
Qed.

(** X3. [get_core_status] after any sequence of rounds on a core as
    constructed: every round has returned a record, [total_processed] is
    the number of rounds, [success_rate] is the share of the rounds whose
    record has [success = True], [average_sync_level] is the mean of the
    levels of the rounds, there are eight layers of which at most eight
    are active, and [database_connected] tells whether the constructor of
    the manager returned. *)
Theorem core_status_after_rounds (name : string) (make_manager : Result Mgr)
  (rounds : list (Input * option (list string))) :
  let core0 := new_ThinkingCore name make_manager in
  let status := get_core_status (run_rounds rounds core0) in
  let outcomes := round_results rounds core0 in
  let successes := length (List.filter success outcomes) in
  length outcomes = length rounds
  /\ status_total_processed status = length rounds
  /\ (status_success_rate status * inject_Z (Z.of_nat (length rounds))
      == inject_Z (Z.of_nat successes))%Q
  /\ (0 <= status_success_rate status)%Q
  /\ (status_success_rate status <= 1)%Q
  /\ (status_average_sync_level status * inject_Z (Z.of_nat (length rounds))
      == py_sum (map round_level outcomes))%Q
  /\ status_core_name status = name
  /\ status_total_layers status = 8
  /\ status_active_layers status <= 8
  /\ status_database_connected status
     = match make_manager with Returned _ => true | Raised _ => false end.
Proof.
  intros core0 status outcomes successes.
  destruct (run_rounds_statistics rounds core0)
    as (Hlen & Htot & Hsucc & Havg & Hname & Hconn).
  cbv zeta in Hlen, Htot, Hsucc, Havg. fold outcomes in Hlen, Hsucc, Havg.
  fold successes in Hsucc.
  assert (Hstart : core_statistics core0
                   = {| stats_total_processed := 0; successful_processing := 0;
                        average_sync_level := 0 |}).
  { subst core0. destruct make_manager; reflexivity. }
  rewrite Hstart in Htot, Hsucc, Havg.
  cbn [stats_total_processed successful_processing average_sync_level Nat.add] in Htot, Hsucc, Havg.
  assert (Hle : successes <= length rounds).
  { rewrite <- Hlen. apply List.filter_length_le. }
  assert (Hrate : (status_success_rate status * inject_Z (Z.of_nat (length rounds))
                   == inject_Z (Z.of_nat successes))%Q).
  { subst status. unfold get_core_status. cbn [status_success_rate].
    rewrite Htot, Hsucc. destruct (length rounds) as [|n] eqn:En.
    - assert (successes = 0) as -> by lia. reflexivity.
    - replace (Nat.max (S n) 1) with (S n) by lia. field. apply inject_nat_pos. }
  assert (Hkeys : dict_keys (layers (run_rounds rounds core0)) = layer_names).
  { destruct (run_rounds_invariant rounds core0 (new_core_invariant name make_manager))
      as [_ Hk].
    rewrite Hk. apply new_core_layers. }
  assert (Hcount : length (layers (run_rounds rounds core0)) = 8).
  { change 8 with (length layer_names). rewrite <- Hkeys. unfold dict_keys.
    symmetry. apply List.length_map. }
  split; [exact Hlen|]. split; [exact Htot|]. split; [exact Hrate|].
  assert (Hbounds : (0 <= status_success_rate status)%Q /\ (status_success_rate status <= 1)%Q).
  { destruct (length rounds) as [|n] eqn:En.
    - subst status. unfold get_core_status. cbn [status_success_rate].
      rewrite Htot, Hsucc. assert (successes = 0) as -> by lia.
      split; unfold Qle; cbn; lia.
    - apply (scaled_rate_bounds _ n successes); [exact Hrate | exact Hle]. }
  split; [apply Hbounds|]. split; [apply Hbounds|].
  split.
  { subst status. unfold get_core_status. cbn [status_average_sync_level].
    rewrite Htot in Havg. rewrite Havg. ring. }
  split.
  { subst status. unfold get_core_status. cbn [status_core_name]. rewrite Hname.
    subst core0. destruct make_manager; reflexivity. }
  split; [exact Hcount|]. split.
  { subst status. unfold get_core_status. cbn [status_active_layers].
    rewrite <- Hcount. etransitivity; [apply List.filter_length_le|].
    unfold dict_values. rewrite List.length_map. reflexivity. }
  subst status. unfold get_core_status. cbn [status_database_connected].
  change (match database_manager (run_rounds rounds core0) with
          | Some _ => true | None => false end)
    with (connected (run_rounds rounds core0)).
  rewrite Hconn. subst core0. destruct make_manager; reflexivity.
Qed.

End WithManager.

End StatisticsSpec.

Module TargetedFacts.

Import Hoare Layer Core SpecWords LayerNotions CoreNotions RunNotions Status.
Import PyFacts LayerFacts CoreFacts CoreLoops RoundFacts InitFacts LayerRunFacts.

Section WithManager.

Context `{LayerLogic} {Mgr : Type} `{!DatabaseManager Mgr LearningData}.

Implicit Types (self s : ThinkingCore Mgr).

Lemma layers_only_refl s : layers_only s s.
Proof. repeat split. Qed.

Lemma expected_results_cons s input_data layer_name rest results :
  expected_results s input_data (layer_name :: rest) results
  = expected_results s input_data rest
      match dict_get (layers s) layer_name with
      | Some layer => dict_set results layer_name (layer_outcome (layer_type layer) input_data)
      | None => results
      end.
Proof. reflexivity. Qed.

(** The expected results depend on the types of the layers only. *)
Lemma expected_results_ext s s' input_data active_layers :
  (forall k, layer_type <$> dict_get (layers s') k = layer_type <$> dict_get (layers s) k) ->
  forall results,
    expected_results s' input_data active_layers results
    = expected_results s input_data active_layers results.
Proof.
  intros Hty. induction active_layers as [|layer_name rest IH]; intros results; [reflexivity|].
  rewrite !expected_results_cons. specialize (Hty layer_name).
  destruct (dict_get (layers s') layer_name) as [l'|], (dict_get (layers s) layer_name) as [l|];
    cbn in Hty; try discriminate Hty.
  - injection Hty as ->. apply IH.
  - apply IH.
Qed.

Lemma run_inputs_repeat_succ input_data n (layer : ThinkingLayer) :
  run_inputs (repeat input_data n) (fst (process_input input_data layer))
  = run_inputs (repeat input_data (S n)) layer.
Proof. reflexivity. Qed.

Lemma targeted_loop_spec input_data available_layers :
  forall results s,
    Forall (fun n => dict_mem (layers s) n = true) available_layers ->
    exists s',
      targeted_loop input_data available_layers results s
      = (s', Returned (expected_results s input_data available_layers results))
      /\ layers_only s s'
      /\ (forall k layer,
            dict_get (layers s) k = Some layer ->
            dict_get (layers s') k
            = Some (run_inputs (repeat input_data (count_occ string_dec available_layers k))
                      layer)).
Proof.
  induction available_layers as [|layer_name rest IH]; intros results s Hreg.
  - exists s. split; [reflexivity|]. split; [apply layers_only_refl|].
    intros k layer Hk. exact Hk.
  - apply Forall_cons_iff in Hreg as [Hname Hrest].
    apply dict_mem_get in Hname as [layer Hlayer].
    cbn [targeted_loop]. unfold bind at 1. unfold on_layer. rewrite Hlayer.
    pose proof (process_input_outcome input_data layer) as Hout.
    destruct (process_input input_data layer) as [layer' r] eqn:Hrun. cbn [snd] in Hout. subst r.
    set (s1 := set_layers (dict_set (layers s) layer_name layer') s).
    assert (Hty1 : layer_type layer' = layer_type layer).
    { change layer' with (fst (layer', @Returned LayerResult
                                         (layer_outcome (layer_type layer) input_data))).
      rewrite <- Hrun. apply process_input_layer_type. }
    assert (Hget1 : forall k, dict_get (layers s1) k
                              = if String.eqb layer_name k then Some layer'
                                else dict_get (layers s) k).
    { intros k. subst s1. cbn [layers set_layers]. apply dict_get_set. }
    assert (Hreg1 : Forall (fun n => dict_mem (layers s1) n = true) rest).
    { rewrite Forall_forall in Hrest |- *. intros n Hn. specialize (Hrest n Hn).
      unfold dict_mem in *. rewrite Hget1. destruct (String.eqb layer_name n); [reflexivity|exact Hrest]. }
    destruct (IH (dict_set results layer_name (layer_outcome (layer_type layer) input_data))
                s1 Hreg1) as (s' & Hloop & Honly & Hlayers).
    exists s'. split; [|split].
    + rewrite Hloop. rewrite expected_results_cons, Hlayer. do 2 f_equal.
      apply expected_results_ext. intros k. rewrite Hget1.
      destruct (String.eqb layer_name k) eqn:E; [|reflexivity].
      apply String.eqb_eq in E. subst k. rewrite Hlayer. cbn. congruence.
    + destruct Honly as (H1 & H2 & H3 & H4 & H5).
      split; [exact H1|]. split; [exact H2|]. split; [exact H3|]. split; [exact H4|].
      rewrite H5. subst s1. cbn [layers set_layers].
      apply dict_keys_set_present. apply dict_mem_get. eauto.
    + intros k layer0 Hk. cbn [count_occ].
      destruct (string_dec layer_name k) as [->|Hne].
      * rewrite Hlayer in Hk. injection Hk as <-.
        rewrite (Hlayers k layer'); [|rewrite Hget1, String.eqb_refl; reflexivity].
        change layer' with (fst (layer', @Returned LayerResult
                                           (layer_outcome (layer_type layer) input_data))).
        rewrite <- Hrun. f_equal.
      * apply Hlayers. rewrite Hget1.
        apply String.eqb_neq in Hne. rewrite Hne. exact Hk.
Qed.

Lemma count_occ_filter_mem (f : string -> bool) l k :
  f k = true -> count_occ string_dec (List.filter f l) k = count_occ string_dec l k.
Proof.
  intros Hk. induction l as [|x l IH]; [reflexivity|]. cbn [List.filter count_occ].
  destruct (string_dec x k) as [->|Hne].
  - rewrite Hk. cbn [count_occ]. destruct (string_dec k k); [|contradiction]. f_equal. exact IH.
  - destruct (f x); [|exact IH]. cbn [count_occ].
    destruct (string_dec x k); [contradiction|exact IH].
Qed.

(** The keys of [results] after the layers named in [active_layers] ran. *)
Lemma expected_results_get s input_data active_layers :
  forall results k,
    dict_get (expected_results s input_data active_layers results) k
    = match dict_get (layers s) k with
      | Some layer =>
          if existsb (String.eqb k) active_layers
          then Some (layer_outcome (layer_type layer) input_data)
          else dict_get results k
      | None => dict_get results k
      end.
Proof.
  induction active_layers as [|layer_name rest IH]; intros results k.
  - cbn. destruct (dict_get (layers s) k); reflexivity.
  - rewrite expected_results_cons, IH. cbn [existsb].
    destruct (dict_get (layers s) k) as [layer|] eqn:Ek.
    + destruct (existsb (String.eqb k) rest) eqn:Erest; [rewrite orb_true_r; reflexivity|].
      rewrite orb_false_r.
      destruct (String.eqb k layer_name) eqn:E.
      * apply String.eqb_eq in E. subst layer_name. rewrite Ek. apply dict_get_set_eq.
      * apply String.eqb_neq in E.
        destruct (dict_get (layers s) layer_name); [|reflexivity].
        apply dict_get_set_ne. congruence.
    + destruct (dict_get (layers s) layer_name) as [layer|] eqn:En; [|reflexivity].
      apply dict_get_set_ne. intros ->. congruence.
Qed.

End WithManager.

End TargetedFacts.

Module TargetedSpec.

Import Hoare Layer Core SpecWords LayerNotions CoreNotions RunNotions Status.
Import PyFacts LayerFacts CoreFacts CoreLoops RoundFacts InitFacts LayerRunFacts TargetedFacts.

Section WithManager.

Context `{LayerLogic} {Mgr : Type} `{!DatabaseManager Mgr LearningData}.

Implicit Types (self s : ThinkingCore Mgr).

(** X5. [targeted_processing] always returns. When none of the requested
    names is a registered layer it returns the error record with the
    requested names and the registered ones; otherwise the record lists
    the registered names it was given and the result of each. Only layers
    change: a layer requested [k] times has processed the input [k] times,
    the others are as before; the results hold one entry for every
    requested registered name and nothing else. Statistics,
    synchronization matrix and manager are not touched. *)
Theorem targeted_processing_spec self (input_data : Input) (target_layers : list string) :
  let available_layers := List.filter (fun n => dict_mem (layers self) n) target_layers in
  let results := expected_results self input_data available_layers [] in
  exists self',
    targeted_processing input_data target_layers self
    = (self',
       Returned
         match available_layers with
         | [] => TargetedError target_layers (dict_keys (layers self))
         | _ :: _ => TargetedResults available_layers results
         end)
    /\ layers_only self self'
    /\ (forall k layer,
          dict_get (layers self) k = Some layer ->
          dict_get (layers self') k
          = Some (run_inputs (repeat input_data (count_occ string_dec target_layers k)) layer)
          /\ dict_get results k
             = if existsb (String.eqb k) target_layers
               then Some (layer_outcome (layer_type layer) input_data)
               else None)
    /\ (forall k, dict_get (layers self) k = None -> dict_get results k = None).
Proof.
  intros available_layers results.
  assert (Hreg : Forall (fun n => dict_mem (layers self) n = true) available_layers).
  { apply Forall_forall. intros n Hn. apply filter_In in Hn. apply Hn. }
  destruct (targeted_loop_spec input_data available_layers [] self Hreg)
    as (s' & Hloop & Honly & Hlayers).
  assert (Hex : forall k, dict_mem (layers self) k = true ->
                  existsb (String.eqb k) available_layers
                  = existsb (String.eqb k) target_layers).
  { intros k Hk. subst available_layers. clear -Hk.
    induction target_layers as [|x l IH]; [reflexivity|]. cbn [List.filter existsb].
    destruct (dict_mem (layers self) x) eqn:Ex; cbn [existsb].
    - rewrite IH. reflexivity.
    - rewrite IH. destruct (String.eqb k x) eqn:E; [|reflexivity].
      apply String.eqb_eq in E. subst x. congruence. }
  assert (Hres : forall k layer, dict_get (layers self) k = Some layer ->
            dict_get results k
            = if existsb (String.eqb k) target_layers
              then Some (layer_outcome (layer_type layer) input_data) else None).
  { intros k layer Hk. subst results. rewrite expected_results_get, Hk.
    rewrite Hex by (apply dict_mem_get; eauto). reflexivity. }
  assert (Hnone : forall k, dict_get (layers self) k = None -> dict_get results k = None).
  { intros k Hk. subst results. rewrite expected_results_get, Hk. reflexivity. }
  unfold targeted_processing. unfold bind at 1. cbn [get]. fold available_layers.
  destruct available_layers as [|n rest] eqn:Eav.
  - exists self. split; [reflexivity|]. split; [apply layers_only_refl|]. split; [|exact Hnone].
    intros k layer Hk. split; [|apply (Hres k layer Hk)].
    assert (Hc : count_occ string_dec target_layers k = 0).
    { rewrite <- (count_occ_filter_mem (fun n => dict_mem (layers self) n) target_layers k)
        by (apply dict_mem_get; eauto).
      fold available_layers. rewrite Eav. reflexivity. }
    rewrite Hc. exact Hk.
  - exists s'. unfold bind. rewrite Hloop. split; [reflexivity|].
    split; [exact Honly|]. split; [|exact Hnone].
    intros k layer Hk. split; [|apply (Hres k layer Hk)].
    rewrite (Hlayers k layer Hk).
    rewrite <- Eav. subst available_layers.
    rewrite count_occ_filter_mem by (apply dict_mem_get; eauto). reflexivity.
Qed.

End WithManager.

End TargetedSpec.

Module ShutdownSpec.

Import Hoare Layer Core SpecWords LayerNotions CoreNotions RunNotions Status.
Import PyFacts LayerFacts CoreFacts.

Section WithManager.

Context `{LayerLogic} {Mgr : Type} `{!ClosableManager Mgr}.

Implicit Types (self s : ThinkingCore Mgr).

Lemma dict_get_map_values {V W} (f : V -> W) (d : dict V) k :
  dict_get (map (fun entry : string * V => (fst entry, f (snd entry))) d) k
  = f <$> dict_get d k.
Proof.
  induction d as [|[k0 v0] d IH]; [reflexivity|]. cbn [map dict_get fst snd].
  destruct (String.eqb k0 k); [reflexivity|exact IH].
Qed.

Lemma no_active_layer (d : dict ThinkingLayer) :
  List.filter (fun layer => negb (bool_decide (state layer = INACTIVE)))
    (dict_values (map (fun entry : string * ThinkingLayer =>
                         (fst entry, set_state INACTIVE (snd entry))) d))
  = [].
Proof. induction d as [|[k0 v0] d IH]; [reflexivity|]. cbn. exact IH. Qed.

(** X4. [shutdown_core]: when [close_all_databases] raises, the exception
    leaves the method and no layer has been touched. Otherwise the method
    returns, every layer is [INACTIVE] and is otherwise as it was, so
    [get_core_status] reports no active layer and the same number of
    layers; statistics and synchronization matrix are kept. A core without
    manager closes nothing and takes the second course. *)
Theorem shutdown_core_outcome self :
  let closing :=
    match database_manager self with
    | Some mgr => Some (close_all_databases mgr)
    | None => None
    end in
  match closing with
  | Some (mgr', Raised e) =>
      shutdown_core self = (set_database_manager (Some mgr') self, Raised e)
  | _ =>
      exists self',
        shutdown_core self = (self', Returned tt)
        /\ database_manager self'
           = match closing with Some (mgr', _) => Some mgr' | None => None end
        /\ dict_keys (layers self') = dict_keys (layers self)
        /\ (forall k, dict_get (layers self') k = set_state INACTIVE <$> dict_get (layers self) k)
        /\ status_active_layers (get_core_status self') = 0
        /\ status_total_layers (get_core_status self') = length (layers self)
        /\ core_statistics self' = core_statistics self
        /\ synchronization_matrix self' = synchronization_matrix self
  end.
Proof.
  intros closing. subst closing. cbv beta iota delta [shutdown_core bind get].
  assert (Hreset : forall s : ThinkingCore Mgr,
    let s' := set_layers
                (map (fun entry : string * ThinkingLayer =>
                        (fst entry, set_state INACTIVE (snd entry))) (layers s)) s in
    dict_keys (layers s') = dict_keys (layers s)
    /\ (forall k, dict_get (layers s') k = set_state INACTIVE <$> dict_get (layers s) k)
    /\ status_active_layers (get_core_status s') = 0
    /\ status_total_layers (get_core_status s') = length (layers s)).
  { intros s s'. subst s'. cbn [layers set_layers]. split; [|split; [|split]].
    - unfold dict_keys. rewrite map_map. reflexivity.
    - intros k. apply dict_get_map_values.
    - unfold get_core_status. cbn [status_active_layers layers set_layers].
      rewrite no_active_layer. reflexivity.
    - unfold get_core_status. cbn [status_total_layers layers set_layers].
      apply List.length_map. }
  destruct (database_manager self) as [mgr|] eqn:Em.
  - unfold on_manager. destruct (close_all_databases mgr) as [mgr' [[]|e]]; [|reflexivity].
    unfold modify. eexists. split; [reflexivity|].
    destruct (Hreset (set_database_manager (Some mgr') self)) as (H1 & H2 & H3 & H4).
    split; [reflexivity|]. split; [exact H1|]. split; [exact H2|]. split; [exact H3|].
    split; [exact H4|]. split; reflexivity.
  - unfold ret, modify. eexists. split; [reflexivity|].
    destruct (Hreset self) as (H1 & H2 & H3 & H4).
    split; [exact Em|]. split; [exact H1|]. split; [exact H2|]. split; [exact H3|].
    split; [exact H4|]. split; reflexivity.
Qed.

End WithManager.

End ShutdownSpec.

Module UnmanagedFacts.

Import Hoare Layer Core SpecWords LayerNotions CoreNotions RunNotions Status.
Import PyFacts LayerFacts CoreFacts CoreLoops RoundFacts InitFacts LayerRunFacts.
Import StatisticsFacts TargetedFacts.

Section WithManager.

Context `{LayerLogic} {Mgr : Type} `{!DatabaseManager Mgr LearningData}.

Implicit Types (self s : ThinkingCore Mgr).

Lemma framed_rows_absent s0 s : framed s0 s -> rows_absent s0 -> rows_absent s.
Proof.
  intros Hf Habs k Hk. rewrite (framed_mem s0 s k Hf) in Hk.
  destruct Hf as (_ & _ & Hm). specialize (Hm k). rewrite (Habs k Hk) in Hm.
  destruct (synchronization_matrix s !! k) as [row|]; [|reflexivity].
  exfalso. apply (is_Some_None (A := gmap string Q)). apply Hm. eauto.
Qed.

(** Without a manager the persistence step is skipped. *)
Lemma process_layers_unmanaged s0 input_data active_layers :
  forall results s,
    loop_invariant s0 s -> database_manager s = None ->
    exists s',
      process_layers input_data active_layers results s
      = (s', Returned (expected_results s0 input_data active_layers results))
      /\ loop_invariant s0 s' /\ database_manager s' = None.
Proof.
  induction active_layers as [|layer_name rest IH]; intros results s Hs Hm.
  - exists s. auto.
  - cbn [process_layers]. rewrite expected_results_cons.
    unfold bind at 1. cbn [get]. unfold dict_mem.
    assert (Hty : layer_type <$> dict_get (layers s) layer_name
                  = layer_type <$> dict_get (layers s0) layer_name)
      by apply (proj2 Hs).
    destruct (dict_get (layers s) layer_name) as [layer|] eqn:E.
    2:{ destruct (dict_get (layers s0) layer_name); [discriminate Hty|]. apply IH; assumption. }
    destruct (dict_get (layers s0) layer_name) as [layer0|]; [|discriminate Hty].
    cbn in Hty. injection Hty as Hty. rewrite <- Hty.
    destruct (on_layer_process_input s0 s layer_name layer input_data Hs E)
      as (s1 & Hrun & Hs1 & Hmgr & _).
    unfold bind at 1. rewrite Hrun. rewrite Hm.
    unfold bind at 1. cbn [ret]. apply IH; [exact Hs1 | congruence].
Qed.

Lemma sync_inner_absent s0 layer1_name results rest :
  rows_absent s0 ->
  forall acc s,
    loop_invariant s0 s ->
    exists s' out,
      sync_inner layer1_name rest results acc s = (s', out)
      /\ loop_invariant s0 s' /\ database_manager s' = database_manager s
      /\ if dict_mem (layers s0) layer1_name && existsb (dict_mem (layers s0)) rest
         then exists e, out = Raised e
         else out = Returned acc.
Proof.
  intros Habs. induction rest as [|layer2_name rest IH]; intros acc s Hs.
  - exists s, (Returned acc). rewrite andb_false_r. auto.
  - cbn [sync_inner existsb]. unfold bind at 1. cbn [get].
    pose proof (framed_mem s0 s layer1_name (proj2 Hs)) as Hm1.
    pose proof (framed_mem s0 s layer2_name (proj2 Hs)) as Hm2.
    unfold dict_mem at 1 in Hm1. unfold dict_mem at 1 in Hm2.
    destruct (dict_get (layers s) layer1_name) as [layer1|] eqn:E1.
    2:{ rewrite <- Hm1. cbn [andb]. destruct (IH acc s Hs) as (s' & out & H0 & H1 & H2 & H3).
        rewrite <- Hm1 in H3. cbn [andb] in H3. exists s', out. auto. }
    destruct (dict_get (layers s) layer2_name) as [layer2|] eqn:E2.
    2:{ rewrite <- Hm2. cbn [orb]. apply IH, Hs. }
    rewrite <- Hm1, <- Hm2. cbn [andb orb].
    unfold bind at 1. unfold on_layer. rewrite E1, synchronize_with_layer_run.
    set (s1 := set_layers _ s).
    assert (Hs1 : loop_invariant s0 s1).
    { destruct Hs as [HJ HF]. split.
      - eapply invariant_set_layer; eauto.
      - eapply framed_set_layer; eauto. apply synchronized_layer_type. }
    assert (Hrow : synchronization_matrix s1 !! layer1_name = None).
    { apply (framed_rows_absent s0 s1 (proj2 Hs1) Habs).
      rewrite (framed_mem s0 s1 _ (proj2 Hs1)). rewrite <- Hm1. reflexivity. }
    exists s1, (Raised "KeyError"). split.
    + unfold bind, matrix_set. rewrite Hrow. reflexivity.
    + split; [exact Hs1|]. split; [reflexivity|]. eauto.
Qed.

Lemma existsb_registered_row s0 a rest :
  existsb (registered_pair s0) (map (pair a) rest)
  = dict_mem (layers s0) a && existsb (dict_mem (layers s0)) rest.
Proof.
  induction rest as [|b rest IH]; cbn [map existsb]; [rewrite andb_false_r; reflexivity|].
  rewrite IH. unfold registered_pair. cbn [fst snd].
  destruct (dict_mem (layers s0) a), (dict_mem (layers s0) b); reflexivity.
Qed.

Lemma sync_outer_absent s0 results active_layers :
  rows_absent s0 ->
  forall acc s,
    loop_invariant s0 s ->
    exists s' out,
      sync_outer active_layers results acc s = (s', out)
      /\ loop_invariant s0 s' /\ database_manager s' = database_manager s
      /\ if has_registered_pair s0 active_layers
         then exists e, out = Raised e
         else out = Returned acc.
Proof.
  intros Habs. induction active_layers as [|layer1_name rest IH]; intros acc s Hs.
  - exists s, (Returned acc). split; [reflexivity|]. split; [exact Hs|]. split; reflexivity.
  - unfold has_registered_pair. cbn [sync_outer index_pairs].
    rewrite existsb_app, existsb_registered_row.
    destruct (sync_inner_absent s0 layer1_name results rest Habs acc s Hs)
      as (s1 & out1 & Hrun & Hs1 & Hm1 & Hout).
    unfold bind. rewrite Hrun.
    destruct (dict_mem (layers s0) layer1_name && existsb (dict_mem (layers s0)) rest).
    + destruct Hout as [e ->]. exists s1, (Raised e). cbn [orb]. eauto 6.
    + subst out1. cbn [orb]. destruct (IH acc s1 Hs1) as (s2 & out2 & Hrun2 & Hs2 & Hm2 & Hout2).
      exists s2, out2. split; [exact Hrun2|]. split; [exact Hs2|]. split; [congruence|].
      exact Hout2.
Qed.

Lemma tally_unregistered s0 pairs :
  existsb (registered_pair s0) pairs = false -> forall acc, tally s0 pairs acc = acc.
Proof.
  induction pairs as [|p pairs IH]; intros Hnone acc; [reflexivity|].
  cbn [existsb] in Hnone. apply orb_false_iff in Hnone as [Hp Hrest].
  rewrite tally_cons, Hp. apply IH, Hrest.
Qed.

(** A round on a core that has neither a manager nor matrix rows. *)
Lemma comprehensive_processing_unmanaged s input_data target_layers :
  matrix_invariant s -> rows_absent s -> database_manager s = None ->
  let active_layers := resolve_layers s target_layers in
  exists s' r,
    comprehensive_processing input_data target_layers s = (s', Returned r)
    /\ loop_invariant s s' /\ database_manager s' = None
    /\ if has_registered_pair s active_layers
       then exists e, r = ErrorResult active_layers e
       else r = final_result s input_data active_layers.
Proof.
  intros Hinv Habs Hm active_layers.
  unfold comprehensive_processing. unfold bind at 1. cbn [get]. fold active_layers.
  unfold try_except. unfold bind at 1.
  destruct (process_layers_unmanaged s input_data active_layers [] s
              (conj Hinv (framed_refl s)) Hm) as (s1 & Hrun1 & Hs1 & Hm1).
  rewrite Hrun1. unfold bind at 1. unfold _synchronize_layers.
  destruct (Nat.ltb_spec (length active_layers) 2) as [Hshort|Hlong].
  - assert (Hnone : has_registered_pair s active_layers = false).
    { destruct active_layers as [|a [|b rest]]; [reflexivity|reflexivity|cbn in Hshort; lia]. }
    rewrite Hnone. cbn [ret]. unfold bind, modify, ret.
    eexists _, _. split; [reflexivity|].
    split; [apply loop_invariant_statistics, Hs1|]. split; [exact Hm1|].
    unfold final_result, sync_value.
    destruct (Nat.ltb_spec (length active_layers) 2) as [_|Hge]; [reflexivity|lia].
  - destruct (sync_outer_absent s (expected_results s input_data active_layers [])
                active_layers Habs (0%Q, 0) s1 Hs1) as (s2 & out & Hrun2 & Hs2 & Hm2 & Hout).
    unfold bind at 1. rewrite Hrun2.
    destruct (has_registered_pair s active_layers) eqn:Hpair.
    + destruct Hout as [e ->].
      unfold bind, modify, ret. eexists _, _. split; [reflexivity|].
      split; [apply loop_invariant_statistics, Hs2|]. split; [cbn; congruence|]. eauto.
    + subst out. unfold bind, modify, ret. cbn [fst snd].
      eexists _, _. split; [reflexivity|].
      split; [apply loop_invariant_statistics, Hs2|]. split; [cbn; congruence|].
      unfold final_result, sync_value.
      destruct (Nat.ltb_spec (length active_layers) 2) as [Hlt|_]; [lia|].
      rewrite (tally_unregistered s _ Hpair). reflexivity.
Qed.

Lemma run_rounds_unmanaged rounds :
  forall s,
    matrix_invariant s -> rows_absent s -> database_manager s = None ->
    let s' := run_rounds rounds s in
    matrix_invariant s' /\ rows_absent s' /\ database_manager s' = None
    /\ dict_keys (layers s') = dict_keys (layers s)
    /\ (forall k, is_Some (synchronization_matrix s' !! k)
                  <-> is_Some (synchronization_matrix s !! k)).
Proof.
  induction rounds as [|[input_data target] rounds IH]; intros s Hinv Habs Hm.
  - cbn. split; [exact Hinv|]. split; [exact Habs|]. split; [exact Hm|].
    split; [reflexivity|]. intros k. reflexivity.
  - cbv zeta. rewrite run_rounds_cons. cbn [fst snd].
    destruct (comprehensive_processing_unmanaged s input_data target Hinv Habs Hm)
      as (s1 & r & Hrun & [Hinv1 Hf1] & Hm1 & _).
    rewrite Hrun. cbn [fst].
    destruct (IH s1 Hinv1 (framed_rows_absent s s1 Hf1 Habs) Hm1) as (H1 & H2 & H3 & H4 & H5).
    split; [exact H1|]. split; [exact H2|]. split; [exact H3|].
    destruct Hf1 as (Hk & _ & Hrows). split; [congruence|].
    intros k. rewrite H5. apply Hrows.
Qed.

End WithManager.

End UnmanagedFacts.

Module UnmanagedSpec.

Import Hoare Layer Core SpecWords LayerNotions CoreNotions RunNotions Status.
Import PyFacts LayerFacts CoreFacts CoreLoops RoundFacts InitFacts LayerRunFacts.
Import StatisticsFacts TargetedFacts UnmanagedFacts.

Section WithManager.

Context `{LayerLogic} {Mgr : Type} `{!DatabaseManager Mgr LearningData}.

Implicit Types (self s : ThinkingCore Mgr).

(** X6. A core whose manager could not be constructed has an empty
    synchronization matrix, and no round fills it. On such a core, after
    any rounds, [comprehensive_processing] returns the error record as soon
    as two of the selected names are registered layers, and the complete
    record otherwise; the default round over all layers returns the error
    record. *)
Theorem rounds_without_manager (name e : string)
  (rounds : list (Input * option (list string)))
  (input_data : Input) (target_layers : option (list string)) :
  let core := run_rounds rounds (new_ThinkingCore (Mgr := Mgr) name (Raised e)) in
  let active_layers := resolve_layers core target_layers in
  dict_keys (layers core) = layer_names
  /\ database_manager core = None
  /\ synchronization_matrix core = ∅
  /\ (exists core' r,
        comprehensive_processing input_data target_layers core = (core', Returned r)
        /\ if has_registered_pair core active_layers
           then exists msg, r = ErrorResult active_layers msg
           else r = final_result core input_data active_layers)
  /\ (exists core' msg,
        comprehensive_processing input_data None core
        = (core', Returned (ErrorResult layer_names msg))).
Proof.
  intros core active_layers. subst active_layers core.
  set (core0 := new_ThinkingCore (Mgr := Mgr) name (Raised e)).
  set (core := run_rounds rounds core0).
  assert (Hinv0 : matrix_invariant core0) by apply new_core_invariant.
  assert (Habs0 : rows_absent core0) by (intros k _; reflexivity).
  assert (Hm0 : database_manager core0 = None) by reflexivity.
  destruct (run_rounds_unmanaged rounds core0 Hinv0 Habs0 Hm0)
    as (Hinv & Habs & Hm & Hkeys & Hrows).
  fold core in Hinv, Habs, Hm, Hkeys, Hrows.
  assert (Hnames : dict_keys (layers core) = layer_names).
  { rewrite Hkeys. apply new_core_layers. }
  split; [exact Hnames|]. split; [exact Hm|]. split.
  { apply map_eq. intros k. rewrite lookup_empty.
    destruct (synchronization_matrix core !! k) as [row|] eqn:E; [|reflexivity].
    exfalso. assert (Hsome : is_Some (synchronization_matrix core0 !! k)).
    { apply Hrows. rewrite E. eauto. }
    destruct Hsome as [row0 Hrow0]. discriminate Hrow0. }
  split.
  - destruct (comprehensive_processing_unmanaged core input_data target_layers Hinv Habs Hm)
      as (core' & r & Hrun & _ & _ & Hr).
    exists core', r. split; [exact Hrun|exact Hr].
  - destruct (comprehensive_processing_unmanaged core input_data None Hinv Habs Hm)
      as (core' & r & Hrun & _ & _ & Hr).
    cbn [resolve_layers] in Hr. rewrite Hnames in Hr.
    assert (Hpair : has_registered_pair core layer_names = true).
    { unfold has_registered_pair. apply existsb_exists.
      exists ("mathematical", "logical"). split; [cbn; auto|].
      unfold registered_pair. cbn [fst snd].
      assert (Hin : forall k, In k layer_names -> dict_mem (layers core) k = true).
      { intros k Hk. apply dict_mem_keys. rewrite Hnames. exact Hk. }
      rewrite !Hin by (cbn; auto 10). reflexivity. }
    rewrite Hpair in Hr. destruct Hr as [msg ->]. exists core', msg. exact Hrun.
Qed.

End WithManager.

End UnmanagedSpec.

Module MatrixFacts.

Import Hoare Layer Core SpecWords LayerNotions CoreNotions RunNotions Status.
Import PyFacts LayerFacts CoreFacts CoreLoops RoundFacts InitFacts.

Lemma in_combine_seq {A} (l : list A) :
  forall start j x,
    In (j, x) (combine (seq start (length l)) l)
    <-> start <= j /\ nth_error l (j - start) = Some x.
Proof.
  induction l as [|y l IH]; intros start j x.
  - cbn. split; [intros []|]. intros [_ Hn]. destruct (j - start); discriminate.
  - cbn [length seq combine In]. rewrite IH. split.
    + intros [Heq|[Hle Hn]].
      * injection Heq as <- <-. split; [lia|]. rewrite Nat.sub_diag. reflexivity.
      * split; [lia|]. replace (j - start) with (S (j - S start)) by lia. exact Hn.
    + intros [Hle Hn]. destruct (j - start) as [|d] eqn:Ed.
      * left. cbn in Hn. injection Hn as <-. f_equal. lia.
      * right. split; [lia|]. cbn in Hn. replace (j - S start) with d by lia. exact Hn.
Qed.

Lemma zero_row_fold i b (l : list string) :
  forall start (row : gmap string Q),
    fold_left
      (fun row '(j, layer2) => if Nat.eqb i j then row else <[layer2 := 0%Q]> row)
      (combine (seq start (length l)) l) row !! b
    = if existsb (fun '(j, k) => negb (Nat.eqb i j) && String.eqb k b)
           (combine (seq start (length l)) l)
      then Some 0%Q else row !! b.
Proof.
  induction l as [|k l IH]; intros start row; [reflexivity|].
  cbn [length seq combine fold_left existsb]. rewrite IH.
  destruct (existsb _ (combine (seq (S start) (length l)) l)); [rewrite orb_true_r; reflexivity|].
  rewrite orb_false_r. destruct (Nat.eqb i start); cbn [negb andb]; [reflexivity|].
  destruct (String.eqb k b) eqn:E.
  - apply String.eqb_eq in E. subst k. apply lookup_insert_eq.
  - apply String.eqb_neq in E. apply lookup_insert_ne. exact E.
Qed.

(** The row that [_initialize_synchronization_matrix] builds for the key
    at position [i]. *)
Lemma zero_row_lookup (keys : list string) i a b :
  List.NoDup keys -> nth_error keys i = Some a ->
  zero_row keys i !! b
  = if bool_decide (a <> b) && existsb (String.eqb b) keys then Some 0%Q else None.
Proof.
  intros Hnd Hi. unfold zero_row. rewrite zero_row_fold, lookup_empty.
  match goal with |- (if ?c then _ else _) = (if ?d then _ else _) =>
    assert (Hcd : c = d); [|rewrite Hcd; reflexivity] end.
  apply eq_true_iff_eq. rewrite existsb_exists, andb_true_iff, bool_decide_eq_true, existsb_exists.
  split.
  - intros ([j k] & Hin & Hjk). apply in_combine_seq in Hin as [_ Hn].
    rewrite Nat.sub_0_r in Hn. apply andb_true_iff in Hjk as [Hij Hk].
    apply String.eqb_eq in Hk. subst k. apply negb_true_iff, Nat.eqb_neq in Hij.
    split.
    + intros <-. apply Hij.
      apply (proj1 (NoDup_nth_error keys) Hnd i j).
      * apply nth_error_Some. rewrite Hi. discriminate.
      * rewrite Hi, Hn. reflexivity.
    + exists b. split; [eapply nth_error_In; eauto | apply String.eqb_refl].
  - intros [Hab (k & Hk & Hbk)]. apply String.eqb_eq in Hbk. subst k.
    apply In_nth_error in Hk as [j Hj]. exists (j, b). split.
    + apply in_combine_seq. split; [lia|]. rewrite Nat.sub_0_r. exact Hj.
    + rewrite String.eqb_refl, andb_true_r. apply negb_true_iff, Nat.eqb_neq.
      intros <-. rewrite Hi in Hj. injection Hj as ->. contradiction.
Qed.

Lemma matrix_fold_other (keys l : list string) a :
  ~ In a l ->
  forall start (m : gmap string (gmap string Q)),
    fold_left (fun m '(i, layer1) => <[layer1 := zero_row keys i]> m)
      (combine (seq start (length l)) l) m !! a
    = m !! a.
Proof.
  induction l as [|k l IH]; intros Hnot start m; [reflexivity|].
  cbn [length seq combine fold_left]. rewrite IH by (intros Hin; apply Hnot; right; exact Hin).
  apply lookup_insert_ne. intros ->. apply Hnot. left. reflexivity.
Qed.

Lemma matrix_fold_row (keys l : list string) a :
  List.NoDup l ->
  forall j start (m : gmap string (gmap string Q)),
    nth_error l j = Some a ->
    fold_left (fun m '(i, layer1) => <[layer1 := zero_row keys i]> m)
      (combine (seq start (length l)) l) m !! a
    = Some (zero_row keys (start + j)).
Proof.
  induction l as [|k l IH]; intros Hnd j start m Hj; [destruct j; discriminate|].
  apply NoDup_cons_iff in Hnd as [Hk Hnd].
  cbn [length seq combine fold_left]. destruct j as [|j]; cbn in Hj.
  - injection Hj as ->. rewrite matrix_fold_other by exact Hk.
    rewrite lookup_insert_eq, Nat.add_0_r. reflexivity.
  - rewrite (IH Hnd j (S start) _ Hj). do 2 f_equal. lia.
Qed.

Section WithManager.

Context `{LayerLogic} {Mgr : Type} `{!DatabaseManager Mgr LearningData}.

Implicit Types (self s : ThinkingCore Mgr).

Lemma dict_mem_existsb {V} (d : dict V) k :
  dict_mem d k = existsb (String.eqb k) (dict_keys d).
Proof.
  apply eq_true_iff_eq. rewrite dict_mem_keys, existsb_exists. split.
  - intros Hk. exists k. split; [exact Hk | apply String.eqb_refl].
  - intros (x & Hx & Hkx). apply String.eqb_eq in Hkx. subst. exact Hx.
Qed.

Lemma initialize_matrix_cells self a b :
  List.NoDup (dict_keys (layers self)) ->
  let m := synchronization_matrix (_initialize_synchronization_matrix self) in
  (dict_mem (layers self) a = true ->
   cell m a b = if bool_decide (a <> b) && dict_mem (layers self) b then Some 0%Q else None)
  /\ (dict_mem (layers self) a = false -> m !! a = synchronization_matrix self !! a).
Proof.
  intros Hnd m. subst m. unfold _initialize_synchronization_matrix.
  cbn [synchronization_matrix set_synchronization_matrix]. split.
  - intros Ha. apply dict_mem_keys in Ha. apply In_nth_error in Ha as [i Hi].
    unfold cell. rewrite (matrix_fold_row _ _ a Hnd i 0 _ Hi). cbn [Nat.add].
    rewrite (zero_row_lookup _ i a b Hnd Hi), dict_mem_existsb. reflexivity.
  - intros Ha. apply matrix_fold_other. intros Hin. apply dict_mem_keys in Hin. congruence.
Qed.

End WithManager.

End MatrixFacts.

Module MatrixSpec.

Import Hoare Layer Core SpecWords LayerNotions CoreNotions RunNotions Status.
Import PyFacts LayerFacts CoreFacts CoreLoops RoundFacts InitFacts MatrixFacts.

Section WithManager.

Context `{LayerLogic} {Mgr : Type} `{!DatabaseManager Mgr LearningData}.

Implicit Types (self s : ThinkingCore Mgr).

(** X7. [_initialize_synchronization_matrix] on a core with distinct layer
    names: the row of a registered layer holds [0.0] for every other
    registered layer and no entry for itself or for an unknown name; rows
    of other names are left as they were. On a core as constructed the
    cell of [a] and [b] is [0.0] exactly when both are layer names and
    differ. *)
Theorem initialize_synchronization_matrix_cells self (a b : string) :
  List.NoDup (dict_keys (layers self)) ->
  let m := synchronization_matrix (_initialize_synchronization_matrix self) in
  (dict_mem (layers self) a = true ->
   cell m a b = if bool_decide (a <> b) && dict_mem (layers self) b then Some 0%Q else None)
  /\ (dict_mem (layers self) a = false -> m !! a = synchronization_matrix self !! a)
  /\ forall name (mgr : Mgr),
       cell (synchronization_matrix (new_ThinkingCore name (Returned mgr))) a b
       = if in_names a && in_names b && bool_decide (a <> b) then Some 0%Q else None.
Proof.
  intros Hnd m. destruct (initialize_matrix_cells self a b Hnd) as [Hin Hout].
  split; [exact Hin|]. split; [exact Hout|].
  intros name mgr.
  set (before := set_database_manager (Some mgr)
                   (fold_left
                      (fun s layer_type =>
                         set_layers (dict_set (layers s) (value layer_type)
                                       (new_ThinkingLayer layer_type)) s)
                      all_layer_types
                      {| core_name := name; layers := []; database_manager := None;
                         synchronization_matrix := ∅;
                         core_statistics :=
                           {| stats_total_processed := 0; successful_processing := 0;
                              average_sync_level := 0 |} |})).
  change (new_ThinkingCore name (Returned mgr)) with (_initialize_synchronization_matrix before).
  assert (Hkeys : dict_keys (layers before) = layer_names) by reflexivity.
  assert (Hnd' : List.NoDup (dict_keys (layers before))).
  { rewrite Hkeys. repeat constructor; cbn; intuition discriminate. }
  assert (Hmem : forall k, dict_mem (layers before) k = in_names k).
  { intros k. rewrite dict_mem_existsb, Hkeys. reflexivity. }
  destruct (initialize_matrix_cells before a b Hnd') as [Hin' Hout'].
  destruct (in_names a) eqn:Ea.
  - rewrite Hin' by (rewrite Hmem; exact Ea). rewrite Hmem. cbn [andb].
    rewrite andb_comm. reflexivity.
  - cbn [andb]. unfold cell. rewrite Hout' by (rewrite Hmem; exact Ea). reflexivity.
Qed.

End WithManager.

End MatrixSpec.

Module IntegrationSpec.

Import Hoare Layer Core SpecWords LayerNotions CoreNotions RunNotions Status.
Import PyFacts LayerFacts CoreFacts CoreLoops RoundFacts InitFacts LayerRunFacts.
Import StatisticsFacts TargetedFacts.

Lemma py_sum_bounds (lo hi : Q) (l : list Q) :
  (forall c, In c l -> (lo <= c)%Q /\ (c <= hi)%Q) ->
  (lo * inject_Z (Z.of_nat (length l)) <= py_sum l)%Q
  /\ (py_sum l <= hi * inject_Z (Z.of_nat (length l)))%Q.
Proof.
  induction l as [|c l IH]; intros Hall.
  - unfold py_sum. cbn. split; ring_simplify; apply Qle_refl.
  - destruct (Hall c (or_introl eq_refl)) as [Hlo Hhi].
    destruct IH as [IHlo IHhi]; [intros c' Hc'; apply Hall; right; exact Hc'|].
    assert (Hlen : (inject_Z (Z.of_nat (length (c :: l)))
                    == 1 + inject_Z (Z.of_nat (length l)))%Q).
    { cbn [length]. rewrite Nat2Z.inj_succ, <- Z.add_1_l, inject_Z_plus. reflexivity. }
    rewrite py_sum_cons, Hlen. split.
    + assert (Heq : (lo * (1 + inject_Z (Z.of_nat (length l)))
                     == lo + lo * inject_Z (Z.of_nat (length l)))%Q) by ring.
      rewrite Heq. apply Qplus_le_compat; assumption.
    + assert (Heq : (hi * (1 + inject_Z (Z.of_nat (length l)))
                     == hi + hi * inject_Z (Z.of_nat (length l)))%Q) by ring.
      rewrite Heq. apply Qplus_le_compat; assumption.
Qed.

Section WithManager.

Context `{LayerLogic} {Mgr : Type} `{!DatabaseManager Mgr LearningData}.

Implicit Types (self s : ThinkingCore Mgr).

Lemma collect_confidences_length (results : dict LayerResult) :
  length (collect_confidences results) <= length (List.filter no_error (dict_values results))
  /\ length (collect_themes results) <= length (List.filter no_error (dict_values results)).
Proof.
  unfold collect_confidences, collect_themes.
  induction (dict_values results) as [|r rs [IH1 IH2]]; [split; reflexivity|].
  cbn [flat_map List.filter]. destruct (no_error r); [|split; assumption].
  rewrite !List.length_app. destruct (get_specialized r); cbn [length]; split; lia.
Qed.

(** X8. [_integrate_layer_results] counts one layer per result and no
    more successful layers than that; the average confidence is [0.0] when
    no result carries one and lies between the least and the greatest
    confidence otherwise; the dominant themes are the themes of the results
    without repetition. *)
Theorem integrate_layer_results_bounds (results : dict LayerResult) (lo hi : Q) :
  (forall c, In c (collect_confidences results) -> (lo <= c)%Q /\ (c <= hi)%Q) ->
  let report := _integrate_layer_results results in
  total_layers report = length results
  /\ successful_layers report <= total_layers report
  /\ length (collect_confidences results) <= successful_layers report
  /\ (collect_confidences results = [] -> average_confidence report = 0%Q)
  /\ (collect_confidences results <> [] ->
      (lo <= average_confidence report)%Q /\ (average_confidence report <= hi)%Q)
  /\ List.NoDup (dominant_themes report)
  /\ (forall theme, In theme (dominant_themes report) <-> In theme (collect_themes results))
  /\ length (dominant_themes report) <= successful_layers report.
Proof.
  intros Hall report. subst report. unfold _integrate_layer_results.
  cbn [total_layers successful_layers average_confidence dominant_themes].
  destruct (collect_confidences_length results) as [Hconf Hthemes].
  split; [reflexivity|]. split.
  { etransitivity; [apply List.filter_length_le|]. unfold dict_values.
    rewrite List.length_map. reflexivity. }
  split; [exact Hconf|]. split; [intros ->; reflexivity|]. split.
  { intros Hne. destruct (collect_confidences results) as [|c l] eqn:E; [contradiction|].
    destruct (py_sum_bounds lo hi (c :: l) Hall) as [Hlo Hhi].
    assert (Hpos : (0 < inject_Z (Z.of_nat (length (c :: l))))%Q).
    { unfold Qlt. cbn. lia. }
    split.
    - apply Qle_shift_div_l; assumption.
    - apply Qle_shift_div_r; assumption. }
  split; [apply NoDup_ListNoDup, NoDup_remove_dups|]. split.
  { intros theme. rewrite <- !list_elem_of_In. apply elem_of_remove_dups. }
  etransitivity; [|exact Hthemes].
  apply NoDup_incl_length.
  - apply NoDup_ListNoDup, NoDup_remove_dups.
  - intros theme. rewrite <- !list_elem_of_In. apply elem_of_remove_dups.
Qed.

Lemma dict_keys_set_in {V} (d : dict V) k v k' :
  In k' (dict_keys (dict_set d k v)) <-> k' = k \/ In k' (dict_keys d).
Proof.
  rewrite <- !dict_mem_keys. unfold dict_mem. rewrite dict_get_set.
  destruct (String.eqb k k') eqn:E.
  - apply String.eqb_eq in E. subst. intuition.
  - apply String.eqb_neq in E. destruct (dict_get d k'); intuition congruence.
Qed.

Lemma dict_keys_set_nodup {V} (d : dict V) k v :
  List.NoDup (dict_keys d) -> List.NoDup (dict_keys (dict_set d k v)).
Proof.
  unfold dict_keys. induction d as [|[k0 v0] d IH]; cbn.
  - intros _. repeat constructor. intros [].
  - intros Hnd. apply NoDup_cons_iff in Hnd as [Hk0 Hnd].
    destruct (String.eqb k0 k) eqn:E; cbn.
    + apply String.eqb_eq in E. subst k0. constructor; assumption.
    + apply String.eqb_neq in E. constructor; [|apply IH, Hnd].
      intros Hin. apply (dict_keys_set_in d k v k0) in Hin as [Heq|Hin]; [congruence|contradiction].
Qed.

Lemma expected_results_nodup self (input_data : Input) active_layers :
  forall results,
    List.NoDup (dict_keys results) ->
    List.NoDup (dict_keys (expected_results self input_data active_layers results)).
Proof.
  induction active_layers as [|layer_name rest IH]; intros results Hnd; [exact Hnd|].
  rewrite expected_results_cons. apply IH.
  destruct (dict_get (layers self) layer_name); [apply dict_keys_set_nodup|]; exact Hnd.
Qed.

Lemma dict_keys_set_ext {V} (d d' : dict V) k v v' :
  dict_keys d = dict_keys d' -> dict_keys (dict_set d k v) = dict_keys (dict_set d' k v').
Proof.
  unfold dict_keys. revert d'. induction d as [|[k0 v0] d IH]; intros [|[k1 v1] d']; cbn;
    try discriminate; [reflexivity|].
  intros [= -> Hrest]. destruct (String.eqb k1 k); cbn; f_equal; auto.
Qed.

Lemma expected_results_keys self (input1 input2 : Input) active_layers :
  forall results1 results2,
    dict_keys results1 = dict_keys results2 ->
    dict_keys (expected_results self input1 active_layers results1)
    = dict_keys (expected_results self input2 active_layers results2).
Proof.
  induction active_layers as [|layer_name rest IH]; intros results1 results2 Hk; [exact Hk|].
  rewrite !expected_results_cons. apply IH.
  destruct (dict_get (layers self) layer_name); [apply dict_keys_set_ext|]; exact Hk.
Qed.

(** X9. The results of a round hold one entry for every selected name
    that is registered, whatever the order and the repetitions of the
    selection, and [total_layers] counts these names once. The
    cross-layer insights depend only on which of the four pairs of layers
    are selected, not on the input or on the outcome of the layers. *)
Theorem round_record_shape self (input_data : Input) (active_layers : list string) :
  let selected k := existsb (String.eqb k) active_layers && dict_mem (layers self) k in
  let results input := expected_results self input active_layers [] in
  let report input := _integrate_layer_results (results input) in
  List.NoDup (dict_keys (results input_data))
  /\ (forall k, dict_mem (results input_data) k = selected k)
  /\ total_layers (report input_data)
     = length (remove_dups (List.filter (fun k => dict_mem (layers self) k) active_layers))
  /\ cross_layer_insights (report input_data)
     = ((if selected "mathematical" && selected "physical"
         then ["mathematical_physical_convergence"] else [])
        ++ (if selected "symbolic" && selected "visual"
            then ["symbolic_visual_harmony"] else [])
        ++ (if selected "linguistic" && selected "semantic"
            then ["linguistic_semantic_coherence"] else [])
        ++ (if selected "logical" && selected "interpretive"
            then ["logical_interpretive_synthesis"] else []))%list
  /\ (forall other_input,
        dict_keys (results other_input) = dict_keys (results input_data)
        /\ cross_layer_insights (report other_input) = cross_layer_insights (report input_data)).
Proof.
  intros selected results report.
  assert (Hmem : forall input k, dict_mem (results input) k = selected k).
  { intros input k. subst results. cbn beta. unfold dict_mem at 1.
    rewrite expected_results_get. subst selected.
    cbn beta. unfold dict_mem. destruct (dict_get (layers self) k).
    - destruct (existsb (String.eqb k) active_layers); reflexivity.
    - rewrite andb_false_r. reflexivity. }
  assert (Hins : forall input,
    cross_layer_insights (report input)
    = ((if selected "mathematical" && selected "physical"
        then ["mathematical_physical_convergence"] else [])
       ++ (if selected "symbolic" && selected "visual"
           then ["symbolic_visual_harmony"] else [])
       ++ (if selected "linguistic" && selected "semantic"
           then ["linguistic_semantic_coherence"] else [])
       ++ (if selected "logical" && selected "interpretive"
           then ["logical_interpretive_synthesis"] else []))%list).
  { intros input. subst report. cbn beta.
    unfold _integrate_layer_results. cbn [cross_layer_insights].
    unfold _generate_cross_layer_insights. rewrite !Hmem. reflexivity. }
  assert (Hnd : forall input, List.NoDup (dict_keys (results input))).
  { intros input. apply expected_results_nodup. constructor. }
  split; [apply Hnd|]. split; [apply Hmem|]. split.
  { subst report. cbn beta. unfold _integrate_layer_results. cbn [total_layers].
    transitivity (length (dict_keys (results input_data)));
      [unfold dict_keys; symmetry; apply List.length_map|].
    apply Permutation_length, Permutation.NoDup_Permutation.
    - apply Hnd.
    - apply NoDup_ListNoDup, NoDup_remove_dups.
    - intros k. rewrite <- dict_mem_keys, Hmem.
      rewrite <- (list_elem_of_In (remove_dups _)), elem_of_remove_dups, list_elem_of_In.
      rewrite filter_In. subst selected. cbn beta.
      rewrite andb_true_iff, existsb_exists. split.
      + intros [(x & Hx & Hkx) Hk]. apply String.eqb_eq in Hkx. subst x. auto.
      + intros [Hin Hk]. split; [|exact Hk]. exists k. split; [exact Hin|apply String.eqb_refl]. }
  split; [apply Hins|].
  intros other. split; [|rewrite !Hins; reflexivity].
  subst results. cbn beta. apply expected_results_keys. reflexivity.
Qed.

End WithManager.

End IntegrationSpec.

(** ** Helpers of the layers: properties X10 to X13 *)

Module NumberSpec.

Import Text Numbers.

Lemma in_py_range a b i : In i (py_range a b) <-> (a <= i < b)%Z.
Proof.
  unfold py_range. rewrite in_map_iff. split.
  - intros (k & <- & Hk). apply in_seq in Hk. lia.
  - intros Hi. exists (Z.to_nat (i - a)). split; [lia|]. apply in_seq. lia.
Qed.

Lemma no_divisor_spec n candidates :
  no_divisor n candidates = true <-> forall i, In i candidates -> (n mod i <> 0)%Z.
Proof.
  induction candidates as [|i rest IH]; cbn [no_divisor].
  - split; [intros _ i []|reflexivity].
  - destruct (Z.eqb_spec (n mod i) 0) as [Hz|Hnz].
    + split; [discriminate|]. intros Hall. exfalso. apply (Hall i); [left; reflexivity|exact Hz].
    + rewrite IH. split.
      * intros Hall j [<-|Hj]; [exact Hnz|apply Hall, Hj].
      * intros Hall j Hj. apply Hall. right. exact Hj.
Qed.

(** Trial division up to a bound between the integer square root and
    [n - 1] decides primality. *)
Lemma trial_division_prime (n r : Z) :
  (2 <= n)%Z -> (Z.sqrt n <= r < n)%Z ->
  no_divisor n (py_range 2 (r + 1)) = true <-> Z.prime n.
Proof.
  intros Hn Hr. rewrite no_divisor_spec. unfold Z.prime. split.
  - intros Hall. split; [lia|]. intros d Hd [q Hq].
    assert (Hqpos : (1 < q < n)%Z) by nia.
    destruct (Z.le_gt_cases d q) as [Hdq|Hqd].
    + apply (Hall d).
      * apply in_py_range. split; [lia|].
        assert (d <= Z.sqrt n)%Z by (apply Z.sqrt_le_square; nia). lia.
      * subst n. apply Z_mod_mult.
    + apply (Hall q).
      * apply in_py_range. split; [lia|].
        assert (q <= Z.sqrt n)%Z by (apply Z.sqrt_le_square; nia). lia.
      * subst n. rewrite Z.mul_comm. apply Z_mod_mult.
  - intros [_ Hnone] i Hi Hmod. apply in_py_range in Hi.
    apply (Hnone i); [lia|]. apply Z.mod_divide; [lia|exact Hmod].
Qed.

Section WithMath.

Context `{PyMath}.

(** X10. [_is_prime] returns [False] below 2. From 2 on it tells whether
    [n] is prime, provided the truncated square root it computes is at
    least the integer square root and less than [n]; an exception of
    [math.sqrt] leaves the method. *)
Theorem is_prime_correct (n : Z) :
  ((n < 2)%Z -> _is_prime n = Returned false /\ ~ Z.prime n)
  /\ ((2 <= n)%Z ->
      forall r, sqrt_int n = Returned r -> (Z.sqrt n <= r < n)%Z ->
      exists b, _is_prime n = Returned b /\ (b = true <-> Z.prime n))
  /\ ((2 <= n)%Z -> forall e, sqrt_int n = Raised e -> _is_prime n = Raised e).
Proof.
  unfold _is_prime. split; [|split].
  - intros Hn. destruct (Z.ltb_spec n 2) as [_|Hge]; [|lia]. split; [reflexivity|].
    intros [Hgt _]. lia.
  - intros Hn r Hr Hbounds. destruct (Z.ltb_spec n 2) as [Hlt|_]; [lia|]. rewrite Hr.
    eexists. split; [reflexivity|]. apply trial_division_prime; assumption.
  - intros Hn e He. destruct (Z.ltb_spec n 2) as [Hlt|_]; [lia|]. rewrite He. reflexivity.
Qed.

Context `{PyUnicode}.

(** X11. [_mathematical_processing] of an [int]: unless [math.sqrt]
    raises, the answer is a numerical analysis with confidence [0.9] whose
    properties give the value, its sign, its parity and, under the
    condition of X10, its primality ([False] up to 1). When [math.sqrt]
    raises, which takes [n > 1], the answer is the error record with
    confidence [0.1]. *)
Theorem mathematical_processing_of_int (n : Z) :
  match _mathematical_processing (InNumber (PyInt n)) with
  | numerical_analysis p =>
      number_value p = PyInt n
      /\ is_positive p = bool_decide (0 < n)%Z
      /\ is_zero p = bool_decide (n = 0)%Z
      /\ is_negative p = bool_decide (n < 0)%Z
      /\ is_even p = Some (Z.even n)
      /\ ((n <= 1)%Z -> is_prime p = Some false)
      /\ (forall r, sqrt_int n = Returned r -> (Z.sqrt n <= r < n)%Z ->
            exists b, is_prime p = Some b /\ (b = true <-> Z.prime n))
  | mathematical_error => (1 < n)%Z /\ exists e, sqrt_int n = Raised e
  | _ => False
  end
  /\ math_confidence (_mathematical_processing (InNumber (PyInt n)))
     = (if (1 <? n)%Z
        then match sqrt_int n with Returned _ => 0.9%Q | Raised _ => 0.1%Q end
        else 0.9%Q).
Proof.
  unfold _mathematical_processing, _analyze_number_properties, _is_prime.
  assert (Heven : (n mod 2 =? 0)%Z = Z.even n).
  { rewrite Zeven_mod. reflexivity. }
  assert (Hsigns : (0 <? n)%Z = bool_decide (0 < n)%Z
                   /\ (n =? 0)%Z = bool_decide (n = 0)%Z
                   /\ (n <? 0)%Z = bool_decide (n < 0)%Z).
  { split; [|split].
    - destruct (Z.ltb_spec 0 n); [rewrite bool_decide_eq_true_2|rewrite bool_decide_eq_false_2];
        auto; lia.
    - destruct (Z.eqb_spec n 0); [rewrite bool_decide_eq_true_2|rewrite bool_decide_eq_false_2];
        auto.
    - destruct (Z.ltb_spec n 0); [rewrite bool_decide_eq_true_2|rewrite bool_decide_eq_false_2];
        auto; lia. }
  destruct Hsigns as (Hpos & Hzero & Hneg).
  destruct (Z.ltb_spec 1 n) as [Hgt|Hle].
  - destruct (Z.ltb_spec n 2) as [Hlt|_]; [lia|].
    destruct (sqrt_int n) as [r|e] eqn:Hr.
    + split; [|reflexivity]. cbn [number_value is_positive is_zero is_negative is_even is_prime].
      rewrite Heven. split; [reflexivity|]. split; [exact Hpos|]. split; [exact Hzero|].
      split; [exact Hneg|]. split; [reflexivity|]. split; [lia|].
      intros r' [= <-] Hbounds. eexists. split; [reflexivity|].
      apply trial_division_prime; [lia|exact Hbounds].
    + split; [|reflexivity]. split; [exact Hgt|]. eauto.
  - split; [|reflexivity]. cbn [number_value is_positive is_zero is_negative is_even is_prime].
    rewrite Heven. split; [reflexivity|]. split; [exact Hpos|]. split; [exact Hzero|].
    split; [exact Hneg|]. split; [reflexivity|]. split; [reflexivity|].
    intros r _ Hbounds. exists false. split; [reflexivity|]. split; [discriminate|].
    intros [Hp _]. lia.
Qed.

End WithMath.

End NumberSpec.

Module TextFacts.

Import Text.

Lemma split_from_words s :
  forall word,
    Forall (fun c => isspace c = false) word ->
    Forall (fun w => w <> [] /\ Forall (fun c => isspace c = false) w) (split_from word s).
Proof.
  induction s as [|c s IH]; intros word Hword; cbn [split_from].
  - destruct word as [|c0 word]; [constructor|]. constructor; [|constructor]. split.
    + intros Hnil. apply (f_equal (@length _)) in Hnil. rewrite length_rev in Hnil. discriminate.
    + apply List.Forall_rev. exact Hword.
  - destruct (isspace c) eqn:Ec.
    + destruct word as [|c0 word]; [apply IH; constructor|].
      constructor; [|apply IH; constructor]. split.
      * intros Hnil. apply (f_equal (@length _)) in Hnil. rewrite length_rev in Hnil. discriminate.
      * apply List.Forall_rev. exact Hword.
    + apply IH. constructor; assumption.
Qed.

Lemma split_from_first s :
  forall word,
    match split_from word s with
    | [] => word = [] /\ forallb isspace s = true
    | w :: _ =>
        exists spaces rest,
          (rev word ++ s = spaces ++ w ++ rest)%list
          /\ forallb isspace spaces = true
          /\ (word <> [] -> spaces = [])
          /\ match rest with [] => True | c :: _ => isspace c = true end
    end.
Proof.
  induction s as [|c s IH]; intros word; cbn [split_from].
  - destruct word as [|c0 word]; [auto|].
    exists [], []. rewrite !app_nil_r. auto.
  - destruct (isspace c) eqn:Ec.
    + destruct word as [|c0 word].
      * specialize (IH []). destruct (split_from [] s) as [|w ws].
        { destruct IH as [_ Hs]. split; [reflexivity|]. cbn [forallb]. rewrite Ec. exact Hs. }
        destruct IH as (spaces & rest & Heq & Hsp & _ & Hrest). cbn [rev app] in Heq.
        exists (c :: spaces), rest. cbn [rev app forallb]. rewrite Heq, Ec.
        split; [reflexivity|]. split; [exact Hsp|]. split; [contradiction|exact Hrest].
      * exists [], (c :: s). cbn [app]. auto.
    + specialize (IH (c :: word)). destruct (split_from (c :: word) s) as [|w ws].
      { destruct IH as [Hnil _]. discriminate. }
      destruct IH as (spaces & rest & Heq & Hsp & Hword & Hrest).
      cbn [rev] in Heq. rewrite <- app_assoc in Heq. cbn [app] in Heq.
      exists spaces, rest. split; [exact Heq|]. split; [exact Hsp|].
      split; [|exact Hrest]. intros _. apply Hword. discriminate.
Qed.

End TextFacts.

Module TextSpec.

Import Text TextFacts.

Lemma contains_single c s : contains [c] s = true <-> In c s.
Proof.
  induction s as [|d s IH]; cbn [contains starts_with In].
  - split; [discriminate|intros []].
  - rewrite orb_true_iff, IH, andb_true_r, N.eqb_eq. intuition congruence.
Qed.

(** X12. [_detect_symbols] lists the known symbols that occur in the text
    in the order of the table, not of the text. The cultural context is
    mathematical as soon as one of the three mathematical symbols occurs,
    whatever else occurs. [_analyze_symbol_relationships] pairs every two
    detected symbols of one category once: with [k] mathematical symbols
    found there are [k (k - 1) / 2] relationships, all of strength [0.7]
    between two different mathematical symbols. *)
Theorem symbolic_analysis_spec (s : text) :
  let symbols := _detect_symbols s in
  let found literal := contains (utf8 literal) s in
  let k := length (List.filter found ["∞"; "∅"; "⊥"]) in
  map symbol symbols = map utf8 (List.filter found ["∞"; "∅"; "☯"; "⚛"; "🧬"; "⊥"])
  /\ _determine_cultural_context symbols
     = (if found "∞" || found "∅" || found "⊥" then "mathematical_context"
        else if found "☯" then "philosophical_context"
        else if found "⚛" then "scientific_context"
        else "general_context")
  /\ length (_analyze_symbol_relationships symbols) = k * (k - 1) / 2
  /\ Forall
       (fun r =>
          In (symbol1 r) (map utf8 ["∞"; "∅"; "⊥"])
          /\ In (symbol2 r) (map utf8 ["∞"; "∅"; "⊥"])
          /\ symbol1 r <> symbol2 r
          /\ relationship r = "same_category"
          /\ strength r = 0.7%Q)
       (_analyze_symbol_relationships symbols)
  /\ map utf8 ["∞"; "∅"; "☯"; "⚛"; "🧬"; "⊥"]
     = [[8734%N]; [8709%N]; [9775%N]; [9883%N]; [129516%N]; [8869%N]]
  /\ (forall c, contains [c] s = true <-> In c s).
Proof.
  intros symbols found k. subst symbols k. unfold _detect_symbols, symbol_map.
  cbn [flat_map fst snd List.filter map app].
  subst found. cbn beta.
  change (utf8 "∞") with [8734%N]. change (utf8 "∅") with [8709%N].
  change (utf8 "☯") with [9775%N]. change (utf8 "⚛") with [9883%N].
  change (utf8 "🧬") with [129516%N]. change (utf8 "⊥") with [8869%N].
  destruct (contains [8734%N] s), (contains [8709%N] s), (contains [9775%N] s),
    (contains [9883%N] s), (contains [129516%N] s), (contains [8869%N] s);
    (split; [vm_compute; reflexivity|]; split; [reflexivity|]; split; [reflexivity|];
     split; [|split; [reflexivity|intros c; apply contains_single]];
     cbv [_analyze_symbol_relationships flat_map app category symbol String.eqb Ascii.eqb
          Bool.eqb];
     repeat (apply Forall_cons;
             [cbv [symbol1 symbol2 relationship strength map In];
              repeat split;
              [repeat (first [left; reflexivity | right])
              |repeat (first [left; reflexivity | right])
              |discriminate]
             |]);
     apply Forall_nil).
Qed.

(** X13. The helpers built on [str.split()]: the words are non-empty and
    free of whitespace, and there is none exactly when the text is blank.
    The central concept is the first word, which stands in the text after
    leading whitespace and before whitespace or the end, and is
    ["unknown"] for a blank text. The related concepts are at most five
    words longer than three characters; the roots are the first three
    characters of each word of at least three. *)
Theorem split_helpers_spec (s : text) :
  let words := split s in
  let network := _build_semantic_networks s in
  let roots := _extract_arabic_roots s in
  Forall (fun w => w <> [] /\ Forall (fun c => isspace c = false) w) words
  /\ (words = [] <-> forallb isspace s = true)
  /\ match words with
     | [] => central_concept network = utf8 "unknown"
     | first :: _ =>
         central_concept network = first
         /\ exists spaces rest,
              (s = spaces ++ first ++ rest)%list
              /\ forallb isspace spaces = true
              /\ match rest with [] => True | c :: _ => isspace c = true end
     end
  /\ length (related_concepts network) <= 5
  /\ Forall (fun w => 3 < length w /\ In w words) (related_concepts network)
  /\ Forall (fun root => length root = 3 /\ exists w, In w words /\ root = firstn 3 w) roots
  /\ length roots = length (List.filter (fun w => (3 <=? length w)%nat) words).
Proof.
  intros words network roots.
  assert (Hwords : Forall (fun w => w <> [] /\ Forall (fun c => isspace c = false) w) words).
  { apply split_from_words. constructor. }
  pose proof (split_from_first s []) as Hfirst. fold (split s) in Hfirst. fold words in Hfirst.
  split; [exact Hwords|]. split.
  { destruct words as [|w ws] eqn:Ew.
    - split; [intros _; apply Hfirst|reflexivity].
    - split; [discriminate|]. intros Hblank. exfalso.
      destruct Hfirst as (spaces & rest & Heq & _ & _ & _). cbn [rev app] in Heq.
      apply Forall_cons_iff in Hwords as [[Hne Hsolid] _].
      destruct w as [|c w]; [contradiction|].
      apply Forall_cons_iff in Hsolid as [Hc _].
      rewrite forallb_forall in Hblank. rewrite (Hblank c) in Hc; [discriminate|].
      rewrite Heq. apply in_or_app. right. left. reflexivity. }
  split.
  { subst network. unfold _build_semantic_networks, _extract_central_concept.
    cbn [central_concept]. fold words. destruct words as [|w ws]; [reflexivity|].
    split; [reflexivity|]. destruct Hfirst as (spaces & rest & Heq & Hsp & _ & Hrest).
    exists spaces, rest. auto. }
  subst network roots. unfold _build_semantic_networks, _find_related_concepts,
    _extract_arabic_roots. cbn [related_concepts]. fold words.
  split; [apply firstn_le_length|]. split.
  { apply Forall_forall. intros w Hw. apply SqlFacts.firstn_in in Hw.
    apply in_flat_map in Hw as (w' & Hin & Hw).
    destruct (Nat.ltb_spec 3 (length w')) as [Hlen|_]; [|destruct Hw].
    destruct Hw as [<-|[]]. auto. }
  split.
  { apply Forall_forall. intros root Hroot.
    apply in_flat_map in Hroot as (w & Hin & Hroot).
    destruct (Nat.leb_spec 3 (length w)) as [Hlen|_]; [|destruct Hroot].
    destruct Hroot as [<-|[]]. split; [|eauto].
    rewrite length_firstn. lia. }
  clear. induction words as [|w ws IH]; [reflexivity|]. cbn [flat_map List.filter].
  destruct (3 <=? length w)%nat; cbn [app length]; [f_equal|]; exact IH.
Qed.

End TextSpec.

(** ** Stores and queries of the databases: properties X14 to X24 *)

Module LikeFacts.

Import Sql.

Lemma like_percent pattern s :
  like (String "%" pattern) s
  = (like pattern s
     || match s with
        | EmptyString => false
        | String _ s' => like (String "%" pattern) s'
        end).
Proof. destruct s; reflexivity. Qed.

Lemma like_percent_any s : like "%" s = true.
Proof.
  induction s as [|c s IH]; [reflexivity|].
  rewrite like_percent, IH. apply orb_true_r.
Qed.

Lemma like_percent_skip pattern a s :
  like (String "%" pattern) s = true -> like (String "%" pattern) (a ++ s) = true.
Proof.
  intros Hs. induction a as [|c a IH]; [exact Hs|].
  change (String c a ++ s) with (String c (a ++ s)).
  rewrite like_percent, IH. apply orb_true_r.
Qed.

Lemma like_literal query b : like (query ++ "%") (query ++ b) = true.
Proof.
  induction query as [|c query IH]; [apply like_percent_any|].
  change (String c query ++ "%") with (String c (query ++ "%")).
  change (String c query ++ b) with (String c (query ++ b)).
  destruct (Ascii.eqb c "%") eqn:Ec.
  - apply Ascii.eqb_eq in Ec. subst c. rewrite like_percent.
    apply orb_true_iff. right. rewrite like_percent, IH. reflexivity.
  - cbn [like]. rewrite Ec, Ascii.eqb_refl, orb_true_r, IH. reflexivity.
Qed.

(** A query that occurs in a text matches it. *)
Lemma like_contains query a b : like (contains_pattern query) (a ++ query ++ b) = true.
Proof.
  unfold contains_pattern. change ("%" ++ query ++ "%") with (String "%" (query ++ "%")).
  apply like_percent_skip.
  rewrite like_percent, like_literal. reflexivity.
Qed.

End LikeFacts.

Module BaseQueryFacts.

Import Sql SqlStatements Databases BaseQueries StoreRuns SqlFacts.

Lemma pattern_before_spec a b :
  pattern_before a b = true <-> (confidence b <= confidence a)%Q.
Proof.
  unfold pattern_before. destruct (confidence a ?= confidence b)%Q eqn:E.
  - apply Qeq_alt in E. rewrite E. split; [intros _; apply Qle_refl|reflexivity].
  - apply Qlt_alt in E. split; [discriminate|]. intros Hle. exfalso.
    apply (Qlt_not_le _ _ E Hle).
  - apply Qgt_alt in E. split; [intros _; apply Qlt_le_weak, E|reflexivity].
Qed.

Lemma pattern_before_total a b : pattern_before a b = false -> pattern_before b a = true.
Proof.
  intros Hf. apply pattern_before_spec.
  destruct (Qlt_le_dec (confidence a) (confidence b)) as [Hlt|Hle]; [apply Qlt_le_weak, Hlt|].
  apply pattern_before_spec in Hle. congruence.
Qed.

Lemma pattern_before_trans a b c :
  pattern_before a b = true -> pattern_before b c = true -> pattern_before a c = true.
Proof. rewrite !pattern_before_spec. intros H1 H2. eapply Qle_trans; eauto. Qed.

Section Tables.

Context {Row : Type} (key : Row -> string).

Lemma in_insert_or_replace (mk : Z -> Row) (t : Table Row) row :
  In row (rows (insert_or_replace key mk t))
  <-> row = mk (sequence t + 1)%Z
      \/ (In row (rows t) /\ key row <> key (mk (sequence t + 1)%Z)).
Proof.
  unfold insert_or_replace. cbv zeta. cbn [rows].
  rewrite in_app_iff, filter_In. cbn [In]. unfold conflicts.
  split.
  - intros [[Hin Hk]|[<-|[]]]; [right|left; reflexivity].
    split; [exact Hin|]. apply negb_true_iff, String.eqb_neq in Hk. exact Hk.
  - intros [->|[Hin Hk]]; [right; left; reflexivity|left].
    split; [exact Hin|]. apply negb_true_iff, String.eqb_neq. exact Hk.
Qed.

Lemma keys_insert_or_replace (mk : Z -> Row) (t : Table Row) :
  map key (rows (insert_or_replace key mk t))
  = (List.filter (fun k => negb (String.eqb k (key (mk (sequence t + 1)%Z))))
       (map key (rows t))
     ++ [key (mk (sequence t + 1)%Z)])%list.
Proof.
  unfold insert_or_replace. cbv zeta. cbn [rows]. rewrite map_app. cbn [map]. f_equal.
  induction (rows t) as [|r l IH]; [reflexivity|]. cbn [List.filter map].
  unfold conflicts at 1. destruct (String.eqb (key r) _); cbn [negb map]; [|f_equal]; exact IH.
Qed.

Lemma keys_insert_or_replace_nodup (mk : Z -> Row) (t : Table Row) :
  List.NoDup (map key (rows t)) ->
  List.NoDup (map key (rows (insert_or_replace key mk t))).
Proof.
  intros Hnd. rewrite keys_insert_or_replace. apply NoDup_app.
  - apply NoDup_filter, Hnd.
  - repeat constructor. intros [].
  - intros k Hk [<-|[]]. apply filter_In in Hk as [_ Hk].
    rewrite String.eqb_refl in Hk. discriminate.
Qed.

Lemma keys_insert_or_replace_in (mk : Z -> Row) (t : Table Row) k :
  In k (map key (rows (insert_or_replace key mk t)))
  <-> k = key (mk (sequence t + 1)%Z) \/ In k (map key (rows t)).
Proof.
  rewrite keys_insert_or_replace, in_app_iff, filter_In. cbn [In]. split.
  - intros [[Hin _]|[<-|[]]]; auto.
  - intros [->|Hin]; [right; left; reflexivity|].
    destruct (String.eqb k (key (mk (sequence t + 1)%Z))) eqn:E.
    + apply String.eqb_eq in E. right. left. symmetry. exact E.
    + left. split; [exact Hin|reflexivity].
Qed.

End Tables.

Lemma average_success_spec sessions :
  (average_success sessions * inject_Z (Z.of_nat (length sessions))
   == inject_Z (Z.of_nat (length (List.filter success sessions))))%Q
  /\ (0 <= average_success sessions)%Q /\ (average_success sessions <= 1)%Q.
Proof.
  destruct sessions as [|s sessions].
  - cbn. repeat split; unfold Qle; cbn; lia.
  - assert (Hrate : (average_success (s :: sessions)
                     * inject_Z (Z.of_nat (length (s :: sessions)))
                     == inject_Z (Z.of_nat (length (List.filter success (s :: sessions)))))%Q).
    { unfold average_success. cbn [length]. field. apply LayerRunFacts.inject_nat_pos. }
    split; [exact Hrate|].
    apply (LayerRunFacts.scaled_rate_bounds _ (length sessions)
             (length (List.filter success (s :: sessions)))); [exact Hrate|].
    apply (List.filter_length_le success (s :: sessions)).
Qed.

Section WithJson.

Context `{JsonCodec}.

Lemma run_logs_snoc calls c (db : BaseSpecializedDatabase) :
  run_logs (calls ++ [c]) db = log_call c (run_logs calls db).
Proof. unfold run_logs. rewrite fold_left_app. reflexivity. Qed.

Lemma run_logs_sessions calls :
  forall db,
    List.NoDup (map session_id (rows (tbl_learning_sessions db))) ->
    let db' := run_logs calls db in
    learning_sessions db' = learning_sessions db + length calls
    /\ List.NoDup (map session_id (rows (tbl_learning_sessions db')))
    /\ (forall sid, In sid (map session_id (rows (tbl_learning_sessions db')))
                    <-> In sid (map call_session_id calls)
                        \/ In sid (map session_id (rows (tbl_learning_sessions db))))
    /\ tbl_discovered_patterns db' = tbl_discovered_patterns db
    /\ tbl_error_corrections db' = tbl_error_corrections db
    /\ db_name db' = db_name db /\ db_layer_type db' = db_layer_type db.
Proof.
  induction calls as [|c calls IH] using rev_ind; intros db Hnd.
  - cbn. rewrite Nat.add_0_r. repeat split; auto. intros [[]|Hin]; exact Hin.
  - cbv zeta. rewrite run_logs_snoc.
    destruct (IH db Hnd) as (Hcount & Hnd' & Hin & Hp & He & Hn & Ht).
    unfold log_call, log_learning_session.
    cbn [learning_sessions tbl_learning_sessions tbl_discovered_patterns tbl_error_corrections
         db_name db_layer_type].
    split; [rewrite Hcount, List.length_app; cbn; lia|].
    split; [apply keys_insert_or_replace_nodup, Hnd'|].
    split; [|auto].
    intros sid. rewrite keys_insert_or_replace_in, Hin, map_app, in_app_iff. cbn [session_id map In].
    intuition.
Qed.

End WithJson.

End BaseQueryFacts.

Module BaseQuerySpec.

Import Sql SqlStatements Databases BaseQueries StoreRuns SqlFacts BaseQueryFacts.

Section WithJson.

Context `{JsonCodec}.

(** X14. A pattern stored with [store_pattern] is returned by
    [get_patterns_by_type] for its type. For any type, the selection after
    the store is the stored row, when the type is its own, together with
    the rows selected before that have another [pattern_id]. The selection
    is ordered by descending confidence and holds rows of the requested
    type only. *)
Theorem stored_pattern_is_listed (db : BaseSpecializedDatabase) (pid type : string)
  (payload : Json) (c : Q) (now : string) (other_type : string) :
  let db' := store_pattern pid type payload c now db in
  let row :=
    {| dp_id := sequence (tbl_discovered_patterns db) + 1;
       pattern_id := pid;
       pattern_type := type;
       pattern_data := json_dumps payload;
       confidence := c;
       discovery_date := now;
       usage_count := 0 |} in
  In (pattern_record row) (get_patterns_by_type type db')
  /\ (forall row',
        In row' (select_patterns other_type db')
        <-> (row' = row /\ other_type = type)
            \/ (In row' (select_patterns other_type db) /\ pattern_id row' <> pid))
  /\ StronglySorted (fun a b => (confidence b <= confidence a)%Q)
       (select_patterns other_type db')
  /\ Forall (fun row' => pattern_type row' = other_type) (select_patterns other_type db').
Proof.
  intros db' row.
  assert (Hin : forall ty row',
            In row' (select_patterns ty db')
            <-> (row' = row /\ ty = type)
                \/ (In row' (select_patterns ty db) /\ pattern_id row' <> pid)).
  { intros ty row'. unfold select_patterns.
    rewrite !(order_by_in pattern_before), !filter_In.
    subst db'. unfold store_pattern. cbn [tbl_discovered_patterns].
    rewrite in_insert_or_replace. cbn [pattern_id pattern_type]. fold row.
    rewrite String.eqb_eq. split.
    - intros [[->|[Hold Hk]] Hty]; [left; split; [reflexivity|]; symmetry; exact Hty|].
      right. auto.
    - intros [[-> ->]|[[Hold Hty] Hk]]; [split; [left|]; reflexivity|].
      split; [right; split; assumption|exact Hty]. }
  split.
  { unfold get_patterns_by_type. apply in_map. apply Hin. left. split; reflexivity. }
  split; [apply Hin|]. split.
  { unfold select_patterns.
    eapply ManagerSpec.sorted_weaken;
      [|apply (order_by_sorted pattern_before pattern_before_total pattern_before_trans)].
    intros a b. apply pattern_before_spec. }
  apply Forall_forall. intros row' Hrow'. unfold select_patterns in Hrow'.
  apply (order_by_in pattern_before), filter_In in Hrow' as [_ Hty].
  apply String.eqb_eq in Hty. exact Hty.
Qed.

(** X15. [get_database_stats] after any [log_learning_session] calls on a
    new database: the counter [learning_sessions] is the number of calls,
    while [total_learning_sessions] is the number of different session
    identifiers, which is never more; the table holds each identifier
    once. [success_rate] is the share of successful rows, between 0 and 1;
    patterns and corrections are none, and name and layer type are those
    of the database. *)
Theorem database_stats_after_logs (name : string) (layer_type : ThinkingLayerType)
  (calls : list LogCall) :
  let db := run_logs calls (_create_base_tables name layer_type None) in
  let stats := get_database_stats db in
  let sessions := rows (tbl_learning_sessions db) in
  learning_sessions db = length calls
  /\ List.NoDup (map session_id sessions)
  /\ (forall sid, In sid (map session_id sessions) <-> In sid (map call_session_id calls))
  /\ total_learning_sessions stats = length (remove_dups (map call_session_id calls))
  /\ total_learning_sessions stats <= learning_sessions db
  /\ (stats_success_rate stats * inject_Z (Z.of_nat (total_learning_sessions stats))
      == inject_Z (Z.of_nat (length (List.filter success sessions))))%Q
  /\ (0 <= stats_success_rate stats)%Q
  /\ (stats_success_rate stats <= 1)%Q
  /\ total_patterns stats = 0
  /\ total_corrections stats = 0
  /\ database_name stats = name
  /\ stats_layer_type stats = value layer_type.
Proof.
  intros db stats sessions.
  destruct (run_logs_sessions calls (_create_base_tables name layer_type None))
    as (Hcount & Hnd & Hin & Hp & He & Hn & Ht); [constructor|].
  fold db in Hcount, Hnd, Hin, Hp, He, Hn, Ht. fold sessions in Hnd, Hin.
  cbn [_create_base_tables learning_sessions Nat.add] in Hcount.
  assert (Hin' : forall sid, In sid (map session_id sessions)
                             <-> In sid (map call_session_id calls)).
  { intros sid. rewrite Hin. cbn. tauto. }
  assert (Htotal : total_learning_sessions stats
                   = length (remove_dups (map call_session_id calls))).
  { subst stats. unfold get_database_stats, count. cbn [total_learning_sessions].
    fold sessions. rewrite <- (List.length_map session_id sessions).
    apply Permutation_length, Permutation.NoDup_Permutation.
    - exact Hnd.
    - apply NoDup_ListNoDup, NoDup_remove_dups.
    - intros sid. rewrite Hin'.
      rewrite <- (list_elem_of_In (remove_dups _)), elem_of_remove_dups, list_elem_of_In.
      reflexivity. }
  destruct (average_success_spec sessions) as (Hrate & Hlo & Hhi).
  split; [exact Hcount|]. split; [exact Hnd|]. split; [exact Hin'|]. split; [exact Htotal|].
  split.
  { rewrite Htotal, Hcount. rewrite <- (List.length_map call_session_id calls).
    apply NoDup_incl_length; [apply NoDup_ListNoDup, NoDup_remove_dups|].
    intros sid. rewrite <- !list_elem_of_In. apply elem_of_remove_dups. }
  split; [exact Hrate|]. split; [exact Hlo|]. split; [exact Hhi|].
  subst stats. unfold get_database_stats, count.
  cbn [total_patterns total_corrections database_name stats_layer_type].
  rewrite Hp, He, Hn, Ht. repeat split.
Qed.

End WithJson.

End BaseQuerySpec.

Module MathematicalStoreFacts.

Import Sql SqlStatements Databases BaseQueries StoreRuns MathematicalStore.
Import SqlFacts StoreSpec BaseQueryFacts LikeFacts.

Section Tables.

Context {Row : Type} (key : Row -> string).

Lemma insert_run column (mk : Z -> Row) (t : Table Row) :
  insert key column mk t
  = if existsb (conflicts key (key (mk (sequence t + 1)%Z))) (rows t)
    then (t, Raised ("UNIQUE constraint failed: " ++ column))
    else ({| rows := rows t ++ [mk (sequence t + 1)%Z]; sequence := sequence t + 1 |},
          Returned tt).
Proof. reflexivity. Qed.

Lemma fresh_key (mk : Z -> Row) (t : Table Row) :
  (forall row, In row (rows t) -> key row <> key (mk (sequence t + 1)%Z)) ->
  existsb (conflicts key (key (mk (sequence t + 1)%Z))) (rows t) = false.
Proof.
  intros Hfresh. apply not_true_is_false. intros Hex.
  apply existsb_exists in Hex as (row & Hin & Hk). unfold conflicts in Hk.
  apply String.eqb_eq in Hk. exact (Hfresh row Hin Hk).
Qed.

Lemma taken_key (mk : Z -> Row) (t : Table Row) row :
  In row (rows t) -> key row = key (mk (sequence t + 1)%Z) ->
  existsb (conflicts key (key (mk (sequence t + 1)%Z))) (rows t) = true.
Proof.
  intros Hin Hk. apply existsb_exists. exists row. split; [exact Hin|].
  unfold conflicts. apply String.eqb_eq. exact Hk.
Qed.

End Tables.

Section WithJson.

Context `{JsonObjects}.

(** A failed store leaves the database as it was. *)
Lemma store_item_raised data r (db db1 : MathematicalDatabase) e :
  store_item data r db = (db1, Raised e) -> db1 = db.
Proof.
  assert (Hdb : forall db0 : MathematicalDatabase,
            {| base := base db0; equations := equations db0;
               mathematical_models := mathematical_models db0;
               mathematical_constants := mathematical_constants db0;
               applied_theories := applied_theories db0 |} = db0)
    by (intros []; reflexivity).
  unfold store_item. destruct data as [d|]; [|discriminate].
  destruct (data_equation d) as [[eqd|ty]|].
  - unfold _store_equation, bind, as_dict, ret, on_equations. rewrite insert_run.
    destruct (existsb _ _); [|discriminate]. intros [= <- _]. apply Hdb.
  - unfold _store_equation, bind, as_dict, raise. intros [= <- _]. reflexivity.
  - destruct (data_model d) as [[md|ty]|].
    + unfold _store_mathematical_model, bind, as_dict, ret, on_models. rewrite insert_run.
      destruct (existsb _ _); [|discriminate]. intros [= <- _]. apply Hdb.
    + unfold _store_mathematical_model, bind, as_dict, raise. intros [= <- _]. reflexivity.
    + destruct (data_constant d) as [[cd|ty]|].
      * unfold _store_constant, bind, as_dict, ret, modify. discriminate.
      * unfold _store_constant, bind, as_dict, raise. intros [= <- _]. reflexivity.
      * discriminate.
Qed.

(** A store touches neither the base tables nor the theories. *)
Lemma store_item_frame data r (db : MathematicalDatabase) :
  base (fst (store_item data r db)) = base db
  /\ applied_theories (fst (store_item data r db)) = applied_theories db.
Proof.
  unfold store_item. destruct data as [d|]; [|split; reflexivity].
  destruct (data_equation d) as [[eqd|ty]|].
  - unfold _store_equation, bind, as_dict, ret, on_equations.
    destruct (insert _ _ _ _) as [t out]. split; reflexivity.
  - split; reflexivity.
  - destruct (data_model d) as [[md|ty]|].
    + unfold _store_mathematical_model, bind, as_dict, ret, on_models.
      destruct (insert _ _ _ _) as [t out]. split; reflexivity.
    + split; reflexivity.
    + destruct (data_constant d) as [[cd|ty]|]; split; reflexivity.
Qed.

Lemma store_learning_run data source metadata r (db : MathematicalDatabase) :
  store_learning data source metadata r db
  = match store_item data r db with
    | (db1, Returned _) =>
        (on_base (log_learning_session (session_name r) source "mathematical_data" true
                    metadata (log_now r) (log_updated r)) db1,
         Returned tt)
    | (db1, Raised e) =>
        (on_base (log_learning_session (session_name r) source "mathematical_data" false
                    (Some (with_error (metadata_or_empty metadata) e))
                    (log_now r) (log_updated r)) db1,
         Returned tt)
    end.
Proof.
  unfold store_learning, try_except, bind, modify.
  destruct (store_item data r db) as [db1 [[]|e]]; reflexivity.
Qed.

End WithJson.

End MathematicalStoreFacts.

Module MathematicalStoreSpec.

Import Sql SqlStatements Databases BaseQueries StoreRuns MathematicalStore StoreNotions.
Import SqlFacts StoreSpec ManagerSpec BaseQueryFacts LikeFacts MathematicalStoreFacts.

Section WithJson.

Context `{JsonObjects}.

(** X16. [MathematicalDatabase.store_learning] never raises. Each call
    logs one session [math_learning_<uuid>] with the data type
    [mathematical_data], whose [success] tells whether the store went
    through and whose metadata carry the text of the exception when it did
    not; the counter of sessions grows by one. Patterns, corrections and
    theories are left alone, and a failed store leaves equations, models
    and constants as they were. *)
Theorem store_learning_logs_one_session (data : Data) (source : LearningSource)
  (metadata : option Json) (r : Readings) (db : MathematicalDatabase) :
  let outcome := snd (store_item data r db) in
  let ok := match outcome with Returned _ => true | Raised _ => false end in
  exists db',
    store_learning data source metadata r db = (db', Returned tt)
    /\ select_by_key session_id (session_name r) (tbl_learning_sessions (base db'))
       = [ {| ls_id := sequence (tbl_learning_sessions (base db)) + 1;
              session_id := session_name r;
              timestamp := log_now r;
              Databases.source := source_value source;
              data_type := "mathematical_data";
              success := ok;
              Databases.metadata :=
                json_dumps
                  match outcome with
                  | Returned _ => metadata_or_empty metadata
                  | Raised e => with_error (metadata_or_empty metadata) e
                  end |} ]
    /\ learning_sessions (base db') = S (learning_sessions (base db))
    /\ last_update (base db') = Some (log_updated r)
    /\ tbl_discovered_patterns (base db') = tbl_discovered_patterns (base db)
    /\ tbl_error_corrections (base db') = tbl_error_corrections (base db)
    /\ applied_theories db' = applied_theories db
    /\ equations db' = equations (fst (store_item data r db))
    /\ mathematical_models db' = mathematical_models (fst (store_item data r db))
    /\ mathematical_constants db' = mathematical_constants (fst (store_item data r db))
    /\ (ok = false ->
        equations db' = equations db
        /\ mathematical_models db' = mathematical_models db
        /\ mathematical_constants db' = mathematical_constants db).
Proof.
  intros outcome ok. rewrite store_learning_run.
  destruct (store_item_frame data r db) as [Hbase Hth].
  pose proof (store_item_raised data r db) as Hfail.
  subst ok outcome.
  destruct (store_item data r db) as [db1 [[]|e]]; cbn [fst snd] in *.
  - eexists. split; [reflexivity|].
    unfold on_base, log_learning_session.
    cbn [base equations mathematical_models mathematical_constants applied_theories
         tbl_learning_sessions tbl_discovered_patterns tbl_error_corrections
         learning_sessions last_update].
    rewrite Hbase. split.
    { rewrite select_insert_or_replace_same by reflexivity. reflexivity. }
    repeat split; try reflexivity; try exact Hth; discriminate.
  - specialize (Hfail db1 e eq_refl). subst db1. eexists. split; [reflexivity|].
    unfold on_base, log_learning_session.
    cbn [base equations mathematical_models mathematical_constants applied_theories
         tbl_learning_sessions tbl_discovered_patterns tbl_error_corrections
         learning_sessions last_update].
    split.
    { rewrite select_insert_or_replace_same by reflexivity. reflexivity. }
    repeat split; reflexivity.
Qed.

End WithJson.

End MathematicalStoreSpec.

Module RankingFacts.

Import Sql SqlFacts.

Section OrderBy.

Context {Row : Type} (before : Row -> Row -> bool).

Lemma insert_row_length x l : length (insert_row before x l) = S (length l).
Proof.
  induction l as [|y l IH]; [reflexivity|].
  cbn [insert_row]. destruct (before x y); cbn [length]; [reflexivity|].
  rewrite IH. reflexivity.
Qed.

Lemma order_by_length l : length (order_by before l) = length l.
Proof.
  induction l as [|x l IH]; [reflexivity|].
  change (order_by before (x :: l)) with (insert_row before x (order_by before l)).
  rewrite insert_row_length, IH. reflexivity.
Qed.

End OrderBy.

Lemma limit_all {A} n (l : list A) : (Z.of_nat (length l) <= n)%Z -> limit n l = l.
Proof.
  intros Hn. unfold limit. destruct (Z.ltb_spec n 0) as [Hneg|Hpos]; [reflexivity|].
  apply firstn_all2. lia.
Qed.

Lemma limit_all_or {A} n (l : list A) :
  (n < 0)%Z \/ (Z.of_nat (length l) <= n)%Z -> limit n l = l.
Proof.
  intros [Hn|Hn]; [|apply limit_all, Hn].
  unfold limit. destruct (Z.ltb_spec n 0) as [_|Hpos]; [reflexivity | lia].
Qed.

Lemma limit_length {A} n (l : list A) :
  (0 <= n)%Z -> length (limit n l) = Nat.min (Z.to_nat n) (length l).
Proof.
  intros Hn. unfold limit. destruct (Z.ltb_spec n 0) as [Hneg|_]; [lia|].
  apply List.length_firstn.
Qed.

Lemma py_slice_to_app {A} n (l l' : list A) :
  (Z.of_nat (length l) <= n)%Z -> forall z, In z l -> In z (py_slice_to n (l ++ l')).
Proof.
  intros Hn z Hz. unfold py_slice_to. destruct (Z.ltb_spec n 0) as [Hneg|_]; [lia|].
  rewrite firstn_app. apply in_or_app. left.
  rewrite firstn_all2 by lia. exact Hz.
Qed.

Lemma head_sorted {A} (R : A -> A -> Prop) x l z :
  StronglySorted R (x :: l) -> In z l -> R x z.
Proof.
  intros Hs Hz. inversion Hs as [|? ? _ Hx]; subst.
  rewrite Forall_forall in Hx. apply Hx, Hz.
Qed.

End RankingFacts.

Module MathematicalQuerySpec.

Import Sql SqlStatements Databases BaseQueries StoreRuns MathematicalStore StoreNotions.
Import SqlFacts StoreSpec ManagerSpec BaseQueryFacts LikeFacts MathematicalStoreFacts.
Import RankingFacts.

Section WithJson.

Context `{JsonObjects}.

(** X17. Storing an equation and finding it again. When [data] holds a
    dict under ['equation'] and the new identifier is not in use,
    [store_learning] appends the equation (missing keys take their
    defaults) to the table, whatever else [data] holds, leaves models and
    constants alone and logs a successful session. [retrieve_knowledge]
    then returns the equation for every query that occurs in its type or
    in its formula, when the limit exceeds the number of older equations
    that match and fits the 64-bit INTEGER of SQLite; a greater limit
    makes it raise [OverflowError]. The dict it returns for the equation
    gives the range under ['accuracy'] and the accuracy under
    ['usage_count']. *)
Theorem stored_equation_is_retrieved (d : DataDict) (eqd : EquationData)
  (source : LearningSource) (metadata : option Json) (r : Readings)
  (db : MathematicalDatabase) :
  data_equation d = Some (IsDict eqd) ->
  (forall row, In row (rows (equations db)) -> equation_id row <> "eq_" ++ item_uuid r) ->
  let db' := fst (store_learning (DictData d) source metadata r db) in
  let row := equation_row eqd r (sequence (equations db) + 1) in
  rows (equations db') = (rows (equations db) ++ [row])%list
  /\ sequence (equations db') = (sequence (equations db) + 1)%Z
  /\ mathematical_models db' = mathematical_models db
  /\ mathematical_constants db' = mathematical_constants db
  /\ Forall (fun session => success session = true)
       (select_by_key session_id (session_name r) (tbl_learning_sessions (base db')))
  /\ dict_get (equation_record row) "accuracy" = Some (KText (get_or (eqd_range eqd) "real"))
  /\ dict_get (equation_record row) "usage_count"
     = Some (KReal (get_or (eqd_accuracy eqd) 0%Q))
  /\ forall (query a b : string) (n : Z),
       equation_type row = a ++ query ++ b \/ equation_formula row = a ++ query ++ b ->
       (Z.of_nat (length (List.filter (equation_matches query) (rows (equations db)))) < n)%Z ->
       ((n < 2 ^ 63)%Z ->
        exists results,
          Databases.retrieve_knowledge query n db' = Returned results
          /\ In (equation_record row) results)
       /\ ((2 ^ 63 <= n)%Z ->
           Databases.retrieve_knowledge query n db'
           = Raised "Python int too large to convert to SQLite INTEGER").
Proof.
  intros Hd Hfresh db' row. subst db'. rewrite store_learning_run.
  unfold store_item. rewrite Hd.
  unfold _store_equation, bind, as_dict, ret, on_equations. rewrite insert_run.
  rewrite (fresh_key equation_id (equation_row eqd r) (equations db) Hfresh).
  cbn [fst on_base base equations mathematical_models mathematical_constants rows sequence].
  split; [reflexivity|]. split; [reflexivity|]. split; [reflexivity|]. split; [reflexivity|].
  split.
  { unfold log_learning_session. cbn [tbl_learning_sessions].
    rewrite select_insert_or_replace_same by reflexivity.
    constructor; [reflexivity|constructor]. }
  split; [reflexivity|]. split; [reflexivity|].
  intros query a b n Hocc Hn.
  assert (Hmatch : equation_matches query row = true).
  { unfold equation_matches. apply orb_true_iff.
    destruct Hocc as [-> | ->]; [left|right]; apply like_contains. }
  unfold Databases.retrieve_knowledge.
  set (stored := {| base := _; equations := _; mathematical_models := _;
                    mathematical_constants := _; applied_theories := _ |}).
  split.
  - intros Hfit. rewrite bind_integer_in by (apply sqlite_integer_spec; lia).
    eexists. split; [reflexivity|].
    assert (Hsel : In row (select_equations query n stored)
                   /\ (Z.of_nat (length (select_equations query n stored)) <= n)%Z).
    { unfold select_equations. subst stored. cbn [equations rows].
      rewrite filter_app. cbn [List.filter]. fold row. rewrite Hmatch.
      rewrite limit_all.
      - split.
        + apply order_by_in, in_or_app. right. left. reflexivity.
        + rewrite order_by_length, List.length_app. cbn [length]. lia.
      - rewrite order_by_length, List.length_app. cbn [length]. lia. }
    destruct Hsel as [Hin Hlen].
    apply py_slice_to_app.
    + rewrite List.length_map. exact Hlen.
    + apply in_map. exact Hin.
  - intros Hbig. apply bind_integer_out.
    destruct (sqlite_integer n) eqn:E; [|reflexivity].
    apply sqlite_integer_spec in E. lia.
Qed.

(** X18. The stores that fail. When the value under the key that
    [store_learning] picks is not a dict, or the identifier drawn for an
    equation or a model is in use, the call returns normally, stores
    nothing, and logs a failed session whose metadata carry the text of the
    [AttributeError] or of the [IntegrityError]. *)
Theorem failed_store_logs_failure (data : Data) (source : LearningSource)
  (metadata : option Json) (r : Readings) (db : MathematicalDatabase) (msg : string) :
  (exists d type_name,
      data = DictData d
      /\ msg = "'" ++ type_name ++ "' object has no attribute 'get'"
      /\ (data_equation d = Some (NotDict type_name)
          \/ (data_equation d = None /\ data_model d = Some (NotDict type_name))
          \/ (data_equation d = None /\ data_model d = None
              /\ data_constant d = Some (NotDict type_name))))
  \/ (exists d eqd row,
         data = DictData d /\ data_equation d = Some (IsDict eqd)
         /\ In row (rows (equations db)) /\ equation_id row = "eq_" ++ item_uuid r
         /\ msg = "UNIQUE constraint failed: equations.equation_id")
  \/ (exists d md row,
         data = DictData d /\ data_equation d = None /\ data_model d = Some (IsDict md)
         /\ In row (rows (mathematical_models db)) /\ model_id row = "model_" ++ item_uuid r
         /\ msg = "UNIQUE constraint failed: mathematical_models.model_id") ->
  store_learning data source metadata r db
  = (on_base (log_learning_session (session_name r) source "mathematical_data" false
                (Some (with_error (metadata_or_empty metadata) msg))
                (log_now r) (log_updated r)) db,
     Returned tt).
Proof.
  assert (Hdb : {| base := base db; equations := equations db;
                   mathematical_models := mathematical_models db;
                   mathematical_constants := mathematical_constants db;
                   applied_theories := applied_theories db |} = db)
    by (destruct db; reflexivity).
  intros Hcase. rewrite store_learning_run.
  destruct Hcase as [(d & ty & -> & -> & Hkey) | [(d & eqd & row & -> & Hd & Hin & Hid & ->)
                                                 | (d & md & row & -> & Hd & Hm & Hin & Hid & ->)]].
  - unfold store_item.
    destruct Hkey as [Hd | [[Hd Hm] | [Hd [Hm Hc]]]].
    + rewrite Hd. reflexivity.
    + rewrite Hd, Hm. reflexivity.
    + rewrite Hd, Hm, Hc. reflexivity.
  - unfold store_item. rewrite Hd.
    unfold _store_equation, bind, as_dict, ret, on_equations. rewrite insert_run.
    rewrite (taken_key equation_id (equation_row eqd r) (equations db) row Hin Hid).
    rewrite Hdb. reflexivity.
  - unfold store_item. rewrite Hd, Hm.
    unfold _store_mathematical_model, bind, as_dict, ret, on_models. rewrite insert_run.
    rewrite (taken_key model_id (model_row md r) (mathematical_models db) row Hin Hid).
    rewrite Hdb. reflexivity.
Qed.

End WithJson.

Lemma filter_all {A} (l : list A) : List.filter (fun _ => true) l = l.
Proof.
  induction l as [|x l IH]; [reflexivity|]. cbn [List.filter]. rewrite IH. reflexivity.
Qed.

(** X21. [get_best_equations]: without a type, or with the empty string,
    all equations are candidates, otherwise those of the type. For a limit
    that fits the 64-bit INTEGER of SQLite the result lists candidates by
    descending accuracy, then usage count; it has as many entries as the
    limit allows (all of them for a negative limit), its first entry
    comes from a candidate of the greatest accuracy, and every candidate
    is listed when the limit is large enough. A limit that does not fit
    makes the call raise [OverflowError]. Each dict gives the range of
    the equation under ['accuracy'] and its accuracy under
    ['usage_count']; the number of uses is not returned. *)
Theorem get_best_equations_ranked (type : option string) (n : Z) (db : MathematicalDatabase) :
  let wanted (row : Equation) :=
    match type with
    | Some t => if str_truthy t then String.eqb (equation_type row) t else true
    | None => true
    end in
  let candidates := List.filter wanted (rows (equations db)) in
  exists selected,
    get_best_equations type n db
    = (if sqlite_integer n then Returned (map best_equation_record selected)
       else Raised "Python int too large to convert to SQLite INTEGER")
    /\ (forall row,
          dict_get (best_equation_record row) "accuracy" = Some (KText (range_info row))
          /\ dict_get (best_equation_record row) "usage_count" = Some (KReal (accuracy row))
          /\ ~ In (KInt (eq_usage_count row)) (dict_values (best_equation_record row)))
    /\ equations_ranked selected
    /\ (forall row, In row selected -> In row candidates)
    /\ length selected
       = (if (n <? 0)%Z then length candidates
          else Nat.min (Z.to_nat n) (length candidates))
    /\ (forall best row,
         head selected = Some best -> In row candidates ->
         (accuracy row <= accuracy best)%Q)
    /\ ((n < 0)%Z \/ (Z.of_nat (length candidates) <= n)%Z ->
        forall row, In row candidates -> In row selected).
Proof.
  intros wanted candidates.
  assert (Hsel : select_best_equations type n db
                 = limit n (order_by equation_before candidates)).
  { unfold select_best_equations, candidates, wanted.
    destruct type as [t|]; [destruct (str_truthy t)|]; rewrite ?filter_all; reflexivity. }
  pose proof (order_by_sorted equation_before equation_before_total equation_before_trans
                candidates) as Hsorted.
  exists (select_best_equations type n db). split; [reflexivity|]. rewrite Hsel.
  destruct (limit_prefix n (order_by equation_before candidates)) as [k Hk].
  split.
  { intros row. split; [reflexivity|]. split; [reflexivity|].
    cbn. intuition discriminate. }
  split; [|split; [|split; [|split]]].
  - rewrite Hk. apply firstn_sorted.
    eapply sorted_weaken; [|exact Hsorted]. intros a b. apply equation_before_spec.
  - intros row Hrow. rewrite Hk in Hrow. apply firstn_in, order_by_in in Hrow. exact Hrow.
  - unfold limit. destruct (Z.ltb_spec n 0) as [Hneg|Hpos].
    + apply order_by_length.
    + rewrite List.length_firstn, order_by_length. reflexivity.
  - intros best row Hbest Hrow. rewrite Hk in Hbest.
    apply (order_by_in equation_before) in Hrow.
    destruct (order_by equation_before candidates) as [|x sorted]; [destruct Hrow|].
    destruct k as [|k]; [discriminate|]. cbn [firstn head] in Hbest.
    injection Hbest as ->. destruct Hrow as [<-|Hrow]; [apply Qle_refl|].
    pose proof (head_sorted _ _ _ _ Hsorted Hrow) as Hb.
    apply equation_before_spec in Hb. destruct Hb as [Hlt|[Heq _]].
    + apply Qlt_le_weak, Hlt.
    + rewrite Heq. apply Qle_refl.
  - intros Hn row Hrow. rewrite limit_all_or; [apply order_by_in, Hrow|].
    rewrite order_by_length. exact Hn.
Qed.

End MathematicalQuerySpec.

Module InitialDataFacts.

Import Sql SqlStatements SqlFacts.

Section Ignore.

Context {Row Item : Type} (key : Row -> string).

Variable name : Item -> string.
Variable step : Table Row -> Item -> Table Row.

Hypothesis step_spec :
  forall t x, exists mk, (forall id, key (mk id) = name x) /\ step t x = insert_or_ignore key mk t.

Lemma step_present t x : present key (name x) (step t x) = true.
Proof.
  destruct (step_spec t x) as (mk & Hk & ->). unfold insert_or_ignore, present.
  rewrite Hk. destruct (existsb _ (rows t)) eqn:E; [exact E|].
  cbn [rows]. rewrite existsb_app. cbn [existsb]. unfold conflicts at 2.
  rewrite Hk, String.eqb_refl, orb_true_r. reflexivity.
Qed.

Lemma step_extends t x :
  exists added, rows (step t x) = (rows t ++ added)%list
                /\ Forall (fun row => key row = name x /\ present key (name x) t = false) added.
Proof.
  destruct (step_spec t x) as (mk & Hk & ->). unfold insert_or_ignore, present.
  rewrite Hk. destruct (existsb _ (rows t)) eqn:E.
  - exists []. split; [symmetry; apply app_nil_r | constructor].
  - eexists [_]. split; [reflexivity|]. constructor; [|constructor]. split; [apply Hk|reflexivity].
Qed.

Lemma step_rows_fixed t x : present key (name x) t = true -> rows (step t x) = rows t.
Proof.
  intros Hp. destruct (step_spec t x) as (mk & Hk & ->). unfold insert_or_ignore.
  rewrite Hk. unfold present in Hp. rewrite Hp. reflexivity.
Qed.

Lemma step_sequence t x : sequence (step t x) = (sequence t + 1)%Z.
Proof.
  destruct (step_spec t x) as (mk & Hk & ->). unfold insert_or_ignore.
  destruct (existsb _ (rows t)); reflexivity.
Qed.

Lemma present_app k t t' added :
  rows t' = (rows t ++ added)%list -> present key k t = true -> present key k t' = true.
Proof.
  unfold present. intros -> Hp. rewrite existsb_app, Hp. reflexivity.
Qed.

Lemma fold_extends items t :
  exists added,
    rows (fold_left step items t) = (rows t ++ added)%list
    /\ Forall (fun row => In (key row) (map name items) /\ present key (key row) t = false) added.
Proof.
  revert t. induction items as [|x items IH]; intros t.
  - exists []. split; [symmetry; apply app_nil_r | constructor].
  - cbn [fold_left]. destruct (IH (step t x)) as (added' & Hrows & Hadded').
    destruct (step_extends t x) as (added & Hstep & Hadded).
    exists (added ++ added')%list. split.
    + rewrite Hrows, Hstep, app_assoc. reflexivity.
    + apply Forall_app. split.
      * eapply Forall_impl; [|exact Hadded]. cbn beta. intros row [Hk Hp].
        rewrite Hk. split; [left; reflexivity | exact Hp].
      * eapply Forall_impl; [|exact Hadded']. cbn beta. intros row [Hk Hp].
        split; [right; exact Hk|].
        destruct (present key (key row) t) eqn:E; [|reflexivity].
        rewrite (present_app _ t (step t x) added Hstep E) in Hp. discriminate.
Qed.

Lemma fold_present items t x : In x items -> present key (name x) (fold_left step items t) = true.
Proof.
  revert t. induction items as [|y items IH]; intros t; [intros []|].
  cbn [fold_left]. intros [->|Hin]; [|apply IH, Hin].
  destruct (fold_extends items (step t x)) as (added & Hrows & _).
  eapply present_app; [exact Hrows | apply step_present].
Qed.

Lemma fold_rows_fixed items t :
  (forall x, In x items -> present key (name x) t = true) ->
  rows (fold_left step items t) = rows t.
Proof.
  revert t. induction items as [|x items IH]; intros t Hall; [reflexivity|].
  cbn [fold_left].
  assert (Hrows : rows (step t x) = rows t)
    by (apply step_rows_fixed, Hall; left; reflexivity).
  rewrite IH, Hrows; [reflexivity|].
  intros y Hy. unfold present. rewrite Hrows. apply Hall. right. exact Hy.
Qed.

Lemma fold_rows_idempotent items t :
  rows (fold_left step items (fold_left step items t)) = rows (fold_left step items t).
Proof. apply fold_rows_fixed. intros x Hx. apply fold_present, Hx. Qed.

Lemma fold_sequence items t :
  sequence (fold_left step items t) = (sequence t + Z.of_nat (length items))%Z.
Proof.
  revert t. induction items as [|x items IH]; intros t.
  - cbn [fold_left length]. lia.
  - cbn [fold_left length]. rewrite IH, step_sequence. lia.
Qed.

End Ignore.

Lemma select_by_key_app {Row} (key : Row -> string) k (t t' : Table Row) added :
  rows t' = (rows t ++ added)%list ->
  Forall (fun row => key row <> k) added ->
  select_by_key key k t' = select_by_key key k t.
Proof.
  intros Hrows Hadded. unfold select_by_key. rewrite Hrows, filter_app. clear Hrows.
  replace (List.filter (conflicts key k) added) with (@nil Row); [apply app_nil_r|].
  symmetry. induction Hadded as [|row added Hrow _ IH]; [reflexivity|].
  cbn [List.filter]. unfold conflicts at 1.
  destruct (String.eqb_spec (key row) k) as [Heq|_]; [contradiction | exact IH].
Qed.

End InitialDataFacts.

Module InitialDataSpec.

Import Sql SqlStatements Databases BaseQueries StoreRuns MathematicalStore StoreNotions.
Import SqlFacts StoreSpec ManagerSpec BaseQueryFacts MathematicalStoreFacts InitialDataFacts.
Import RankingFacts.

Lemma constant_step_spec now t x :
  exists mk, (forall id, constant_name (mk id) = fst (fst (fst (fst x))))
             /\ constant_step now t x = insert_or_ignore constant_name mk t.
Proof.
  destruct x as [[[[name v] desc] precision] src]. eexists. split; [|reflexivity].
  intros id. reflexivity.
Qed.

Lemma theory_step_spec now t x :
  exists mk, (forall id, theory_id (mk id) = fst (fst (fst (fst (fst x)))))
             /\ theory_step now t x = insert_or_ignore theory_id mk t.
Proof.
  destruct x as [[[[[tid name] ty] context] res] eff]. eexists. split; [|reflexivity].
  intros id. reflexivity.
Qed.

Lemma insert_initial_data_run now db :
  _insert_initial_data now db
  = {| base := base db; equations := equations db;
       mathematical_models := mathematical_models db;
       mathematical_constants :=
         fold_left (constant_step now) initial_constants (mathematical_constants db);
       applied_theories :=
         fold_left (theory_step now) initial_theories (applied_theories db) |}.
Proof. reflexivity. Qed.

Lemma initial_constants_keep now (db : MathematicalDatabase) k :
  present constant_name k (mathematical_constants db) = true \/ ~ In k initial_constant_names ->
  select_by_key constant_name k (mathematical_constants (_insert_initial_data now db))
  = select_by_key constant_name k (mathematical_constants db).
Proof.
  intros Hk. rewrite insert_initial_data_run. cbn [mathematical_constants].
  destruct (fold_extends constant_name _ (constant_step now) (constant_step_spec now)
              initial_constants (mathematical_constants db)) as (added & Hrows & Hadded).
  apply (select_by_key_app constant_name k _ _ added Hrows).
  eapply Forall_impl; [|exact Hadded]. cbn beta. intros row [Hin Hp] Heq. subst k.
  destruct Hk as [Hk|Hk]; [rewrite Hk in Hp; discriminate | exact (Hk Hin)].
Qed.

Lemma initial_theories_keep now (db : MathematicalDatabase) k :
  present theory_id k (applied_theories db) = true \/ ~ In k initial_theory_ids ->
  select_by_key theory_id k (applied_theories (_insert_initial_data now db))
  = select_by_key theory_id k (applied_theories db).
Proof.
  intros Hk. rewrite insert_initial_data_run. cbn [applied_theories].
  destruct (fold_extends theory_id _ (theory_step now) (theory_step_spec now)
              initial_theories (applied_theories db)) as (added & Hrows & Hadded).
  apply (select_by_key_app theory_id k _ _ added Hrows).
  eapply Forall_impl; [|exact Hadded]. cbn beta. intros row [Hin Hp] Heq. subst k.
  destruct Hk as [Hk|Hk]; [rewrite Hk in Hp; discriminate | exact (Hk Hin)].
Qed.

(** X19. [_insert_initial_data] makes sure the four constants and the
    three theories are present, and writes no other row: rows found under
    one of these names are kept as they are, rows under other names as
    well, and the base tables, equations and models are not touched.
    Every run uses up four rowids of the constants and three of the
    theories, whether or not it writes a row. Running it again, at any
    time, writes no row: it only moves the two rowid counters on. *)
Theorem initial_data_inserted_once (now now' : string) (db : MathematicalDatabase) :
  let db1 := _insert_initial_data now db in
  let db2 := _insert_initial_data now' db1 in
  (forall name, In name initial_constant_names ->
     present constant_name name (mathematical_constants db1) = true)
  /\ (forall tid, In tid initial_theory_ids ->
       present theory_id tid (applied_theories db1) = true)
  /\ (forall name,
       present constant_name name (mathematical_constants db) = true
       \/ ~ In name initial_constant_names ->
       select_by_key constant_name name (mathematical_constants db1)
       = select_by_key constant_name name (mathematical_constants db))
  /\ (forall tid,
       present theory_id tid (applied_theories db) = true \/ ~ In tid initial_theory_ids ->
       select_by_key theory_id tid (applied_theories db1)
       = select_by_key theory_id tid (applied_theories db))
  /\ base db1 = base db
  /\ equations db1 = equations db
  /\ mathematical_models db1 = mathematical_models db
  /\ sequence (mathematical_constants db1) = (sequence (mathematical_constants db) + 4)%Z
  /\ sequence (applied_theories db1) = (sequence (applied_theories db) + 3)%Z
  /\ rows (mathematical_constants db2) = rows (mathematical_constants db1)
  /\ rows (applied_theories db2) = rows (applied_theories db1)
  /\ sequence (mathematical_constants db2) = (sequence (mathematical_constants db1) + 4)%Z
  /\ sequence (applied_theories db2) = (sequence (applied_theories db1) + 3)%Z
  /\ base db2 = base db
  /\ equations db2 = equations db
  /\ mathematical_models db2 = mathematical_models db.
Proof.
  intros db1 db2. subst db2 db1.
  assert (Hcseq : forall t d, sequence (mathematical_constants (_insert_initial_data t d))
                              = (sequence (mathematical_constants d) + 4)%Z).
  { intros t d. rewrite insert_initial_data_run. cbn [mathematical_constants].
    rewrite (fold_sequence constant_name _ (constant_step t) (constant_step_spec t)).
    reflexivity. }
  assert (Htseq : forall t d, sequence (applied_theories (_insert_initial_data t d))
                              = (sequence (applied_theories d) + 3)%Z).
  { intros t d. rewrite insert_initial_data_run. cbn [applied_theories].
    rewrite (fold_sequence theory_id _ (theory_step t) (theory_step_spec t)).
    reflexivity. }
  split.
  { intros name Hin. rewrite insert_initial_data_run. cbn [mathematical_constants].
    apply in_map_iff in Hin as (x & <- & Hx).
    apply (fold_present constant_name _ (constant_step now) (constant_step_spec now)), Hx. }
  split.
  { intros tid Hin. rewrite insert_initial_data_run. cbn [applied_theories].
    apply in_map_iff in Hin as (x & <- & Hx).
    apply (fold_present theory_id _ (theory_step now) (theory_step_spec now)), Hx. }
  split; [apply initial_constants_keep|]. split; [apply initial_theories_keep|].
  split; [reflexivity|]. split; [reflexivity|]. split; [reflexivity|].
  split; [apply Hcseq|]. split; [apply Htseq|].
  split.
  { rewrite (insert_initial_data_run now'), (insert_initial_data_run now).
    cbn [mathematical_constants].
    apply (fold_rows_fixed constant_name _ (constant_step now') (constant_step_spec now')).
    intros x Hx.
    apply (fold_present constant_name _ (constant_step now) (constant_step_spec now)), Hx. }
  split.
  { rewrite (insert_initial_data_run now'), (insert_initial_data_run now).
    cbn [applied_theories].
    apply (fold_rows_fixed theory_id _ (theory_step now') (theory_step_spec now')).
    intros x Hx.
    apply (fold_present theory_id _ (theory_step now) (theory_step_spec now)), Hx. }
  split; [apply Hcseq|]. split; [apply Htseq|].
  split; [reflexivity|]. split; reflexivity.
Qed.

Section WithJson.

Context `{JsonObjects}.

(** X20. Storing a constant. [store_learning] with a dict under
    ['constant'] (and neither ['equation'] nor ['model']) leaves exactly
    one row under the name, with the values given and the defaults for the
    missing keys; constants of other names, equations, models and theories
    are kept, and the session is logged as successful. Constructing the
    database again on the same file keeps the stored row, also under the
    name of an initial constant. *)
Theorem stored_constant_survives_reopen (d : DataDict) (cd : ConstantData)
  (source : LearningSource) (metadata : option Json) (r : Readings)
  (db : MathematicalDatabase) (now : string) :
  data_equation d = None -> data_model d = None -> data_constant d = Some (IsDict cd) ->
  let db' := fst (store_learning (DictData d) source metadata r db) in
  let row := constant_row cd r (sequence (mathematical_constants db) + 1) in
  select_by_key constant_name (constant_name row) (mathematical_constants db') = [row]
  /\ (forall name, name <> constant_name row ->
       select_by_key constant_name name (mathematical_constants db')
       = select_by_key constant_name name (mathematical_constants db))
  /\ equations db' = equations db
  /\ mathematical_models db' = mathematical_models db
  /\ applied_theories db' = applied_theories db
  /\ Forall (fun session => success session = true)
       (select_by_key session_id (session_name r) (tbl_learning_sessions (base db')))
  /\ select_by_key constant_name (constant_name row)
       (mathematical_constants (reopen now db')) = [row]
  /\ equations (reopen now db') = equations db.
Proof.
  intros Hd Hm Hc db' row.
  assert (Hrun : db' = on_base (log_learning_session (session_name r) source
                                 "mathematical_data" true metadata (log_now r) (log_updated r))
                         (on_constants (insert_or_replace constant_name (constant_row cd r)) db)).
  { subst db'. rewrite store_learning_run. unfold store_item. rewrite Hd, Hm, Hc. reflexivity. }
  assert (Hsel : select_by_key constant_name (constant_name row) (mathematical_constants db')
                 = [row]).
  { rewrite Hrun. cbn [on_base on_constants mathematical_constants].
    rewrite select_insert_or_replace_same by reflexivity. reflexivity. }
  split; [exact Hsel|]. split; [|split; [|split; [|split; [|split; [|split]]]]].
  - intros name Hname. rewrite Hrun. cbn [on_base on_constants mathematical_constants].
    apply select_insert_or_replace_other. intros Hid. apply Hname. rewrite <- Hid. reflexivity.
  - rewrite Hrun. reflexivity.
  - rewrite Hrun. reflexivity.
  - rewrite Hrun. reflexivity.
  - rewrite Hrun. unfold on_base, log_learning_session. cbn [base tbl_learning_sessions].
    rewrite select_insert_or_replace_same by reflexivity.
    constructor; [reflexivity|constructor].
  - unfold reopen, new_MathematicalDatabase. rewrite initial_constants_keep.
    + cbn [mathematical_constants]. exact Hsel.
    + left. cbn [mathematical_constants]. unfold present.
      apply existsb_exists. exists row. split; [|apply String.eqb_refl].
      assert (Hin : In row (select_by_key constant_name (constant_name row)
                              (mathematical_constants db')))
        by (rewrite Hsel; left; reflexivity).
      apply filter_In in Hin. apply Hin.
  - unfold reopen, new_MathematicalDatabase. rewrite insert_initial_data_run.
    cbn [equations]. rewrite Hrun. reflexivity.
Qed.

End WithJson.

End InitialDataSpec.

Module LogicalSpec.

Import Sql SqlStatements Databases MathematicalStore LogicalStore.
Import SqlFacts LikeFacts MathematicalStoreFacts RankingFacts.

Section WithJson.

Context `{JsonObjects}.

Lemma logical_store_learning_run data source metadata r (db : LogicalDatabase) :
  LogicalStore.store_learning data source metadata r db
  = match LogicalStore.store_item data r db with
    | (db1, Returned _) =>
        (LogicalStore.on_base
           (log_learning_session (LogicalStore.session_name r) source "logical_data" true
              metadata (log_now r) (log_updated r)) db1,
         Returned tt)
    | (db1, Raised e) =>
        (LogicalStore.on_base
           (log_learning_session (LogicalStore.session_name r) source "logical_data" false
              (Some (with_error (metadata_or_empty metadata) e))
              (log_now r) (log_updated r)) db1,
         Returned tt)
    end.
Proof.
  unfold LogicalStore.store_learning, try_except, bind, modify.
  destruct (LogicalStore.store_item data r db) as [db1 [[]|e]]; reflexivity.
Qed.

(** X22. Storing a rule and finding it again. When [data] holds a dict
    under ['rule'] and the new identifier is not in use,
    [LogicalDatabase.store_learning] appends the rule to [logical_rules],
    also when [data] has an ['inference'] or a ['contradiction'], and logs
    a successful session. [retrieve_knowledge] then returns the rule for
    every query that occurs in its name, premise or conclusion, when the
    limit exceeds the number of older rules that match and fits the 64-bit
    INTEGER of SQLite; a greater limit makes it raise [OverflowError]. *)
Theorem stored_rule_is_retrieved (d : LogicalStore.DataDict) (rd : RuleData)
  (source : LearningSource) (metadata : option Json) (r : Readings) (db : LogicalDatabase) :
  data_rule d = Some (IsDict rd) ->
  (forall row, In row (rows (logical_rules db)) -> rule_id row <> "rule_" ++ item_uuid r) ->
  let db' := fst (LogicalStore.store_learning (LogicalStore.DictData d) source metadata r db) in
  let row := rule_row rd r (sequence (logical_rules db) + 1) in
  rows (logical_rules db') = (rows (logical_rules db) ++ [row])%list
  /\ contradictions_perpendicularity db' = contradictions_perpendicularity db
  /\ Forall (fun session => success session = true)
       (select_by_key session_id (LogicalStore.session_name r)
          (tbl_learning_sessions (logical_base db')))
  /\ forall (query a b : string) (n : Z),
       rule_name row = a ++ query ++ b \/ premise row = a ++ query ++ b
       \/ conclusion row = a ++ query ++ b ->
       (Z.of_nat (length (List.filter (rule_matches query) (rows (logical_rules db)))) < n)%Z ->
       ((n < 2 ^ 63)%Z ->
        exists results,
          LogicalStore.retrieve_knowledge query n db' = Returned results
          /\ In (rule_record row) results)
       /\ ((2 ^ 63 <= n)%Z ->
           LogicalStore.retrieve_knowledge query n db'
           = Raised "Python int too large to convert to SQLite INTEGER").
Proof.
  intros Hd Hfresh db' row. subst db'. rewrite logical_store_learning_run.
  unfold LogicalStore.store_item. rewrite Hd.
  unfold _store_logical_rule, bind, as_dict, ret, on_rules. rewrite insert_run.
  rewrite (fresh_key rule_id (rule_row rd r) (logical_rules db) Hfresh).
  cbn [fst LogicalStore.on_base logical_base logical_rules contradictions_perpendicularity
       rows sequence].
  split; [reflexivity|]. split; [reflexivity|]. split.
  { unfold log_learning_session. cbn [tbl_learning_sessions].
    rewrite select_insert_or_replace_same by reflexivity.
    constructor; [reflexivity|constructor]. }
  intros query a b n Hocc Hn.
  assert (Hmatch : rule_matches query row = true).
  { unfold rule_matches. rewrite !orb_true_iff.
    destruct Hocc as [-> | [-> | ->]];
      [left; left | left; right | right]; apply like_contains. }
  unfold LogicalStore.retrieve_knowledge, select_rules.
  cbn [LogicalStore.on_base logical_rules rows].
  split.
  - intros Hfit. rewrite bind_integer_in by (apply sqlite_integer_spec; lia).
    eexists. split; [reflexivity|].
    rewrite filter_app. cbn [List.filter]. fold row. rewrite Hmatch.
    rewrite limit_all by (rewrite order_by_length, List.length_app; cbn [length]; lia).
    unfold py_slice_to. destruct (Z.ltb_spec n 0) as [Hneg|_]; [lia|].
    rewrite firstn_all2
      by (rewrite List.length_map, order_by_length, List.length_app; cbn [length]; lia).
    apply in_map, order_by_in, in_or_app. right. left. reflexivity.
  - intros Hbig. apply bind_integer_out.
    destruct (sqlite_integer n) eqn:E; [|reflexivity].
    apply sqlite_integer_spec in E. lia.
Qed.

(** X23. [LogicalDatabase.store_learning] stores no inference and no
    contradiction: the methods it calls for these keys do not exist. With
    one of the two keys and no ['rule'] the call returns normally, the
    tables are as before, and the session is logged as failed with the
    text of the [AttributeError] in its metadata. *)
Theorem inference_and_contradiction_never_stored (d : LogicalStore.DataDict)
  (source : LearningSource) (metadata : option Json) (r : Readings) (db : LogicalDatabase) :
  data_rule d = None ->
  has_inference d || has_contradiction d = true ->
  let method := if has_inference d then "_store_inference" else "_store_contradiction" in
  LogicalStore.store_learning (LogicalStore.DictData d) source metadata r db
  = (LogicalStore.on_base
       (log_learning_session (LogicalStore.session_name r) source "logical_data" false
          (Some (with_error (metadata_or_empty metadata)
                   ("'LogicalDatabase' object has no attribute '" ++ method ++ "'")))
          (log_now r) (log_updated r)) db,
     Returned tt).
Proof.
  intros Hd Hkey method. subst method. rewrite logical_store_learning_run.
  unfold LogicalStore.store_item. rewrite Hd.
  destruct (has_inference d); [reflexivity|].
  cbn [orb] in Hkey. rewrite Hkey. reflexivity.
Qed.

End WithJson.

End LogicalSpec.

Module PhysicalSpec.

Import Sql SqlStatements Databases MathematicalStore PhysicalStore.
Import SqlFacts LikeFacts MathematicalStoreFacts RankingFacts.

Section WithJson.

Context `{JsonObjects}.

Lemma physical_store_learning_tables data source metadata r (db : PhysicalDatabase) :
  let db' := fst (PhysicalStore.store_learning data source metadata r db) in
  physical_laws db' = physical_laws db
  /\ physical_constants db' = physical_constants db
  /\ revolutionary_physics db' = revolutionary_physics db
  /\ learning_sessions (physical_base db') = S (learning_sessions (physical_base db))
  /\ Forall (fun session => success session = negb (names_a_method data))
       (select_by_key session_id (PhysicalStore.session_name r)
          (tbl_learning_sessions (physical_base db'))).
Proof.
  unfold PhysicalStore.store_learning, try_except, bind, modify, PhysicalStore.store_item.
  unfold PhysicalStore.missing_method, raise, ret.
  destruct data as [[[] [] []]|];
    cbn [has_law has_constant has_phenomenon fst snd PhysicalStore.on_base physical_laws
         physical_constants revolutionary_physics physical_base names_a_method orb negb];
    unfold log_learning_session; cbn [tbl_learning_sessions learning_sessions];
    (split; [reflexivity|]; split; [reflexivity|]; split; [reflexivity|];
     split; [reflexivity|]);
    rewrite select_insert_or_replace_same by reflexivity;
    (constructor; [reflexivity|constructor]).
Qed.

Lemma run_stores_tables calls (db : PhysicalDatabase) :
  physical_laws (run_stores calls db) = physical_laws db
  /\ physical_constants (run_stores calls db) = physical_constants db
  /\ revolutionary_physics (run_stores calls db) = revolutionary_physics db
  /\ learning_sessions (physical_base (run_stores calls db))
     = learning_sessions (physical_base db) + length calls.
Proof.
  revert db. induction calls as [|[[[data source] metadata] r] calls IH]; intros db.
  - cbn [run_stores fold_left length]. rewrite Nat.add_0_r. auto.
  - change (run_stores ((data, source, metadata, r) :: calls) db)
      with (run_stores calls (fst (PhysicalStore.store_learning data source metadata r db))).
    destruct (IH (fst (PhysicalStore.store_learning data source metadata r db)))
      as (-> & -> & -> & ->).
    destruct (physical_store_learning_tables data source metadata r db)
      as (-> & -> & -> & -> & _).
    cbn [length]. repeat split; try reflexivity. lia.
Qed.

(** X24. [PhysicalDatabase.store_learning] stores nothing: after any
    sequence of calls the tables of laws, constants and theories are as
    before and the counter of sessions has grown by the number of calls.
    [retrieve_knowledge] answers as before the calls, and on a database
    whose file had no physical tables it returns the empty list for every
    query and every limit that fits the 64-bit INTEGER of SQLite, and
    raises [OverflowError] for the others. A call is logged as failed
    exactly when [data] is a dict with one of the keys ['law'],
    ['constant'], ['phenomenon']. *)
Theorem physical_store_never_stores (calls : list StoreCall) (db : PhysicalDatabase) :
  physical_laws (run_stores calls db) = physical_laws db
  /\ physical_constants (run_stores calls db) = physical_constants db
  /\ revolutionary_physics (run_stores calls db) = revolutionary_physics db
  /\ learning_sessions (physical_base (run_stores calls db))
     = learning_sessions (physical_base db) + length calls
  /\ (forall query n,
        PhysicalStore.retrieve_knowledge query n (run_stores calls db)
        = PhysicalStore.retrieve_knowledge query n db)
  /\ (forall base_on_disk now query n,
        PhysicalStore.retrieve_knowledge query n
          (run_stores calls (new_PhysicalDatabase base_on_disk None now))
        = if sqlite_integer n then Returned []
          else Raised "Python int too large to convert to SQLite INTEGER")
  /\ (forall data source metadata r,
        Forall (fun session => success session = negb (names_a_method data))
          (select_by_key session_id (PhysicalStore.session_name r)
             (tbl_learning_sessions
                (physical_base (fst (PhysicalStore.store_learning data source metadata r db)))))).
Proof.
  destruct (run_stores_tables calls db) as (Hlaws & Hconsts & Hth & Hcount).
  split; [exact Hlaws|]. split; [exact Hconsts|]. split; [exact Hth|]. split; [exact Hcount|].
  split; [|split].
  - intros query n. unfold PhysicalStore.retrieve_knowledge, select_laws.
    rewrite Hlaws. reflexivity.
  - intros base_on_disk now query n.
    unfold PhysicalStore.retrieve_knowledge, select_laws.
    destruct (run_stores_tables calls (new_PhysicalDatabase base_on_disk None now))
      as (-> & _).
    cbn [new_PhysicalDatabase _insert_initial_physical_data physical_laws empty_table rows
         List.filter order_by fold_right].
    unfold bind_integer, limit, py_slice_to.
    destruct (sqlite_integer n); [|reflexivity].
    destruct (n <? 0)%Z; cbn [map length firstn]; try reflexivity;
      destruct (Z.to_nat n); reflexivity.
  - intros data source metadata r.
    apply (physical_store_learning_tables data source metadata r db).
Qed.

End WithJson.

End PhysicalSpec.

(** ** Examples, witnesses and counterexamples *)

Module Examples.

Import Hoare Layer Core SpecWords LayerNotions CoreNotions Sql Databases Manager StoreNotions.
Import PyFacts LayerFacts CoreFacts InitFacts PairFacts SynchronizationSpec RoundSpec.
Import SqlFacts StoreSpec ManagerSpec Demo.

#[local] Existing Instance string_logic.
#[local] Existing Instance json_text.
#[local] Existing Instance plain_classes.
#[local] Existing Instance accepting_manager.

(** C1 fails as stated: with a [CompleteSpecializedDatabaseManager], which
    has no method [store_learning], the default round ends in the
    [except] branch and returns the error record, without layer results,
    synchronization level or integrated analysis. *)
Lemma comprehensive_processing_error_record :
  snd (comprehensive_processing "text" None fresh_core)
  = Returned
      (ErrorResult layer_names
         "'CompleteSpecializedDatabaseManager' object has no attribute 'store_learning'")
  /\ (forall results sync_level integrated_analysis,
        snd (comprehensive_processing "text" None fresh_core)
        <> Returned (FinalResult layer_names results sync_level integrated_analysis)).
Proof.
  assert (Hrun : snd (comprehensive_processing "text" None fresh_core)
                 = Returned
                     (ErrorResult layer_names
                        "'CompleteSpecializedDatabaseManager' object has no attribute 'store_learning'"))
    by (vm_compute; reflexivity).
  split; [exact Hrun|]. intros results sync_level integrated_analysis. rewrite Hrun. discriminate.
Qed.

(** Witness for C1: around a manager that accepts every call, a round over
    the physical layer, which fails, and the mathematical layer returns the
    complete record. *)
Lemma comprehensive_processing_record_witness :
  matrix_invariant quiet_core
  /\ rows_present quiet_core
  /\ store_total unit
  /\ exists self',
       comprehensive_processing "text" (Some ["physical"; "mathematical"]) quiet_core
       = (self', Returned (final_result quiet_core "text" ["physical"; "mathematical"])).
Proof.
  assert (Hinv : matrix_invariant quiet_core) by apply new_core_invariant.
  assert (Hrows : rows_present quiet_core) by apply new_core_rows_present.
  assert (Htot : store_total unit) by (intros layer_name learning_data []; exists tt; reflexivity).
  split; [exact Hinv|]. split; [exact Hrows|]. split; [exact Htot|].
  exact (proj1 (proj2 (comprehensive_processing_record quiet_core "text"
                         (Some ["physical"; "mathematical"]))) Hinv Hrows Htot).
Defined.

(** The record of that round: the physical layer carries its error, the
    mathematical layer its result, and one layer counts as successful. *)
Example comprehensive_processing_partial_failure :
  final_result quiet_core "text" ["physical"; "mathematical"]
  = FinalResult ["physical"; "mathematical"]
      [ ("physical", ErrorRecord "physical" "unsupported complexity level");
        ("mathematical",
         SuccessResult "mathematical" "zero_duality" "perpendicularity" "filament"
           {| sp_type := "mathematical_analysis"; sp_confidence := 0.8; sp_payload := tt |}) ]
      ((0 + 0.8) / 1)%Q
      {| total_layers := 2;
         successful_layers := 1;
         average_confidence := ((0 + 0.8) / 1)%Q;
         dominant_themes := ["mathematical_analysis"];
         cross_layer_insights := ["mathematical_physical_convergence"];
         revolutionary_synthesis := _apply_revolutionary_synthesis
           [ ("physical", ErrorRecord "physical" "unsupported complexity level");
             ("mathematical",
              SuccessResult "mathematical" "zero_duality" "perpendicularity" "filament"
                {| sp_type := "mathematical_analysis"; sp_confidence := 0.8;
                   sp_payload := tt |}) ] |}.
Proof. vm_compute. reflexivity. Qed.

(** Witness for C2: the physical layer fails, the mathematical layer
    succeeds. *)
Lemma process_input_isolates_failure_witness :
  dict_get (layers quiet_core) "physical" = Some (new_ThinkingLayer PHYSICAL)
  /\ dict_get (layers quiet_core) "mathematical" = Some (new_ThinkingLayer MATHEMATICAL)
  /\ "physical" <> "mathematical"
  /\ theories PHYSICAL "text" = Raised "unsupported complexity level"
  /\ theories MATHEMATICAL "text" = Returned ("zero_duality", "perpendicularity", "filament")
  /\ (exists self' results,
        targeted_processing "text" ["physical"; "mathematical"] quiet_core
        = (self', Returned (TargetedResults ["physical"; "mathematical"] results))
        /\ dict_get results "physical"
           = Some (ErrorRecord "physical" "unsupported complexity level")
        /\ dict_get results "mathematical"
           = Some (SuccessResult "mathematical" "zero_duality" "perpendicularity" "filament"
                     (_specialized_processing MATHEMATICAL "text"))
        /\ state <$> dict_get (layers self') "physical" = Some ERROR
        /\ state <$> dict_get (layers self') "mathematical" = Some ACTIVE)
  /\ (exists self' sync_level integrated_analysis,
        comprehensive_processing "text" (Some ["physical"; "mathematical"]) quiet_core
        = (self',
           Returned
             (FinalResult ["physical"; "mathematical"]
                [ ("physical", ErrorRecord "physical" "unsupported complexity level");
                  ("mathematical",
                   SuccessResult "mathematical" "zero_duality" "perpendicularity" "filament"
                     (_specialized_processing MATHEMATICAL "text")) ]
                sync_level integrated_analysis))).
Proof.
  assert (Hx : dict_get (layers quiet_core) "physical" = Some (new_ThinkingLayer PHYSICAL))
    by reflexivity.
  assert (Hy : dict_get (layers quiet_core) "mathematical"
               = Some (new_ThinkingLayer MATHEMATICAL)) by reflexivity.
  assert (Hxy : "physical" <> "mathematical") by discriminate.
  assert (Hfail : theories (layer_type (new_ThinkingLayer PHYSICAL)) "text"
                  = Raised "unsupported complexity level") by reflexivity.
  assert (Hok : theories (layer_type (new_ThinkingLayer MATHEMATICAL)) "text"
                = Returned ("zero_duality", "perpendicularity", "filament")) by reflexivity.
  assert (Hinv : matrix_invariant quiet_core) by apply new_core_invariant.
  assert (Hrows : rows_present quiet_core) by apply new_core_rows_present.
  assert (Htot : store_total unit) by (intros layer_name learning_data []; exists tt; reflexivity).
  split; [exact Hx|]. split; [exact Hy|]. split; [exact Hxy|].
  split; [exact Hfail|]. split; [exact Hok|].
  destruct (process_input_isolates_failure quiet_core "physical" "mathematical"
              (new_ThinkingLayer PHYSICAL) (new_ThinkingLayer MATHEMATICAL) "text"
              "unsupported complexity level"
              "zero_duality" "perpendicularity" "filament"
              Hx Hy Hxy Hfail Hok) as (_ & _ & Htargeted & Hround).
  split; [exact Htargeted|].
  destruct (Hround Hinv Hrows Htot) as [self' Hrun].
  exists self'. eexists _, _. exact Hrun.
Defined.

(** Witness for C4: three layers, three pairs, and the mean of
    [0.9], [0.8] and [0.5]. *)
Lemma synchronize_layers_mean_witness :
  matrix_invariant fresh_core
  /\ rows_present fresh_core
  /\ Forall (fun n => dict_mem (layers fresh_core) n = true)
       ["mathematical"; "logical"; "physical"]
  /\ List.NoDup ["mathematical"; "logical"; "physical"]
  /\ exists self',
       _synchronize_layers ["mathematical"; "logical"; "physical"] [] fresh_core
       = (self', Returned ((0 + 0.9 + 0.8 + 0.5) / 3)%Q).
Proof.
  assert (Hinv : matrix_invariant fresh_core) by apply new_core_invariant.
  assert (Hrows : rows_present fresh_core) by apply new_core_rows_present.
  assert (Hreg : Forall (fun n => dict_mem (layers fresh_core) n = true)
                   ["mathematical"; "logical"; "physical"])
    by (repeat constructor).
  assert (Hdistinct : List.NoDup ["mathematical"; "logical"; "physical"]).
  { repeat constructor; cbn; intuition discriminate. }
  split; [exact Hinv|]. split; [exact Hrows|]. split; [exact Hreg|]. split; [exact Hdistinct|].
  destruct (proj2 (synchronize_layers_mean fresh_core ["mathematical"; "logical"; "physical"] []
                     Hinv Hrows Hreg Hdistinct))
    as (self' & _ & Hrun & _); [cbn; lia|].
  exists self'. exact Hrun.
Defined.

(** A single selected layer: the score is [1.0]. *)
Example synchronize_single_layer :
  snd (_synchronize_layers ["visual"] [] fresh_core) = Returned 1%Q.
Proof. reflexivity. Qed.

(** Names that are not registered are skipped: two selected names of which
    one is unknown give the score [0.0]. *)
Example synchronize_unknown_name :
  snd (_synchronize_layers ["visual"; "auditory"] [] fresh_core) = Returned 0%Q.
Proof. vm_compute. reflexivity. Qed.

(** C8 fails as stated: the second call with the same [session_id]
    replaces the stored row and moves the counter. *)
Lemma log_learning_session_second_call_updates :
  let db0 := _create_base_tables "mathematical_knowledge" MATHEMATICAL None in
  let db1 :=
    log_learning_session "s-1" USER_INTERACTION "mathematical_data" true None
      "2025-01-01T10:00:00" "2025-01-01T10:00:01" db0 in
  let db2 :=
    log_learning_session "s-1" ERROR_CORRECTION "mathematical_data" false None
      "2025-01-02T10:00:00" "2025-01-02T10:00:01" db1 in
  select_by_key session_id "s-1" (tbl_learning_sessions db1)
  = [ {| ls_id := 1; session_id := "s-1"; timestamp := "2025-01-01T10:00:00";
         source := "user_interaction"; data_type := "mathematical_data";
         success := true; metadata := "{}" |} ]
  /\ select_by_key session_id "s-1" (tbl_learning_sessions db2)
     = [ {| ls_id := 2; session_id := "s-1"; timestamp := "2025-01-02T10:00:00";
            source := "error_correction"; data_type := "mathematical_data";
            success := false; metadata := "{}" |} ]
  /\ Databases.learning_sessions db1 = 1
  /\ Databases.learning_sessions db2 = 2
  /\ db2 <> db1.
Proof.
  cbv zeta. split; [reflexivity|]. split; [reflexivity|]. split; [reflexivity|].
  split; [reflexivity|]. intros Heq. apply (f_equal Databases.learning_sessions) in Heq. discriminate Heq.
Qed.

(** Witness for C9: no database for the symbolic layer, and a limit of
    ten on the mathematical store. *)
Lemma retrieve_knowledge_from_layer_witness :
  databases fresh_manager !! SYMBOLIC = None
  /\ retrieve_knowledge_from_layer SYMBOLIC "a" 10 fresh_manager = Returned []
  /\ databases fresh_manager !! MATHEMATICAL = Some (Mathematical fresh_mathematical)
  /\ (- 2 ^ 63 <= 10 < 2 ^ 63)%Z
  /\ (0 <= 10)%Z
  /\ exists results,
       retrieve_knowledge_from_layer MATHEMATICAL "a" 10 fresh_manager = Returned results
       /\ length results <= Z.to_nat 10.
Proof.
  assert (Hnone : databases fresh_manager !! SYMBOLIC = None) by reflexivity.
  assert (Hmath : databases fresh_manager !! MATHEMATICAL = Some (Mathematical fresh_mathematical))
    by reflexivity.
  assert (Hrange : (- 2 ^ 63 <= 10 < 2 ^ 63)%Z) by lia.
  assert (Hlimit : (0 <= 10)%Z) by lia.
  split; [exact Hnone|].
  split; [exact (proj1 (retrieve_knowledge_from_layer_spec fresh_manager SYMBOLIC "a" 10) Hnone)|].
  split; [exact Hmath|]. split; [exact Hrange|]. split; [exact Hlimit|].
  exact (proj2 (proj2 (proj1 (proj1 (proj2 (retrieve_knowledge_from_layer_spec
                                               fresh_manager MATHEMATICAL "a" 10))
                                 fresh_mathematical Hmath) Hrange)) Hlimit).
Defined.

(** C9 fails as stated: the mathematical store of a new manager holds no
    row that matches [zeta], and the query with the limit [2 ** 63] does
    not return the empty list, it raises [OverflowError]. *)
Lemma retrieve_knowledge_limit_overflow :
  databases fresh_manager !! MATHEMATICAL = Some (Mathematical fresh_mathematical)
  /\ List.filter (equation_matches "zeta") (rows (equations fresh_mathematical)) = []
  /\ List.filter (constant_matches "zeta") (rows (mathematical_constants fresh_mathematical))
     = []
  /\ retrieve_knowledge_from_layer MATHEMATICAL "zeta" (2 ^ 63) fresh_manager
     = Raised "Python int too large to convert to SQLite INTEGER"
  /\ retrieve_knowledge_from_layer MATHEMATICAL "zeta" (2 ^ 63) fresh_manager <> Returned []
  /\ retrieve_knowledge_from_layer MATHEMATICAL "zeta" (2 ^ 63 - 1) fresh_manager
     = Returned [].
Proof.
  assert (Hmath : databases fresh_manager !! MATHEMATICAL = Some (Mathematical fresh_mathematical))
    by reflexivity.
  assert (He : List.filter (equation_matches "zeta") (rows (equations fresh_mathematical)) = [])
    by (vm_compute; reflexivity).
  assert (Hc : List.filter (constant_matches "zeta")
                 (rows (mathematical_constants fresh_mathematical)) = [])
    by (vm_compute; reflexivity).
  split; [exact Hmath|]. split; [exact He|]. split; [exact Hc|].
  unfold retrieve_knowledge_from_layer. rewrite Hmath. cbn [dispatch_retrieve_knowledge].
  assert (Hout : Databases.retrieve_knowledge "zeta" (2 ^ 63) fresh_mathematical
                 = Raised "Python int too large to convert to SQLite INTEGER")
    by (apply bind_integer_out; vm_compute; reflexivity).
  split; [exact Hout|]. split; [rewrite Hout; discriminate|].
  unfold Databases.retrieve_knowledge, select_equations, select_constants.
  rewrite He, Hc, bind_integer_in by (vm_compute; reflexivity).
  cbn [order_by fold_right]. unfold limit, py_slice_to. cbn [map app firstn].
  destruct (Z.to_nat (2 ^ 63 - 1)); reflexivity.
Qed.

(** The example of the specification: [alpha] with [0.9] comes before
    [beta] with [0.5]; the constant [golden_ratio] also contains an [a]. *)
Example retrieve_alpha_before_beta :
  exists results,
    Databases.retrieve_knowledge "a" 10 alpha_beta_store = Returned results
    /\ map (fun record => dict_get record "type") results
       = [Some (KText "equation"); Some (KText "equation"); Some (KText "constant")]
    /\ map (fun record => dict_get record "equation_type") results
       = [Some (KText "alpha"); Some (KText "beta"); None]
    /\ map (fun record => dict_get record "name") results
       = [None; None; Some (KText "golden_ratio")].
Proof. eexists. split; [vm_compute; reflexivity|]. vm_compute. repeat split; reflexivity. Qed.

(** In the dicts of these two equations the key ['accuracy'] holds the
    range and the key ['usage_count'] the accuracy: the code reads the
    columns 6 and 7 of a row whose accuracy is column 7 and whose usage
    count is column 8. *)
Example retrieve_record_columns :
  map (fun record => (dict_get record "accuracy", dict_get record "usage_count"))
    (map equation_record (select_equations "a" 10 alpha_beta_store))
  = [ (Some (KText "real"), Some (KReal 0.9));
      (Some (KText "real"), Some (KReal 0.5)) ].
Proof. vm_compute. reflexivity. Qed.

(** A store without a matching row answers with the empty list. *)
Example retrieve_no_match :
  Databases.retrieve_knowledge "zeta" 10 alpha_beta_store = Returned [].
Proof. vm_compute. reflexivity. Qed.

(** [LIKE] reads [_] in the query as a wildcard. *)
Example like_underscore : like (contains_pattern "s_rt") "sqrt_2" = true.
Proof. reflexivity. Qed.

End Examples.

(** ** Witnesses for the properties X7 to X23 *)

Module StoreExamples.

Import Hoare Layer Core SpecWords LayerNotions CoreNotions Sql SqlStatements Databases.
Import RunNotions Status Numbers MathematicalStore LogicalStore Demo Samples.
Import MatrixSpec IntegrationSpec NumberSpec MathematicalQuerySpec InitialDataSpec LogicalSpec.

#[local] Existing Instance string_logic.
#[local] Existing Instance json_text.
#[local] Existing Instance json_objects.
#[local] Existing Instance accepting_manager.
#[local] Existing Instance exact_sqrt.

(** Witness for X7: the cell of two layers of the core as constructed. *)
Lemma initialize_synchronization_matrix_cells_witness :
  List.NoDup (dict_keys (layers quiet_core))
  /\ cell (synchronization_matrix (_initialize_synchronization_matrix quiet_core))
       "mathematical" "physical" = Some 0%Q.
Proof.
  assert (Hnd : List.NoDup (dict_keys (layers quiet_core))).
  { repeat constructor; cbn; intuition discriminate. }
  split; [exact Hnd|].
  exact (proj1 (initialize_synchronization_matrix_cells quiet_core "mathematical" "physical" Hnd)
           eq_refl).
Defined.

(** Witness for X8: confidences [0.8] and [0.7] beside one failed layer. *)
Lemma integrate_layer_results_bounds_witness :
  (forall c, In c (collect_confidences three_results) -> (0.7 <= c)%Q /\ (c <= 0.8)%Q)
  /\ (0.7 <= average_confidence (_integrate_layer_results three_results))%Q
  /\ (average_confidence (_integrate_layer_results three_results) <= 0.8)%Q.
Proof.
  assert (Hall : forall c, In c (collect_confidences three_results) ->
                   (0.7 <= c)%Q /\ (c <= 0.8)%Q).
  { intros c [<-|[<-|[]]]; split; discriminate. }
  split; [exact Hall|].
  apply (proj1 (proj2 (proj2 (proj2 (proj2
           (integrate_layer_results_bounds three_results 0.7%Q 0.8%Q Hall)))))).
  discriminate.
Defined.

(** Witness for X10: [91 = 7 * 13] and [97]. *)
Lemma is_prime_correct_witness :
  _is_prime 1 = Returned false
  /\ (exists b, _is_prime 91 = Returned b /\ (b = true <-> Z.prime 91))
  /\ (exists b, _is_prime 97 = Returned b /\ (b = true <-> Z.prime 97)).
Proof.
  split; [|split].
  - apply (proj1 (@is_prime_correct exact_sqrt 1)). lia.
  - apply (proj1 (proj2 (@is_prime_correct exact_sqrt 91)) ltac:(lia) 9%Z eq_refl). cbn. lia.
  - apply (proj1 (proj2 (@is_prime_correct exact_sqrt 97)) ltac:(lia) 9%Z eq_refl). cbn. lia.
Defined.

(** Witness for X17: a third equation stored beside [beta] and [alpha],
    then looked for by a piece of its formula. *)
Lemma stored_equation_is_retrieved_witness :
  data_equation equation_data = Some (IsDict gamma_equation)
  /\ (forall row, In row (rows (equations alpha_beta_store)) ->
        equation_id row <> "eq_" ++ item_uuid readings_3)
  /\ exists results,
       Databases.retrieve_knowledge "x + c" 10
         (fst (MathematicalStore.store_learning (MathematicalStore.DictData equation_data)
                 USER_INTERACTION None readings_3 alpha_beta_store))
       = Returned results
       /\ In (equation_record (equation_row gamma_equation readings_3 3)) results.
Proof.
  assert (Hfresh : forall row, In row (rows (equations alpha_beta_store)) ->
                     equation_id row <> "eq_" ++ item_uuid readings_3).
  { intros row [<-|[<-|[]]]; discriminate. }
  split; [reflexivity|]. split; [exact Hfresh|].
  assert (Hocc : equation_type (equation_row gamma_equation readings_3 3) = "y = " ++ "x + c" ++ ""
                 \/ equation_formula (equation_row gamma_equation readings_3 3)
                    = "y = " ++ "x + c" ++ "")
    by (right; reflexivity).
  assert (Hcount : (Z.of_nat (length (List.filter (equation_matches "x + c")
                                        (rows (equations alpha_beta_store)))) < 10)%Z)
    by (vm_compute; reflexivity).
  apply (proj1 (proj2 (proj2 (proj2 (proj2 (proj2 (proj2 (proj2
           (stored_equation_is_retrieved equation_data gamma_equation USER_INTERACTION None
              readings_3 alpha_beta_store eq_refl Hfresh)))))))
           "x + c" "y = " "" 10%Z Hocc Hcount)).
  lia.
Defined.

(** Witness for X18: a string under ['equation'], and an equation whose
    [uuid4()] is the one of a stored equation. *)
Lemma failed_store_logs_failure_witness :
  equations (fst (MathematicalStore.store_learning
                    (MathematicalStore.DictData text_equation_data)
                    USER_INTERACTION None readings_3 alpha_beta_store))
  = equations alpha_beta_store
  /\ map success
       (select_by_key session_id "math_learning_s2"
          (tbl_learning_sessions
             (base (fst (MathematicalStore.store_learning
                           (MathematicalStore.DictData equation_data)
                           USER_INTERACTION None readings_2 alpha_beta_store)))))
     = [false].
Proof.
  split.
  - rewrite (failed_store_logs_failure (MathematicalStore.DictData text_equation_data)
               USER_INTERACTION None readings_3 alpha_beta_store
               "'str' object has no attribute 'get'").
    + reflexivity.
    + left. exists text_equation_data, "str". split; [reflexivity|].
      split; [reflexivity|]. left. reflexivity.
  - rewrite (failed_store_logs_failure (MathematicalStore.DictData equation_data)
               USER_INTERACTION None readings_2 alpha_beta_store
               "UNIQUE constraint failed: equations.equation_id").
    + vm_compute. reflexivity.
    + right. left.
      exists equation_data, gamma_equation,
        {| eq_id := 2; equation_id := "eq_2"; equation_type := "alpha";
           equation_formula := "y = x"; parameters := "{}"; domain := "real";
           range_info := "real"; accuracy := 0.9; eq_usage_count := 0;
           creation_date := "2025-01-01T00:00:02" |}.
      split; [reflexivity|]. split; [reflexivity|]. split; [right; left; reflexivity|].
      split; reflexivity.
Defined.

(** Witness for X20: [pi] stored with two decimals stays so when the
    database is opened again. *)
Lemma stored_constant_survives_reopen_witness :
  map constant_value
    (select_by_key constant_name "pi"
       (mathematical_constants
          (reopen "2025-02-01T00:00:00"
             (fst (MathematicalStore.store_learning (MathematicalStore.DictData constant_data)
                     USER_INTERACTION None readings_3 fresh_mathematical)))))
  = [3.14%Q].
Proof.
  rewrite (proj1 (proj2 (proj2 (proj2 (proj2 (proj2 (proj2
             (stored_constant_survives_reopen constant_data short_pi USER_INTERACTION None
                readings_3 fresh_mathematical "2025-02-01T00:00:00"
                eq_refl eq_refl eq_refl)))))))).
  reflexivity.
Defined.

(** Witness for X22: a rule stored in a new logical database, found by a
    word of its premise, although the dict also has an ['inference']. *)
Lemma stored_rule_is_retrieved_witness :
  data_rule rule_data = Some (IsDict syllogism)
  /\ (forall row, In row (rows (logical_rules fresh_logical)) ->
        rule_id row <> "rule_" ++ item_uuid readings_3)
  /\ exists results,
       LogicalStore.retrieve_knowledge "mortal" 10
         (fst (LogicalStore.store_learning (LogicalStore.DictData rule_data)
                 USER_INTERACTION None readings_3 fresh_logical))
       = Returned results
       /\ In (rule_record (rule_row syllogism readings_3 5)) results.
Proof.
  assert (Hfresh : forall row, In row (rows (logical_rules fresh_logical)) ->
                     rule_id row <> "rule_" ++ item_uuid readings_3).
  { intros row [<-|[<-|[<-|[<-|[]]]]]; discriminate. }
  split; [reflexivity|]. split; [exact Hfresh|].
  assert (Hocc : rule_name (rule_row syllogism readings_3 5) = "all men are " ++ "mortal" ++ ""
                 \/ premise (rule_row syllogism readings_3 5) = "all men are " ++ "mortal" ++ ""
                 \/ conclusion (rule_row syllogism readings_3 5)
                    = "all men are " ++ "mortal" ++ "")
    by (right; left; reflexivity).
  assert (Hcount : (Z.of_nat (length (List.filter (rule_matches "mortal")
                                        (rows (logical_rules fresh_logical)))) < 10)%Z)
    by (vm_compute; reflexivity).
  apply (proj1 (proj2 (proj2 (proj2
           (stored_rule_is_retrieved rule_data syllogism USER_INTERACTION None
              readings_3 fresh_logical eq_refl Hfresh)))
           "mortal" "all men are " "" 10%Z Hocc Hcount)).
  lia.
Defined.

(** Witness for X23: a contradiction handed to a new logical database. *)
Lemma inference_and_contradiction_never_stored_witness :
  logical_rules (fst (LogicalStore.store_learning (LogicalStore.DictData contradiction_data)
                        USER_INTERACTION None readings_3 fresh_logical))
  = logical_rules fresh_logical
  /\ map Databases.metadata
       (rows (tbl_learning_sessions
                (logical_base
                   (fst (LogicalStore.store_learning (LogicalStore.DictData contradiction_data)
                           USER_INTERACTION None readings_3 fresh_logical)))))
     = ["{**{}, 'error': ''LogicalDatabase' object has no attribute '_store_contradiction''}"].
Proof.
  rewrite (inference_and_contradiction_never_stored contradiction_data USER_INTERACTION None
             readings_3 fresh_logical eq_refl eq_refl).
  split; reflexivity.
Defined.

End StoreExamples.
